(** * Scheduling core of the calendar: conflicts, free slots, scoring, habits

    A shallow embedding of
      - [src/services/scheduler/conflicts.ts]   (modules [Conflicts] and
        [BackToBack]),
      - [src/services/scheduler/suggestions.ts] (modules [Suggestions] and
        [NextSlot]),
      - [src/services/storage/habits.ts]        (modules [Habits] and
        [HabitStore]),
      - [getHabitInsights] of [src/hooks/useHabits.ts] (module [Insights]),
      - [detectConflicts] of [src/stores/calendarStore.ts] (module [Store]),
    together with the few functions of the date library and of the
    JavaScript runtime that these files call. *)

From Stdlib Require Import String Ascii.
From Stdlib Require Import ZArith List Bool Lia.
From Stdlib Require Import Sorting.Sorted Sorting.Permutation.
From Stdlib Require Import Relations.Relation_Operators Relations.Operators_Properties.
From Stdlib Require Import Numbers.DecimalString.
Import ListNotations.

Open Scope Z_scope.

(* ===================================================================== *)
(** ** The date library *)

(** A [Date] is a number of milliseconds on the local time line (local
    midnight of 1970-01-01 is 0).  The host's zone is taken to be a fixed
    offset from UTC, so that every local day lasts 24 hours; comparisons and
    differences of instants are those of [getTime].  The functions below are
    the ones of date-fns 3 that the scheduler imports. *)
Module DateFns.

Definition Date := Z.

Definition millisecondsInMinute : Z := 60000.
Definition millisecondsInHour : Z := 3600000.
Definition millisecondsInDay : Z := 86400000.

Definition getTime (d : Date) : Z := d.

Definition isBefore (date dateToCompare : Date) : bool :=
  getTime date <? getTime dateToCompare.

Definition isAfter (date dateToCompare : Date) : bool :=
  getTime dateToCompare <? getTime date.

(** The difference in minutes is truncated towards zero. *)
Definition differenceInMinutes (dateLeft dateRight : Date) : Z :=
  Z.quot (getTime dateLeft - getTime dateRight) millisecondsInMinute.

Definition addMinutes (date : Date) (amount : Z) : Date :=
  date + amount * millisecondsInMinute.

Definition addDays (date : Date) (amount : Z) : Date :=
  date + amount * millisecondsInDay.

Definition startOfDay (date : Date) : Date :=
  date - date mod millisecondsInDay.

Definition getHours (date : Date) : Z :=
  (date mod millisecondsInDay) / millisecondsInHour.

Definition getMinutes (date : Date) : Z :=
  (date mod millisecondsInHour) / millisecondsInMinute.

(** 0 is Sunday; 1970-01-01 was a Thursday. *)
Definition getDay (date : Date) : Z :=
  (date / millisecondsInDay + 4) mod 7.

(** Hours (minutes) outside 0..23 (0..59) carry into the neighbouring
    days (hours), as [Date.prototype.setHours] does. *)
Definition setHours (date : Date) (hours : Z) : Date :=
  date + (hours - getHours date) * millisecondsInHour.

Definition setMinutes (date : Date) (minutes : Z) : Date :=
  date + (minutes - getMinutes date) * millisecondsInMinute.

Record Interval : Type := mkInterval { start : Date; end_ : Date }.

(** date-fns 3 orders the two ends of an interval before it uses them. *)
Definition normalized (i : Interval) : Z * Z :=
  (Z.min (getTime (start i)) (getTime (end_ i)),
   Z.max (getTime (start i)) (getTime (end_ i))).

Definition areIntervalsOverlapping (intervalLeft intervalRight : Interval) : bool :=
  let '(leftStartTime, leftEndTime) := normalized intervalLeft in
  let '(rightStartTime, rightEndTime) := normalized intervalRight in
  (leftStartTime <? rightEndTime) && (rightStartTime <? leftEndTime).

Definition isWithinInterval (date : Date) (interval : Interval) : bool :=
  let '(startTime, endTime) := normalized interval in
  (startTime <=? getTime date) && (getTime date <=? endTime).

End DateFns.

(* ===================================================================== *)
(** ** The JavaScript containers the scheduler uses *)

Module Js.

Section ArraySort.
Context {A : Type}.
(** [compareFn a b < 0] puts [a] first; the sort is stable. *)
Variable compareFn : A -> A -> Z.

Fixpoint insert (x : A) (l : list A) : list A :=
  match l with
  | [] => [x]
  | y :: l' => if compareFn x y <=? 0 then x :: l else y :: insert x l'
  end.

(** [Array.prototype.sort(compareFn)]: each element is placed before
    the first later element that it does not follow. *)
Definition sort (l : list A) : list A := fold_right insert [] l.
End ArraySort.

(** [Array.prototype.slice(-n)]: the last [n] elements. *)
Definition sliceLast {A : Type} (n : nat) (l : list A) : list A :=
  skipn (length l - n) l.

(** [Array.prototype.findIndex]. *)
Fixpoint findIndex {A : Type} (p : A -> bool) (l : list A) : option nat :=
  match l with
  | [] => None
  | x :: l' => if p x then Some O
               else match findIndex p l' with
                    | Some i => Some (S i)
                    | None => None
                    end
  end.

(** [updated[i] = v] on a copy, for an index within the array. *)
Fixpoint setAt {A : Type} (i : nat) (v : A) (l : list A) : list A :=
  match l, i with
  | [], _ => []
  | _ :: l', O => v :: l'
  | x :: l', S i' => x :: setAt i' v l'
  end.

(** A [Set<string>], in insertion order. *)
Definition StringSet := list string.

Definition set_has (s : StringSet) (x : string) : bool :=
  existsb (String.eqb x) s.

Definition set_add (s : StringSet) (x : string) : StringSet :=
  if set_has s x then s else s ++ [x].

(** A [Map<string, Set<string>>], in insertion order of its keys. *)
Definition StringMap := list (string * StringSet).

Fixpoint map_get (m : StringMap) (k : string) : option StringSet :=
  match m with
  | [] => None
  | (k', v) :: m' => if String.eqb k' k then Some v else map_get m' k
  end.

Definition map_has (m : StringMap) (k : string) : bool :=
  match map_get m k with Some _ => true | None => false end.

(** Setting a key that is present keeps its position. *)
Fixpoint map_set (m : StringMap) (k : string) (v : StringSet) : StringMap :=
  match m with
  | [] => [(k, v)]
  | (k', v') :: m' =>
      if String.eqb k' k then (k, v) :: m' else (k', v') :: map_set m' k v
  end.

(** [m.get(k)!.add(x)]: the set stored under [k] is updated in place. *)
Definition map_add (m : StringMap) (k x : string) : StringMap :=
  match map_get m k with
  | Some s => map_set m k (set_add s x)
  | None => m
  end.

(** [Math.round(n / d)] for integers [n] and [d > 0]: halves go up. *)
Definition roundDiv (n d : Z) : Z := (2 * n + d) / (2 * d).

(** Decimal rendering of an integer inside a template string. *)
Definition numberToString (n : Z) : string :=
  NilZero.string_of_int (Z.to_int n).

End Js.

(* ===================================================================== *)
(** ** Types ([src/types/index.ts]) *)

Inductive EventCategory : Type :=
  work | personal | health | social | learning | other.

Definition EventCategory_eqb (a b : EventCategory) : bool :=
  match a, b with
  | work, work | personal, personal | health, health
  | social, social | learning, learning | other, other => true
  | _, _ => false
  end.

(** The fields of a [CalendarEvent] that the scheduler reads. *)
Module Event.
Record t : Type := mk {
  id : string;
  start : DateFns.Date;
  end_ : DateFns.Date;
  allDay : option bool;
  category : option EventCategory
}.

(** [e.allDay] as a condition: an absent flag is falsy. *)
Definition isAllDay (e : t) : bool :=
  match allDay e with Some true => true | _ => false end.

Definition interval (e : t) : DateFns.Interval :=
  DateFns.mkInterval (start e) (end_ e).
End Event.
Definition CalendarEvent : Type := Event.t.

Inductive ConflictType : Type := overlap | back_to_back | overbooking.
Inductive Severity : Type := low | medium | high.

Module Conflict.
Record t : Type := mk {
  id : string;
  events : list string;
  type : ConflictType;
  severity : Severity
}.
End Conflict.
Definition Conflict : Type := Conflict.t.

(* ===================================================================== *)
(** ** [src/services/scheduler/conflicts.ts] *)

Module Conflicts.
Import Js.

Definition byStart (a b : CalendarEvent) : Z :=
  DateFns.getTime (Event.start a) - DateFns.getTime (Event.start b).

Definition sortedEvents (events : list CalendarEvent) : list CalendarEvent :=
  sort byStart (filter (fun e => negb (Event.isAllDay e)) events).

Definition overlapping (eventA eventB : CalendarEvent) : bool :=
  DateFns.areIntervalsOverlapping (Event.interval eventA) (Event.interval eventB).

(** Lines 30-35: a key that is missing gets an empty set. *)
Definition ensureEntry (conflictMap : StringMap) (k : string) : StringMap :=
  if map_has conflictMap k then conflictMap else map_set conflictMap k [].

(** Lines 30-37: both events get an entry, and each is added to the
    other's set. *)
Definition recordOverlap (conflictMap : StringMap) (eventA eventB : CalendarEvent)
  : StringMap :=
  let m1 := ensureEntry conflictMap (Event.id eventA) in
  let m2 := ensureEntry m1 (Event.id eventB) in
  let m3 := map_add m2 (Event.id eventA) (Event.id eventB) in
  map_add m3 (Event.id eventB) (Event.id eventA).

Definition checkPair (eventA : CalendarEvent) (conflictMap : StringMap)
  (eventB : CalendarEvent) : StringMap :=
  if overlapping eventA eventB then recordOverlap conflictMap eventA eventB
  else conflictMap.

(** The loops on [i] and on [j > i]. *)
Fixpoint checkPairs (conflictMap : StringMap) (sorted : list CalendarEvent)
  : StringMap :=
  match sorted with
  | [] => conflictMap
  | eventA :: rest => checkPairs (fold_left (checkPair eventA) rest conflictMap) rest
  end.

(** Lines 56-61: the ids related to the current one that are new are
    added to [allRelatedEvents] and queued. *)
Definition visitRelated (st : StringSet * list string) (relatedId : string)
  : StringSet * list string :=
  let '(allRelatedEvents, queue) := st in
  if set_has allRelatedEvents relatedId then st
  else (set_add allRelatedEvents relatedId, queue ++ [relatedId]).

(** The [while (queue.length > 0)] loop, run for at most [fuel] rounds;
    it returns the queue and the set it stopped with. *)
Fixpoint traverse (fuel : nat) (conflictMap : StringMap)
  (allRelatedEvents : StringSet) (queue : list string)
  : StringSet * list string :=
  match fuel, queue with
  | S fuel', currentId :: rest =>
      let '(all', queue') :=
        match map_get conflictMap currentId with
        | Some related => fold_left visitRelated related (allRelatedEvents, rest)
        | None => (allRelatedEvents, rest)
        end in
      traverse fuel' conflictMap all' queue'
  | _, _ => (allRelatedEvents, queue)
  end.

(** Every id is queued at most once, so the loop makes no more rounds
    than there are ids in the map. *)
Definition mapIds (conflictMap : StringMap) : list string :=
  flat_map (fun entry => fst entry :: snd entry) conflictMap.

Definition rounds (conflictMap : StringMap) : nat :=
  S (length (mapIds conflictMap)).

Definition severityOf (eventCount : Z) : Severity :=
  if eventCount >? 3 then high else if eventCount >? 2 then medium else low.

Definition typeOf (eventCount : Z) : ConflictType :=
  if eventCount >? 2 then overbooking else overlap.

Definition conflictId (now : Z) (index : nat) : string :=
  ("conflict-" ++ numberToString now ++ "-" ++ numberToString (Z.of_nat index))%string.

(** One round of the loop over the entries of the map.  [clock k] is what
    [Date.now()] reads when the conflict of index [k] is pushed. *)
Definition groupEntry (clock : nat -> Z) (conflictMap : StringMap)
  (st : StringSet * list Conflict) (entry : string * StringSet)
  : StringSet * list Conflict :=
  let '(processedEvents, conflicts) := st in
  let eventId := fst entry in
  if set_has processedEvents eventId then st
  else
    let allRelatedEvents :=
      fst (traverse (rounds conflictMap) conflictMap [eventId] [eventId]) in
    let processed' := fold_left set_add allRelatedEvents processedEvents in
    let eventCount := Z.of_nat (length allRelatedEvents) in
    (processed',
     conflicts ++
       [Conflict.mk (conflictId (clock (length conflicts)) (length conflicts))
                    allRelatedEvents (typeOf eventCount) (severityOf eventCount)]).

Definition groupConflicts (clock : nat -> Z) (conflictMap : StringMap)
  : list Conflict :=
  snd (fold_left (groupEntry clock conflictMap) conflictMap ([], [])).

Definition detectConflicts (clock : nat -> Z) (events : list CalendarEvent)
  : list Conflict :=
  groupConflicts clock (checkPairs [] (sortedEvents events)).

Fixpoint hasConflict (newEvent : DateFns.Interval)
  (existingEvents : list CalendarEvent) : bool :=
  match existingEvents with
  | [] => false
  | event :: rest =>
      if Event.isAllDay event then hasConflict newEvent rest
      else if DateFns.areIntervalsOverlapping newEvent (Event.interval event)
           then true
           else hasConflict newEvent rest
  end.

End Conflicts.

(* ===================================================================== *)
(** ** [src/services/scheduler/suggestions.ts] *)

Module FreeSlot.
Record t : Type := mk {
  start : DateFns.Date;
  end_ : DateFns.Date;
  duration : Z  (* in minutes *)
}.
End FreeSlot.
Definition FreeSlot : Type := FreeSlot.t.

Module TimeSlot.
Record t : Type := mk {
  dayOfWeek : option Z;  (* 0-6 *)
  hour : Z;
  minute : Z
}.
End TimeSlot.
Definition TimeSlot : Type := TimeSlot.t.

Inductive FrequencyType : Type := daily | weekly | monthly.

Module HabitPattern.
Record t : Type := mk {
  id : string;
  category : EventCategory;
  preferredTimes : list TimeSlot;
  avgDuration : Z;  (* in minutes *)
  frequency : FrequencyType;
  lastOccurrences : list DateFns.Date;
  eventCount : Z;
  createdAt : DateFns.Date;
  updatedAt : DateFns.Date
}.
End HabitPattern.
Definition HabitPattern : Type := HabitPattern.t.

Module TimeSuggestion.
(** The score is kept in hundredths: 50 stands for 0.5 and 100 for 1. *)
Record t : Type := mk {
  slot : FreeSlot;
  score : Z;
  reasons : list string
}.
End TimeSuggestion.
Definition TimeSuggestion : Type := TimeSuggestion.t.

Module WorkingHours.
Record t : Type := mk { start : string; end_ : string }.  (* HH:mm *)
End WorkingHours.

Module Suggestions.
Import Js.

(** *** Reading the working hours *)

Definition digitValue (c : ascii) : option Z :=
  let n := Z.of_nat (nat_of_ascii c) in
  if (48 <=? n) && (n <=? 57) then Some (n - 48) else None.

Fixpoint digitsValue (acc : Z) (s : string) : option Z :=
  match s with
  | EmptyString => Some acc
  | String c s' =>
      match digitValue c with
      | Some d => digitsValue (10 * acc + d) s'
      | None => None
      end
  end.

(** [Number(s)] for the strings of an HH:mm time: a run of decimal digits
    is its value (the empty run is 0); [None] stands for [NaN], which is
    what any other character is taken to give here. *)
Definition toNumber (s : string) : option Z := digitsValue 0 s.

(** [s.split(':')]. *)
Fixpoint split (s : string) : list string :=
  match s with
  | EmptyString => [EmptyString]
  | String c s' =>
      if Ascii.eqb c ":"%char then EmptyString :: split s'
      else match split s' with
           | [] => [String c EmptyString]
           | w :: ws => String c w :: ws
           end
  end.

(** [const [h, m] = s.split(':').map(Number)]: a missing component is
    [undefined], which no date function accepts as a number. *)
Definition hourAndMinute (s : string) : option Z * option Z :=
  match map toNumber (split s) with
  | [] => (None, None)
  | [h] => (h, None)
  | h :: m :: _ => (h, m)
  end.

(** *** findFreeSlots *)

Definition byStart (a b : CalendarEvent) : Z :=
  DateFns.getTime (Event.start a) - DateFns.getTime (Event.start b).

(** The filter of lines 48-54. *)
Definition onDay (dayStart dayEnd : DateFns.Date) (e : CalendarEvent) : bool :=
  if Event.isAllDay e then false
  else
    let eventStart := Event.start e in
    DateFns.isWithinInterval eventStart (DateFns.mkInterval dayStart dayEnd)
    || DateFns.isWithinInterval (Event.end_ e) (DateFns.mkInterval dayStart dayEnd)
    || (DateFns.isBefore eventStart dayStart && DateFns.isAfter (Event.end_ e) dayEnd).

Definition dayEvents (events : list CalendarEvent) (dayStart dayEnd : DateFns.Date)
  : list CalendarEvent :=
  sort byStart (filter (onDay dayStart dayEnd) events).

(** [freeSlots.push] of a gap that is long enough. *)
Definition pushGap (minDuration : Z) (freeSlots : list FreeSlot)
  (from to : DateFns.Date) : list FreeSlot :=
  if DateFns.isBefore from to then
    let duration := DateFns.differenceInMinutes to from in
    if duration >=? minDuration
    then freeSlots ++ [FreeSlot.mk from to duration]
    else freeSlots
  else freeSlots.

(** The body of the loop over the events of the day (lines 61-83); the
    state is the cursor [slotStart] and the slots found so far. *)
Definition scanEvent (dayStart dayEnd : DateFns.Date) (minDuration : Z)
  (st : DateFns.Date * list FreeSlot) (event : CalendarEvent)
  : DateFns.Date * list FreeSlot :=
  let '(slotStart, freeSlots) := st in
  let eventStart := Event.start event in
  let eventEnd := Event.end_ event in
  let effectiveStart :=
    if DateFns.isBefore eventStart dayStart then dayStart else eventStart in
  let effectiveEnd :=
    if DateFns.isAfter eventEnd dayEnd then dayEnd else eventEnd in
  let freeSlots' := pushGap minDuration freeSlots slotStart effectiveStart in
  let slotStart' :=
    if DateFns.isAfter effectiveEnd slotStart then effectiveEnd else slotStart in
  (slotStart', freeSlots').

(** One round of the loop over the days (lines 43-96). *)
Definition scanDay (events : list CalendarEvent)
  (workStartHour workStartMin workEndHour workEndMin minDuration : Z)
  (currentDay : DateFns.Date) (freeSlots : list FreeSlot) : list FreeSlot :=
  let dayStart :=
    DateFns.setMinutes (DateFns.setHours currentDay workStartHour) workStartMin in
  let dayEnd :=
    DateFns.setMinutes (DateFns.setHours currentDay workEndHour) workEndMin in
  let '(slotStart, freeSlots') :=
    fold_left (scanEvent dayStart dayEnd minDuration)
              (dayEvents events dayStart dayEnd) (dayStart, freeSlots) in
  pushGap minDuration freeSlots' slotStart dayEnd.

(** [while (currentDay <= lastDay)], for at most [fuel] days. *)
Fixpoint scanDays (fuel : nat) (events : list CalendarEvent)
  (workStartHour workStartMin workEndHour workEndMin minDuration : Z)
  (currentDay lastDay : DateFns.Date) (freeSlots : list FreeSlot)
  : list FreeSlot :=
  match fuel with
  | O => freeSlots
  | S fuel' =>
      if currentDay <=? lastDay then
        scanDays fuel' events workStartHour workStartMin workEndHour workEndMin
          minDuration (DateFns.addDays currentDay 1) lastDay
          (scanDay events workStartHour workStartMin workEndHour workEndMin
             minDuration currentDay freeSlots)
      else freeSlots
  end.

(** The number of days from [currentDay] to [lastDay], both included. *)
Definition dayCount (currentDay lastDay : DateFns.Date) : nat :=
  Z.to_nat ((lastDay - currentDay) / DateFns.millisecondsInDay + 1).

(** With a working hour that is not a number both ends of the window
    are invalid dates, which compare false with everything: the filter
    keeps no event and no gap is pushed on any day. *)
Definition findFreeSlots (events : list CalendarEvent)
  (startDate endDate : DateFns.Date) (workingHours : WorkingHours.t)
  (minDuration : Z) : list FreeSlot :=
  let currentDay := DateFns.startOfDay startDate in
  let lastDay := DateFns.startOfDay endDate in
  match hourAndMinute (WorkingHours.start workingHours),
        hourAndMinute (WorkingHours.end_ workingHours) with
  | (Some workStartHour, Some workStartMin), (Some workEndHour, Some workEndMin) =>
      scanDays (dayCount currentDay lastDay) events
        workStartHour workStartMin workEndHour workEndMin minDuration
        currentDay lastDay []
  | _, _ => []
  end.

(** *** suggestBestTimes *)

Definition categoryName (c : EventCategory) : string :=
  match c with
  | work => "work" | personal => "personal" | health => "health"
  | social => "social" | learning => "learning" | other => "other"
  end.

(** [${category}] in a template string. *)
Definition categoryText (category : option EventCategory) : string :=
  match category with Some c => categoryName c | None => "undefined" end.

(** [h.category === category] and [category === 'work']. *)
Definition isCategory (category : option EventCategory) (c : EventCategory) : bool :=
  match category with Some c' => EventCategory_eqb c c' | None => false end.

Definition sameDay (dayOfWeek : option Z) (slotDayOfWeek : Z) : bool :=
  match dayOfWeek with Some d => d =? slotDayOfWeek | None => false end.

(** The body of the loop over the preferred times (lines 128-141); the
    state is the score and the reasons. *)
Definition scorePreferredTime (category : option EventCategory)
  (slotHour slotDayOfWeek : Z) (st : Z * list string) (preferredTime : TimeSlot)
  : Z * list string :=
  let '(score, reasons) := st in
  let '(score, reasons) :=
    if sameDay (TimeSlot.dayOfWeek preferredTime) slotDayOfWeek
    then (score + 10,
          reasons ++ [("You often schedule " ++ categoryText category
                       ++ " events on this day")%string])
    else (score, reasons) in
  let hourDiff := Z.abs (TimeSlot.hour preferredTime - slotHour) in
  if hourDiff <=? 1
  then (score + 20,
        reasons ++ [("This matches your usual time for " ++ categoryText category
                     ++ " tasks")%string])
  else if hourDiff <=? 2 then (score + 10, reasons)
  else (score, reasons).

(** The score and the reasons of a slot that is long enough (lines
    119-176). *)
Definition scoreSlot (desiredDuration : Z) (categoryHabit : option HabitPattern)
  (category : option EventCategory) (slot : FreeSlot) : Z * list string :=
  let st : Z * list string := (50, []) in
  let slotHour := DateFns.getHours (FreeSlot.start slot) in
  let slotDayOfWeek := DateFns.getDay (FreeSlot.start slot) in
  let st :=
    match categoryHabit with
    | Some habit =>
        fold_left (scorePreferredTime category slotHour slotDayOfWeek)
                  (HabitPattern.preferredTimes habit) st
    | None => st
    end in
  let st :=
    if isCategory category work || isCategory category learning then
      if (slotHour >=? 9) && (slotHour <? 12)
      then (fst st + 15, snd st ++ ["Morning hours are great for focused work"%string])
      else st
    else st in
  let st :=
    if isCategory category social then
      if slotHour >=? 17
      then (fst st + 10,
            snd st ++ ["Evening is typically better for social activities"%string])
      else st
    else st in
  let st :=
    if isCategory category health then
      if ((slotHour >=? 6) && (slotHour <? 8)) || ((slotHour >=? 17) && (slotHour <? 19))
      then (fst st + 15, snd st ++ ["Great time for exercise"%string])
      else st
    else st in
  let st :=
    if FreeSlot.duration slot >=? desiredDuration + 30
    then (fst st + 10, snd st ++ ["Extra buffer time available"%string])
    else st in
  (Z.min (fst st) 100, snd st).

(** The body of the loop over the free slots. *)
Definition suggestSlot (desiredDuration : Z) (categoryHabit : option HabitPattern)
  (category : option EventCategory) (suggestions : list TimeSuggestion)
  (slot : FreeSlot) : list TimeSuggestion :=
  if FreeSlot.duration slot <? desiredDuration then suggestions
  else
    let '(score, reasons) := scoreSlot desiredDuration categoryHabit category slot in
    suggestions ++
      [TimeSuggestion.mk
         (FreeSlot.mk (FreeSlot.start slot)
                      (DateFns.addMinutes (FreeSlot.start slot) desiredDuration)
                      desiredDuration)
         score reasons].

Definition byScoreDescending (a b : TimeSuggestion) : Z :=
  TimeSuggestion.score b - TimeSuggestion.score a.

Definition suggestBestTimes (freeSlots : list FreeSlot) (desiredDuration : Z)
  (habits : list HabitPattern) (category : option EventCategory)
  : list TimeSuggestion :=
  let categoryHabit :=
    find (fun h => isCategory category (HabitPattern.category h)) habits in
  sort byScoreDescending
    (fold_left (suggestSlot desiredDuration categoryHabit category) freeSlots []).

End Suggestions.

(* ===================================================================== *)
(** ** [src/services/storage/habits.ts] *)

Module Habits.
Import Js.

(** The [habits] table, whose primary key is [id], with its rows in the
    order in which they were added.  Dates are stored as ISO strings and
    read back to the same instants.  [where('category').equals(c).first()]
    is the first row of category [c]; the table holds at most one row per
    category when its rows come from [learnFromEvent]. *)
Definition Table : Type := list HabitPattern.

Inductive result (A : Type) : Type :=
| Ok (a : A)
| ConstraintError.  (* [add] of a key that is already in the table *)
Arguments Ok {A} a.
Arguments ConstraintError {A}.

(** What the code reads from its environment during one call. *)
Record Env : Type := mkEnv {
  now : DateFns.Date;       (* [new Date()] *)
  generatedId : string      (* [generateId()] *)
}.

Definition table_get (db : Table) (id : string) : option HabitPattern :=
  find (fun h => String.eqb (HabitPattern.id h) id) db.

Definition table_add (db : Table) (h : HabitPattern) : result Table :=
  match table_get db (HabitPattern.id h) with
  | Some _ => ConstraintError
  | None => Ok (db ++ [h])
  end.

Fixpoint table_put (db : Table) (h : HabitPattern) : Table :=
  match db with
  | [] => [h]
  | h' :: db' =>
      if String.eqb (HabitPattern.id h') (HabitPattern.id h) then h :: db'
      else h' :: table_put db' h
  end.

(** The fields a caller of [createHabit] supplies. *)
Record NewHabit : Type := mkNewHabit {
  new_category : EventCategory;
  new_preferredTimes : list TimeSlot;
  new_avgDuration : Z;
  new_frequency : FrequencyType;
  new_lastOccurrences : list DateFns.Date;
  new_eventCount : Z
}.

Definition createHabit (env : Env) (habit : NewHabit) (db : Table)
  : result (HabitPattern * Table) :=
  let newHabit :=
    HabitPattern.mk (generatedId env) (new_category habit)
      (new_preferredTimes habit) (new_avgDuration habit) (new_frequency habit)
      (new_lastOccurrences habit) (new_eventCount habit) (now env) (now env) in
  match table_add db newHabit with
  | Ok db' => Ok (newHabit, db')
  | ConstraintError => ConstraintError
  end.

Definition getHabit (db : Table) (id : string) : option HabitPattern :=
  table_get db id.

Definition getHabitByCategory (db : Table) (category : EventCategory)
  : option HabitPattern :=
  find (fun h => EventCategory_eqb (HabitPattern.category h) category) db.

(** The [Partial<HabitPattern>] that [learnFromEvent] passes. *)
Record Updates : Type := mkUpdates {
  upd_preferredTimes : list TimeSlot;
  upd_avgDuration : Z;
  upd_lastOccurrences : list DateFns.Date;
  upd_eventCount : Z
}.

Definition updateHabit (env : Env) (id : string) (updates : Updates) (db : Table)
  : option HabitPattern * Table :=
  match table_get db id with
  | None => (None, db)
  | Some existing =>
      let updated :=
        HabitPattern.mk id (HabitPattern.category existing)
          (upd_preferredTimes updates) (upd_avgDuration updates)
          (HabitPattern.frequency existing)
          (upd_lastOccurrences updates) (upd_eventCount updates)
          (HabitPattern.createdAt existing) (now env) in
      (Some updated, table_put db updated)
  end.

Definition similarTo (newSlot : TimeSlot) (slot : TimeSlot) : bool :=
  match TimeSlot.dayOfWeek slot, TimeSlot.dayOfWeek newSlot with
  | Some d, Some d' => d =? d'
  | None, None => true
  | _, _ => false
  end
  && (Z.abs (TimeSlot.hour slot - TimeSlot.hour newSlot) <=? 1).

Definition updatePreferredTimes (existing : list TimeSlot) (newSlot : TimeSlot)
  : list TimeSlot :=
  match findIndex (similarTo newSlot) existing with
  | Some similarIndex =>
      match nth_error existing similarIndex with
      | Some similar =>
          let avgHour := roundDiv (TimeSlot.hour similar + TimeSlot.hour newSlot) 2 in
          let avgMinute :=
            roundDiv (TimeSlot.minute similar + TimeSlot.minute newSlot) 2 in
          setAt similarIndex
                (TimeSlot.mk (TimeSlot.dayOfWeek similar) avgHour avgMinute)
                existing
      | None => existing
      end
  | None => sliceLast 5 (existing ++ [newSlot])
  end.

Definition categoryOf (event : CalendarEvent) : EventCategory :=
  match Event.category event with Some c => c | None => other end.

(** The result holds what the call resolves to ([None] is [undefined])
    and the table it leaves. *)
Definition learnFromEvent (env : Env) (event : CalendarEvent) (db : Table)
  : result (option HabitPattern * Table) :=
  let category := categoryOf event in
  let eventTimeSlot :=
    TimeSlot.mk (Some (DateFns.getDay (Event.start event)))
                (DateFns.getHours (Event.start event))
                (DateFns.getMinutes (Event.start event)) in
  let duration := DateFns.differenceInMinutes (Event.end_ event) (Event.start event) in
  match getHabitByCategory db category with
  | Some habit =>
      let newOccurrences :=
        sliceLast 10 (HabitPattern.lastOccurrences habit ++ [Event.start event]) in
      let newPreferredTimes :=
        updatePreferredTimes (HabitPattern.preferredTimes habit) eventTimeSlot in
      let newAvgDuration :=
        roundDiv (HabitPattern.avgDuration habit * HabitPattern.eventCount habit
                  + duration)
                 (HabitPattern.eventCount habit + 1) in
      Ok (updateHabit env (HabitPattern.id habit)
            (mkUpdates newPreferredTimes newAvgDuration newOccurrences
                       (HabitPattern.eventCount habit + 1)) db)
  | None =>
      match createHabit env
              (mkNewHabit category [eventTimeSlot] duration weekly
                          [Event.start event] 1) db with
      | Ok (h, db') => Ok (Some h, db')
      | ConstraintError => ConstraintError
      end
  end.

Definition byTime (a b : DateFns.Date) : Z := DateFns.getTime a - DateFns.getTime b.

(** The gaps between successive occurrences, in milliseconds. *)
Fixpoint gaps (occurrences : list DateFns.Date) : list Z :=
  match occurrences with
  | a :: (b :: _) as rest => (DateFns.getTime b - DateFns.getTime a) :: gaps rest
  | _ => []
  end.

(** The average gap in days is compared with 1.5 and with 10 as a
    fraction: [sum / (n * millisecondsInDay) <= 3 / 2] and [<= 10]. *)
Definition analyzeHabitFrequency (db : Table) (habitId : string) : FrequencyType :=
  match getHabit db habitId with
  | None => weekly
  | Some habit =>
      if (length (HabitPattern.lastOccurrences habit) <? 2)%nat then weekly
      else
        let occurrences := sort byTime (HabitPattern.lastOccurrences habit) in
        let total := fold_left Z.add (gaps occurrences) 0 in
        let n := Z.of_nat (length (gaps occurrences)) in
        if 2 * total <=? 3 * n * DateFns.millisecondsInDay then daily
        else if total <=? 10 * n * DateFns.millisecondsInDay then weekly
        else monthly
  end.

Definition getSuggestedTimeForCategory (db : Table) (category : EventCategory)
  (date : DateFns.Date) : option TimeSlot :=
  match getHabitByCategory db category with
  | None => None
  | Some habit =>
      match HabitPattern.preferredTimes habit with
      | [] => None
      | first :: _ =>
          let dayOfWeek := DateFns.getDay date in
          match find (fun slot => Suggestions.sameDay (TimeSlot.dayOfWeek slot) dayOfWeek)
                     (HabitPattern.preferredTimes habit) with
          | Some matchingSlot => Some matchingSlot
          | None => Some first
          end
      end
  end.

(** [habit?.avgDuration || 60]: 0 is falsy. *)
Definition getAvgDurationForCategory (db : Table) (category : EventCategory) : Z :=
  match getHabitByCategory db category with
  | Some habit =>
      if HabitPattern.avgDuration habit =? 0 then 60 else HabitPattern.avgDuration habit
  | None => 60
  end.

(** A run of [learnFromEvent] over successive events. *)
Fixpoint learnAll (calls : list (Env * CalendarEvent)) (db : Table) : result Table :=
  match calls with
  | [] => Ok db
  | (env, event) :: rest =>
      match learnFromEvent env event db with
      | Ok (_, db') => learnAll rest db'
      | ConstraintError => ConstraintError
      end
  end.

End Habits.

(* ===================================================================== *)
(** ** The other functions of the scheduler and of the habits store *)

(** [checkBackToBackEvents] of [conflicts.ts] (lines 83-109). *)
Module BackToBack.

Record t : Type := mk { eventA : string; eventB : string; gap : Z }.

(** The loop over [i < sortedEvents.length - 1]: [current] is
    [sortedEvents[i]] and [next] is [sortedEvents[i + 1]]. *)
Fixpoint scanAdjacent (bufferMinutes : Z) (sortedEvents : list CalendarEvent)
  (backToBack : list t) : list t :=
  match sortedEvents with
  | current :: ((next :: _) as rest) =>
      let gap := DateFns.differenceInMinutes (Event.start next) (Event.end_ current) in
      scanAdjacent bufferMinutes rest
        (if (gap >=? 0) && (gap <? bufferMinutes)
         then backToBack ++ [mk (Event.id current) (Event.id next) gap]
         else backToBack)
  | _ => backToBack
  end.

Definition checkBackToBackEvents (events : list CalendarEvent) (bufferMinutes : Z)
  : list t :=
  scanAdjacent bufferMinutes (Conflicts.sortedEvents events) [].

End BackToBack.

(** [findNextAvailableSlot] of [suggestions.ts] (lines 193-215). *)
Module NextSlot.

Definition findNextAvailableSlot (events : list CalendarEvent) (duration : Z)
  (workingHours : WorkingHours.t) (startFrom : DateFns.Date) : option FreeSlot :=
  let endDate := DateFns.addDays startFrom 14 in
  let freeSlots :=
    Suggestions.findFreeSlots events startFrom endDate workingHours duration in
  match find (fun slot => FreeSlot.duration slot >=? duration) freeSlots with
  | Some slot =>
      Some (FreeSlot.mk (FreeSlot.start slot)
                        (DateFns.addMinutes (FreeSlot.start slot) duration)
                        duration)
  | None => None
  end.

End NextSlot.

(** [deleteHabit] and [clearAllHabits] of [habits.ts] (lines 55-61 and
    175-177). *)
Module HabitStore.

Definition table_delete (db : Habits.Table) (id : string) : Habits.Table :=
  filter (fun h => negb (String.eqb (HabitPattern.id h) id)) db.

Definition deleteHabit (id : string) (db : Habits.Table) : bool * Habits.Table :=
  match Habits.table_get db id with
  | None => (false, db)
  | Some _ => (true, table_delete db id)
  end.

Definition clearAllHabits (db : Habits.Table) : Habits.Table := [].

End HabitStore.

(** [getHabitInsights] of the hook [useHabits] ([hooks/useHabits.ts], lines
    34-75). *)
Module Insights.

Record t : Type := mk {
  hasPattern : bool;
  preferredDays : list (option string);  (* [None] is [undefined] *)
  preferredHours : list string;
  avgDuration : Z;
  frequency : option FrequencyType        (* [None] is ['unknown'] *)
}.

Definition dayNames : list string :=
  ["Sunday"; "Monday"; "Tuesday"; "Wednesday"; "Thursday"; "Friday"; "Saturday"]%string.

(** [dayNames[d]]: [undefined] outside the array. *)
Definition dayName (d : Z) : option string :=
  if 0 <=? d then nth_error dayNames (Z.to_nat d) else None.

(** [a.indexOf(v)]. *)
Fixpoint indexOf {A : Type} (eqb : A -> A -> bool) (a : list A) (v : A) : option nat :=
  match a with
  | [] => None
  | x :: a' => if eqb x v then Some O
               else match indexOf eqb a' v with
                    | Some i => Some (S i)
                    | None => None
                    end
  end.

Definition isIndex (o : option nat) (i : nat) : bool :=
  match o with Some j => Nat.eqb j i | None => false end.

(** [a.filter((v, i, a) => a.indexOf(v) === i)]. *)
Definition unique {A : Type} (eqb : A -> A -> bool) (a : list A) : list A :=
  map snd (filter (fun iv => isIndex (indexOf eqb a (snd iv)) (fst iv))
                  (combine (seq 0 (length a)) a)).

Definition optionStringEqb (a b : option string) : bool :=
  match a, b with
  | Some x, Some y => String.eqb x y
  | None, None => true
  | _, _ => false
  end.

Definition hourLabel (hour : Z) : string :=
  let ampm := if hour >=? 12 then "PM"%string else "AM"%string in
  let displayHour := if Z.rem hour 12 =? 0 then 12 else Z.rem hour 12 in
  (Js.numberToString displayHour ++ ":00 " ++ ampm)%string.

Definition definedDay (t : TimeSlot) : bool :=
  match TimeSlot.dayOfWeek t with Some _ => true | None => false end.

Definition dayOf (t : TimeSlot) : option string :=
  match TimeSlot.dayOfWeek t with Some d => dayName d | None => None end.

Definition getHabitInsights (habits : list HabitPattern) (category : EventCategory) : t :=
  match find (fun h => EventCategory_eqb (HabitPattern.category h) category) habits with
  | None => mk false [] [] 60 None
  | Some habit =>
      let preferredDays :=
        unique optionStringEqb
          (map dayOf (filter definedDay (HabitPattern.preferredTimes habit))) in
      let preferredHours :=
        unique String.eqb
          (map (fun t => hourLabel (TimeSlot.hour t)) (HabitPattern.preferredTimes habit)) in
      mk true preferredDays preferredHours (HabitPattern.avgDuration habit)
         (Some (HabitPattern.frequency habit))
  end.

End Insights.

(** [detectConflicts] of the calendar store ([stores/calendarStore.ts],
    lines 361-402), as a function from [visibleEvents] to the conflicts that
    it sets. *)
Module Store.
Import Js.

Definition byStart (a b : CalendarEvent) : Z :=
  DateFns.getTime (Event.start a) - DateFns.getTime (Event.start b).

(** [eventB.start < eventA.end && eventB.end > eventA.start]. *)
Definition overlapping (eventA eventB : CalendarEvent) : bool :=
  (Event.start eventB <? Event.end_ eventA) && (Event.end_ eventB >? Event.start eventA).

(** [c.events.includes(eventA.id) || c.events.includes(eventB.id)]. *)
Definition involves (a b : string) (c : Conflict) : bool :=
  set_has (Conflict.events c) a || set_has (Conflict.events c) b.

(** The two pushes on the events of the conflict found. *)
Definition extend (a b : string) (c : Conflict) : Conflict :=
  Conflict.mk (Conflict.id c) (set_add (set_add (Conflict.events c) a) b)
              (Conflict.type c) (Conflict.severity c).

(** [conflicts.find(...)] and the update, in place, of the conflict found;
    [None] when there is none. *)
Fixpoint merge (a b : string) (conflicts : list Conflict) : option (list Conflict) :=
  match conflicts with
  | [] => None
  | c :: rest =>
      if involves a b c then Some (extend a b c :: rest)
      else match merge a b rest with
           | Some rest' => Some (c :: rest')
           | None => None
           end
  end.

Definition conflictId (now : Z) (i j : nat) : string :=
  ("conflict-" ++ numberToString now ++ "-" ++ numberToString (Z.of_nat i)
   ++ "-" ++ numberToString (Z.of_nat j))%string.

(** The body of the inner loop, for [sortedEvents[i]] and [sortedEvents[j]];
    the state is [j] and the conflicts.  [clock k] is what [Date.now()]
    reads when the conflict of index [k] is pushed. *)
Definition checkPair (clock : nat -> Z) (i : nat) (eventA : CalendarEvent)
  (st : nat * list Conflict) (eventB : CalendarEvent) : nat * list Conflict :=
  let '(j, conflicts) := st in
  (S j,
   if overlapping eventA eventB then
     match merge (Event.id eventA) (Event.id eventB) conflicts with
     | Some conflicts' => conflicts'
     | None =>
         conflicts ++
           [Conflict.mk (conflictId (clock (length conflicts)) i j)
                        [Event.id eventA; Event.id eventB] overlap medium]
     end
   else conflicts).

(** The loops on [i] and on [j > i]. *)
Fixpoint checkPairs (clock : nat -> Z) (i : nat) (sorted : list CalendarEvent)
  (conflicts : list Conflict) : list Conflict :=
  match sorted with
  | [] => conflicts
  | eventA :: rest =>
      checkPairs clock (S i) rest
        (snd (fold_left (checkPair clock i eventA) rest (S i, conflicts)))
  end.

Definition detectConflicts (clock : nat -> Z) (visibleEvents : list CalendarEvent)
  : list Conflict :=
  checkPairs clock 0 (sort byStart visibleEvents) [].

End Store.

(* ===================================================================== *)
(** ** Notions of the specification *)

(** The data model has [end > start]; the degenerate case [end = start]
    is allowed here. *)
Definition wellFormed (e : CalendarEvent) : Prop :=
  Event.start e <= Event.end_ e.

(** Strict overlap of [[s1,e1)] and [[s2,e2)]: [s1 < e2] and [s2 < e1]. *)
Definition strictOverlap (a b : CalendarEvent) : Prop :=
  Event.start a < Event.end_ b /\ Event.start b < Event.end_ a.

(** The events that take part in the overlap analysis. *)
Definition timed (events : list CalendarEvent) : list CalendarEvent :=
  filter (fun e => negb (Event.isAllDay e)) events.

(** The pairwise strict-overlap graph over the non-all-day events, and
    its connected components. *)
Definition overlapEdge (events : list CalendarEvent) (a b : CalendarEvent) : Prop :=
  In a (timed events) /\ In b (timed events) /\ strictOverlap a b.

Definition connected (events : list CalendarEvent) : CalendarEvent -> CalendarEvent -> Prop :=
  clos_refl_trans CalendarEvent (overlapEdge events).

Definition ids (events : list CalendarEvent) : list string := map Event.id events.

(** The graph that a conflict map stores: [edge m a b] when [b] is in the
    set that [m] holds for [a]; [reach m a] is what a traversal from [a]
    can get to. *)
Definition edge (m : Js.StringMap) (a b : string) : Prop :=
  exists s, Js.map_get m a = Some s /\ In b s.

Definition reach (m : Js.StringMap) : string -> string -> Prop :=
  clos_refl_trans string (edge m).

(** The pairs [(sorted[i], sorted[j])] with [i < j], in the order in which
    the two loops visit them. *)
Fixpoint pairs (sorted : list CalendarEvent) : list (CalendarEvent * CalendarEvent) :=
  match sorted with
  | [] => []
  | a :: rest => map (pair a) rest ++ pairs rest
  end.

(** The ids of [universe] that are not in [seen] yet. *)
Definition unseen (seen universe : list string) : list string :=
  filter (fun u => negb (Js.set_has seen u)) universe.

(** The free-slot finder as the specification words it: day by day, a
    cursor scan over the relevant events of the day in order of start, each
    clamped to the working window. *)
Module FreeSlotSpec.

(** [day@HH:mm]. *)
Definition at_ (day : DateFns.Date) (h m : Z) : DateFns.Date :=
  day + h * DateFns.millisecondsInHour + m * DateFns.millisecondsInMinute.

Definition clamp (windowStart windowEnd t : Z) : Z :=
  Z.max windowStart (Z.min windowEnd t).

(** The gap from [from] to [to], when it lasts [minDuration] minutes or
    more. *)
Definition gap (minDuration : Z) (from to : DateFns.Date) : list FreeSlot :=
  if (from <? to) && (minDuration * DateFns.millisecondsInMinute <=? to - from)
  then [FreeSlot.mk from to ((to - from) / DateFns.millisecondsInMinute)]
  else [].

(** The events whose interval meets the window. *)
Definition relevant (windowStart windowEnd : Z) (e : CalendarEvent) : bool :=
  negb (Event.isAllDay e)
  && (Event.start e <=? windowEnd) && (windowStart <=? Event.end_ e).

Fixpoint cursorScan (minDuration windowStart windowEnd cursor : Z)
  (events : list CalendarEvent) : list FreeSlot :=
  match events with
  | [] => gap minDuration cursor windowEnd
  | e :: rest =>
      gap minDuration cursor (clamp windowStart windowEnd (Event.start e))
      ++ cursorScan minDuration windowStart windowEnd
           (Z.max cursor (clamp windowStart windowEnd (Event.end_ e))) rest
  end.

Definition daySlots (events : list CalendarEvent) (minDuration : Z)
  (windowStart windowEnd : Z) : list FreeSlot :=
  cursorScan minDuration windowStart windowEnd windowStart
    (Js.sort Suggestions.byStart (filter (relevant windowStart windowEnd) events)).

(** The days of the range, both boundary days included. *)
Definition days (rangeStart rangeEnd : DateFns.Date) : list DateFns.Date :=
  map (fun k => DateFns.addDays (DateFns.startOfDay rangeStart) (Z.of_nat k))
      (seq 0 (Suggestions.dayCount (DateFns.startOfDay rangeStart)
                                   (DateFns.startOfDay rangeEnd))).

Definition freeSlots (events : list CalendarEvent) (rangeStart rangeEnd : DateFns.Date)
  (startHour startMin endHour endMin minDuration : Z) : list FreeSlot :=
  flat_map (fun day => daySlots events minDuration
                         (at_ day startHour startMin) (at_ day endHour endMin))
           (days rangeStart rangeEnd).

End FreeSlotSpec.

(** One step of the loops over the pairs. *)
Definition checkStep (m : Js.StringMap) (p : CalendarEvent * CalendarEvent)
  : Js.StringMap :=
  Conflicts.checkPair (fst p) m (snd p).

(** [joins p x y]: the pair [p] overlaps and links the ids [x] and [y]. *)
Definition joins (p : CalendarEvent * CalendarEvent) (x y : string) : Prop :=
  Conflicts.overlapping (fst p) (snd p) = true /\
  ((x = Event.id (fst p) /\ y = Event.id (snd p)) \/
   (x = Event.id (snd p) /\ y = Event.id (fst p))).

(** [grouped m c k]: the conflict [c] holds, once each, the ids that can
    be reached from [k] in [m], and is classified by their number. *)
Definition grouped (m : Js.StringMap) (c : Conflict) (k : string) : Prop :=
  NoDup (Conflict.events c) /\
  (forall v, In v (Conflict.events c) <-> reach m k v) /\
  Conflict.type c = Conflicts.typeOf (Z.of_nat (length (Conflict.events c))) /\
  Conflict.severity c = Conflicts.severityOf (Z.of_nat (length (Conflict.events c))).

(** The invariant of the loop over the entries of the map: [done] are the
    keys visited so far, [st] the processed ids and the conflicts. *)
Definition groupInv (m : Js.StringMap) (done : list string)
  (st : Js.StringSet * list Conflict) : Prop :=
  (forall v, In v (fst st) <->
             exists c, In c (snd st) /\ In v (Conflict.events c)) /\
  (forall c, In c (snd st) -> exists k, In k done /\ grouped m c k) /\
  (forall i j ci cj v,
      nth_error (snd st) i = Some ci -> nth_error (snd st) j = Some cj ->
      In v (Conflict.events ci) -> In v (Conflict.events cj) -> i = j) /\
  (forall k, In k done -> In k (fst st)).

(** The order of a list sorted by a key. *)
Definition ascending {A : Type} (key : A -> Z) (a b : A) : Prop := key a <= key b.

(** The suggestion that [suggestBestTimes] pushes for a slot that is long
    enough. *)
Definition suggestionFor (desiredDuration : Z) (categoryHabit : option HabitPattern)
  (category : option EventCategory) (slot : FreeSlot) : TimeSuggestion :=
  TimeSuggestion.mk
    (FreeSlot.mk (FreeSlot.start slot)
                 (DateFns.addMinutes (FreeSlot.start slot) desiredDuration)
                 desiredDuration)
    (fst (Suggestions.scoreSlot desiredDuration categoryHabit category slot))
    (snd (Suggestions.scoreSlot desiredDuration categoryHabit category slot)).

Definition longEnough (desiredDuration : Z) (slot : FreeSlot) : bool :=
  negb (FreeSlot.duration slot <? desiredDuration).

(** The primary key of the habits table is unique. *)
Definition tableOk (db : Habits.Table) : Prop := NoDup (map HabitPattern.id db).

(** The pattern that an update of [habit] with [event] stores. *)
Definition learned (env : Habits.Env) (event : CalendarEvent) (habit : HabitPattern)
  : HabitPattern :=
  HabitPattern.mk (HabitPattern.id habit) (HabitPattern.category habit)
    (Habits.updatePreferredTimes (HabitPattern.preferredTimes habit)
       (TimeSlot.mk (Some (DateFns.getDay (Event.start event)))
                    (DateFns.getHours (Event.start event))
                    (DateFns.getMinutes (Event.start event))))
    (Js.roundDiv (HabitPattern.avgDuration habit * HabitPattern.eventCount habit
                  + DateFns.differenceInMinutes (Event.end_ event) (Event.start event))
                 (HabitPattern.eventCount habit + 1))
    (HabitPattern.frequency habit)
    (Js.sliceLast 10 (HabitPattern.lastOccurrences habit ++ [Event.start event]))
    (HabitPattern.eventCount habit + 1)
    (HabitPattern.createdAt habit) (Habits.now env).

(** The pattern that the first event of a category creates. *)
Definition created (env : Habits.Env) (event : CalendarEvent) : HabitPattern :=
  HabitPattern.mk (Habits.generatedId env) (Habits.categoryOf event)
    [TimeSlot.mk (Some (DateFns.getDay (Event.start event)))
                 (DateFns.getHours (Event.start event))
                 (DateFns.getMinutes (Event.start event))]
    (DateFns.differenceInMinutes (Event.end_ event) (Event.start event))
    weekly [Event.start event] 1 (Habits.now env) (Habits.now env).

(** The starts of the events of category [c] among [calls], in the order
    of the calls. *)
Definition occurrencesOf (c : EventCategory) (calls : list (Habits.Env * CalendarEvent))
  : list DateFns.Date :=
  map (fun call => Event.start (snd call))
      (filter (fun call => EventCategory_eqb (Habits.categoryOf (snd call)) c) calls).

(** What holds of the table after the calls [calls], from an empty table. *)
Definition runInv (calls : list (Habits.Env * CalendarEvent)) (db : Habits.Table)
  : Prop :=
  tableOk db /\
  NoDup (map HabitPattern.category db) /\
  (forall h, In h db ->
     HabitPattern.lastOccurrences h
       = Js.sliceLast 10 (occurrencesOf (HabitPattern.category h) calls) /\
     HabitPattern.eventCount h
       = Z.of_nat (length (occurrencesOf (HabitPattern.category h) calls)) /\
     (length (HabitPattern.preferredTimes h) <= 5)%nat) /\
  (forall call, In call calls ->
     In (Habits.categoryOf (snd call)) (map HabitPattern.category db)) /\
  (forall h, In h db ->
     exists call, In call calls /\
                  HabitPattern.id h = Habits.generatedId (fst call)).

(** Events learned in order of start. *)
Definition inOrderOfStart (calls : list (Habits.Env * CalendarEvent)) : Prop :=
  StronglySorted (fun a b => Event.start (snd a) <= Event.start (snd b)) calls.

(** The strict-overlap graph over all the events, all-day or not, which is
    the one that the store looks at. *)
Definition overlapEdgeAll (events : list CalendarEvent) (a b : CalendarEvent) : Prop :=
  In a events /\ In b events /\ strictOverlap a b.

Definition connectedAll (events : list CalendarEvent)
  : CalendarEvent -> CalendarEvent -> Prop :=
  clos_refl_trans CalendarEvent (overlapEdgeAll events).

(** What a conflict holds besides its id. *)
Definition shape (c : Conflict) : list string * ConflictType * Severity :=
  (Conflict.events c, Conflict.type c, Conflict.severity c).

(** *** Sample inputs *)

Definition sampleClock : nat -> Z := fun _ => 0.

(** An event that is not all-day and has no category. *)
Definition meeting (i : string) (s e : Z) : CalendarEvent :=
  Event.mk i s e None None.

(** Three events that overlap in a chain, a separate one, and an all-day
    event (instants in hours of one day). *)
Definition sampleEvents : list CalendarEvent :=
  [meeting "a" (9 * 3600000) (11 * 3600000);
   meeting "b" (10 * 3600000) (12 * 3600000);
   meeting "c" (11 * 3600000 + 1800000) (13 * 3600000);
   meeting "d" (15 * 3600000) (16 * 3600000);
   Event.mk "e" 0 86400000 (Some true) None].

(** Two calls of [learnFromEvent], for events of 30 and of 60 minutes. *)
Definition sampleCalls : list (Habits.Env * CalendarEvent) :=
  [(Habits.mkEnv 0 "id1", meeting "a" 0 1800000);
   (Habits.mkEnv 1 "id2", meeting "b" 86400000 90000000)].

Definition sampleTable : Habits.Table :=
  [HabitPattern.mk "h" work [TimeSlot.mk (Some 1) 9 0] 45 weekly [0; 86400000] 2 0 1].

(* ===================================================================== *)
(** ** Facts about the date library and the containers *)

Module DateFacts.
Import DateFns.

Lemma overlapping_wellFormed (i j : Interval) :
  start i <= end_ i -> start j <= end_ j ->
  areIntervalsOverlapping i j = (start i <? end_ j) && (start j <? end_ i).
Proof.
  intros Hi Hj. unfold areIntervalsOverlapping, normalized, getTime.
  rewrite !Z.min_l, !Z.max_r by assumption. reflexivity.
Qed.

Lemma overlapping_sym (i j : Interval) :
  areIntervalsOverlapping i j = areIntervalsOverlapping j i.
Proof. unfold areIntervalsOverlapping, normalized. apply andb_comm. Qed.

Lemma within_wellFormed (d : Date) (i : Interval) :
  start i <= end_ i ->
  isWithinInterval d i = (start i <=? d) && (d <=? end_ i).
Proof.
  intros Hi. unfold isWithinInterval, normalized, getTime.
  rewrite Z.min_l, Z.max_r by assumption. reflexivity.
Qed.

End DateFacts.

Lemma overlapping_strictOverlap (a b : CalendarEvent) :
  wellFormed a -> wellFormed b ->
  (Conflicts.overlapping a b = true <-> strictOverlap a b).
Proof.
  intros Ha Hb. unfold Conflicts.overlapping, strictOverlap.
  rewrite DateFacts.overlapping_wellFormed by assumption.
  simpl. rewrite andb_true_iff, !Z.ltb_lt. reflexivity.
Qed.

(* ===================================================================== *)
(** ** hasConflict *)

(** C10.  For a candidate and existing events whose intervals are well
    formed, [hasConflict] answers true exactly when some existing event
    that is not all-day strictly overlaps the candidate; all-day events and
    events that only touch an end of the candidate never make it true. *)
Theorem hasConflict_iff (newEvent : DateFns.Interval) (existingEvents : list CalendarEvent) :
  DateFns.start newEvent <= DateFns.end_ newEvent ->
  (forall e, In e existingEvents -> Event.isAllDay e = false -> wellFormed e) ->
  (Conflicts.hasConflict newEvent existingEvents = true <->
   exists e, In e existingEvents /\ Event.isAllDay e = false /\
             DateFns.start newEvent < Event.end_ e /\
             Event.start e < DateFns.end_ newEvent)
  /\ ((forall e, In e existingEvents ->
         Event.isAllDay e = true \/ Event.end_ e = DateFns.start newEvent
         \/ Event.start e = DateFns.end_ newEvent) ->
      Conflicts.hasConflict newEvent existingEvents = false).
Proof.
  intros Hn Hwf.
  assert (Hiff : Conflicts.hasConflict newEvent existingEvents = true <->
                 exists e, In e existingEvents /\ Event.isAllDay e = false /\
                           DateFns.start newEvent < Event.end_ e /\
                           Event.start e < DateFns.end_ newEvent).
  { induction existingEvents as [|x rest IH]; simpl.
    - split; [discriminate | intros (e & [] & _)].
    - assert (IH' := IH (fun e He => Hwf e (or_intror He))). clear IH.
      destruct (Event.isAllDay x) eqn:Hall.
      + rewrite IH'. split; intros (e & Hin & Hrest).
        * exists e. tauto.
        * destruct Hin as [<- | Hin]; [|exists e; tauto].
          destruct Hrest as (Hf & _). congruence.
      + assert (Hx : wellFormed x) by (apply Hwf; [now left | assumption]).
        rewrite DateFacts.overlapping_wellFormed by assumption.
        simpl.
        destruct ((DateFns.start newEvent <? Event.end_ x)
                  && (Event.start x <? DateFns.end_ newEvent)) eqn:Hov.
        * apply andb_true_iff in Hov. rewrite !Z.ltb_lt in Hov.
          split; [intros _ | reflexivity]. exists x. tauto.
        * rewrite IH'. split; intros (e & Hin & Hrest).
          -- exists e. tauto.
          -- destruct Hin as [<- | Hin]; [|exists e; tauto].
             destruct Hrest as (_ & H1 & H2).
             apply andb_false_iff in Hov. rewrite !Z.ltb_ge in Hov. lia. }
  split; [exact Hiff|].
  intros Hall. apply not_true_is_false. rewrite Hiff.
  intros (e & Hin & Hnot & H1 & H2).
  destruct (Hall e Hin) as [H | [H | H]]; [congruence | |].
  - assert (He := Hwf e Hin Hnot). unfold wellFormed in He. lia.
  - assert (He := Hwf e Hin Hnot). unfold wellFormed in He. lia.
Qed.

Lemma hasConflict_iff_witness :
  DateFns.start (DateFns.mkInterval (10 * 3600000) (11 * 3600000))
    <= DateFns.end_ (DateFns.mkInterval (10 * 3600000) (11 * 3600000))
  /\ (forall e, In e sampleEvents -> Event.isAllDay e = false -> wellFormed e)
  /\ Conflicts.hasConflict (DateFns.mkInterval (10 * 3600000) (11 * 3600000))
        sampleEvents = true.
Proof.
  assert (H1 : DateFns.start (DateFns.mkInterval (10 * 3600000) (11 * 3600000))
               <= DateFns.end_ (DateFns.mkInterval (10 * 3600000) (11 * 3600000)))
    by (simpl; lia).
  assert (H2 : forall e, In e sampleEvents -> Event.isAllDay e = false -> wellFormed e).
  { intros e He _. simpl in He.
    repeat (destruct He as [<- | He]; [unfold wellFormed; simpl; lia|]).
    destruct He. }
  refine (conj H1 (conj H2 _)).
  apply (proj1 (hasConflict_iff _ _ H1 H2)).
  exists (meeting "a" (9 * 3600000) (11 * 3600000)).
  split; [now left|]. split; [reflexivity|]. simpl. lia.
Defined.


(* ===================================================================== *)
(** ** Sets and maps in insertion order *)

Module JsFacts.
Import Js.

Lemma set_has_In (s : StringSet) (x : string) : set_has s x = true <-> In x s.
Proof.
  unfold set_has. rewrite existsb_exists. split.
  - intros (y & Hy & Heq). apply String.eqb_eq in Heq. now subst.
  - intros Hx. exists x. split; [assumption | apply String.eqb_refl].
Qed.

Lemma set_has_false (s : StringSet) (x : string) : set_has s x = false <-> ~ In x s.
Proof.
  rewrite <- set_has_In. destruct (set_has s x); split; congruence.
Qed.

Lemma set_add_In (s : StringSet) (x y : string) :
  In y (set_add s x) <-> In y s \/ y = x.
Proof.
  unfold set_add. destruct (set_has s x) eqn:Hx.
  - apply set_has_In in Hx. split; [tauto | intros [H | ->]; assumption].
  - rewrite in_app_iff. simpl. intuition congruence.
Qed.

Lemma set_add_NoDup (s : StringSet) (x : string) : NoDup s -> NoDup (set_add s x).
Proof.
  intros Hs. unfold set_add. destruct (set_has s x) eqn:Hx; [assumption|].
  apply set_has_false in Hx.
  apply NoDup_app; [assumption | repeat constructor; intros [] | ].
  intros a Ha [<- | []]. contradiction.
Qed.

Lemma fold_set_add_In (l : list string) (s : StringSet) (y : string) :
  In y (fold_left set_add l s) <-> In y s \/ In y l.
Proof.
  revert s. induction l as [|x l IH]; intros s; simpl; [tauto|].
  rewrite IH, set_add_In. intuition congruence.
Qed.

Lemma map_get_set_eq (m : StringMap) (k : string) (v : StringSet) :
  map_get (map_set m k v) k = Some v.
Proof.
  induction m as [|[k' v'] m IH]; simpl.
  - now rewrite String.eqb_refl.
  - destruct (String.eqb k' k) eqn:Hk; simpl.
    + now rewrite String.eqb_refl.
    + now rewrite Hk.
Qed.

Lemma map_get_set_ne (m : StringMap) (k k' : string) (v : StringSet) :
  k <> k' -> map_get (map_set m k v) k' = map_get m k'.
Proof.
  intros Hne. induction m as [|[k0 v0] m IH]; simpl.
  - apply String.eqb_neq in Hne. now rewrite Hne.
  - destruct (String.eqb k0 k) eqn:Hk; simpl.
    + apply String.eqb_eq in Hk. subst k0.
      apply String.eqb_neq in Hne. now rewrite Hne.
    + now rewrite IH.
Qed.

Lemma map_has_get (m : StringMap) (k : string) :
  map_has m k = true <-> exists s, map_get m k = Some s.
Proof.
  unfold map_has. destruct (map_get m k); split; try discriminate; eauto.
  intros (s & Hs). discriminate.
Qed.

Lemma map_get_In (m : StringMap) (k : string) (s : StringSet) :
  map_get m k = Some s -> In (k, s) m.
Proof.
  induction m as [|[k' v'] m IH]; simpl; [discriminate|].
  destruct (String.eqb k' k) eqn:Hk.
  - apply String.eqb_eq in Hk. intros [= ->]. left. now subst.
  - intros H. right. now apply IH.
Qed.

Lemma In_map_has (m : StringMap) (k : string) (s : StringSet) :
  In (k, s) m -> map_has m k = true.
Proof.
  unfold map_has.
  induction m as [|[k' v'] m IH]; simpl; [intros []|].
  intros [[= -> ->] | Hin].
  - now rewrite String.eqb_refl.
  - destruct (String.eqb k' k); [reflexivity | now apply IH].
Qed.

Import Conflicts.

Lemma ensureEntry_has (m : StringMap) (k : string) : map_has (ensureEntry m k) k = true.
Proof.
  unfold ensureEntry. destruct (map_has m k) eqn:Hk; [assumption|].
  unfold map_has. now rewrite map_get_set_eq.
Qed.

Lemma ensureEntry_has_other (m : StringMap) (k k' : string) :
  map_has (ensureEntry m k) k' = true <-> map_has m k' = true \/ k' = k.
Proof.
  destruct (string_dec k k') as [<- | Hne].
  - rewrite ensureEntry_has. tauto.
  - unfold ensureEntry. destruct (map_has m k) eqn:Hk.
    + intuition congruence.
    + unfold map_has. rewrite map_get_set_ne by assumption.
      intuition congruence.
Qed.

Lemma ensureEntry_edge (m : StringMap) (k a b : string) :
  edge (ensureEntry m k) a b <-> edge m a b.
Proof.
  unfold ensureEntry. destruct (map_has m k) eqn:Hk; [reflexivity|].
  unfold edge. destruct (string_dec k a) as [<- | Hne].
  - rewrite map_get_set_eq.
    unfold map_has in Hk. destruct (map_get m k); [discriminate|].
    split; intros (s & Hs & Hin); [|discriminate].
    injection Hs as <-. destruct Hin.
  - now rewrite map_get_set_ne.
Qed.

Lemma map_add_has (m : StringMap) (k x k' : string) :
  map_has (map_add m k x) k' = map_has m k'.
Proof.
  unfold map_add. destruct (map_get m k) as [s|] eqn:Hk; [|reflexivity].
  unfold map_has. destruct (string_dec k k') as [<- | Hne].
  - now rewrite map_get_set_eq, Hk.
  - now rewrite map_get_set_ne.
Qed.

Lemma map_add_edge (m : StringMap) (k x a b : string) :
  map_has m k = true ->
  (edge (map_add m k x) a b <-> edge m a b \/ (a = k /\ b = x)).
Proof.
  intros Hk. apply map_has_get in Hk. destruct Hk as (s & Hs).
  unfold map_add, edge. rewrite Hs.
  destruct (string_dec k a) as [<- | Hne].
  - rewrite map_get_set_eq, Hs. split.
    + intros (s' & [= <-] & Hin). apply set_add_In in Hin.
      destruct Hin; [left; eauto | right; tauto].
    + intros [(s' & [= <-] & Hin) | (_ & ->)];
        (eexists; split; [reflexivity | apply set_add_In; tauto]).
  - rewrite map_get_set_ne by assumption. intuition congruence.
Qed.

End JsFacts.

(* ===================================================================== *)
(** ** The conflict map *)

Module MapFacts.
Import Js Conflicts JsFacts.

Lemma recordOverlap_edge (m : StringMap) (A B : CalendarEvent) (x y : string) :
  edge (recordOverlap m A B) x y <->
  edge m x y \/ (x = Event.id A /\ y = Event.id B) \/ (x = Event.id B /\ y = Event.id A).
Proof.
  unfold recordOverlap.
  rewrite map_add_edge.
  - rewrite map_add_edge.
    + rewrite !ensureEntry_edge. tauto.
    + apply ensureEntry_has_other. left. apply ensureEntry_has.
  - rewrite map_add_has. apply ensureEntry_has.
Qed.

Lemma recordOverlap_has (m : StringMap) (A B : CalendarEvent) (k : string) :
  map_has (recordOverlap m A B) k = true <->
  map_has m k = true \/ k = Event.id A \/ k = Event.id B.
Proof.
  unfold recordOverlap. rewrite !map_add_has, !ensureEntry_has_other. tauto.
Qed.


Lemma checkPairs_pairs (sorted : list CalendarEvent) (m : StringMap) :
  checkPairs m sorted = fold_left checkStep (pairs sorted) m.
Proof.
  revert m. induction sorted as [|a rest IH]; intros m; simpl; [reflexivity|].
  rewrite fold_left_app, IH. f_equal.
  clear IH. revert m. induction rest as [|b rest IH]; intros m; simpl; auto.
Qed.


Lemma fold_checkStep_edge (ps : list (CalendarEvent * CalendarEvent))
  (m : StringMap) (x y : string) :
  edge (fold_left checkStep ps m) x y <->
  edge m x y \/ exists p, In p ps /\ joins p x y.
Proof.
  revert m. induction ps as [|p ps IH]; intros m; simpl.
  - split; [tauto | intros [H | (p & [] & _)]; exact H].
  - rewrite IH. unfold checkStep, checkPair, joins.
    destruct (overlapping (fst p) (snd p)) eqn:Hov.
    + rewrite recordOverlap_edge. split.
      * intros [[H | H] | (q & Hq & H)]; [tauto | | right; exists q; tauto].
        right. exists p. rewrite Hov. tauto.
      * intros [H | (q & [<- | Hq] & H)]; [tauto | | right; exists q; tauto].
        left. right. tauto.
    + split.
      * intros [H | (q & Hq & H)]; [tauto | right; exists q; tauto].
      * intros [H | (q & [<- | Hq] & H)]; [tauto | | right; exists q; tauto].
        destruct H as (H & _). congruence.
Qed.

Lemma fold_checkStep_has (ps : list (CalendarEvent * CalendarEvent))
  (m : StringMap) (k : string) :
  map_has (fold_left checkStep ps m) k = true <->
  map_has m k = true \/ exists p y, In p ps /\ joins p k y.
Proof.
  revert m. induction ps as [|p ps IH]; intros m; simpl.
  - split; [tauto | intros [H | (p & y & [] & _)]; exact H].
  - rewrite IH. unfold checkStep, checkPair, joins.
    destruct (overlapping (fst p) (snd p)) eqn:Hov.
    + rewrite recordOverlap_has. split.
      * intros [[H | H] | (q & y & Hq & H)];
          [tauto | | right; exists q, y; tauto].
        right. exists p. rewrite Hov.
        destruct H as [-> | ->]; eexists; split; auto.
      * intros [H | (q & y & [<- | Hq] & H)];
          [tauto | | right; exists q, y; tauto].
        left. right. tauto.
    + split.
      * intros [H | (q & y & Hq & H)]; [tauto | right; exists q, y; tauto].
      * intros [H | (q & y & [<- | Hq] & H)];
          [tauto | | right; exists q, y; tauto].
        destruct H as (H & _). congruence.
Qed.

Lemma In_pairs (l : list CalendarEvent) (a b : CalendarEvent) :
  In (a, b) (pairs l) -> In a l /\ In b l.
Proof.
  induction l as [|x l IH]; simpl; [intros []|].
  rewrite in_app_iff, in_map_iff.
  intros [(y & [= <- <-] & Hy) | H]; [tauto | apply IH in H; tauto].
Qed.

Lemma pairs_distinct_ids (l : list CalendarEvent) (a b : CalendarEvent) :
  NoDup (ids l) -> In (a, b) (pairs l) -> Event.id a <> Event.id b.
Proof.
  unfold ids. induction l as [|x l IH]; simpl; [intros _ []|].
  intros Hnd. inversion Hnd as [|? ? Hx Hl]; subst.
  rewrite in_app_iff, in_map_iff.
  intros [(y & [= <- <-] & Hy) | H]; [|now apply IH].
  intros Heq. apply Hx. rewrite Heq. now apply in_map.
Qed.

Lemma pairs_complete (l : list CalendarEvent) (a b : CalendarEvent) :
  In a l -> In b l -> a <> b -> In (a, b) (pairs l) \/ In (b, a) (pairs l).
Proof.
  induction l as [|x l IH]; simpl; [intros []|].
  rewrite !in_app_iff, !in_map_iff.
  intros [-> | Ha] [-> | Hb] Hne.
  - congruence.
  - left. left. eauto.
  - right. left. eauto.
  - destruct (IH Ha Hb Hne); tauto.
Qed.

End MapFacts.

(* ===================================================================== *)
(** ** The traversal from one id *)

Module TraverseFacts.
Import Js Conflicts JsFacts.

Lemma unseen_length (seen universe : list string) :
  (length (unseen seen universe) <= length universe)%nat.
Proof. apply filter_length_le. Qed.

Lemma set_has_add_other (s : StringSet) (r a : string) :
  a <> r -> set_has (set_add s r) a = set_has s a.
Proof.
  intros Hne. destruct (set_has s a) eqn:Ha.
  - apply set_has_In. apply set_add_In. left. now apply set_has_In.
  - apply set_has_false. rewrite set_add_In. apply set_has_false in Ha. tauto.
Qed.

Lemma unseen_add_le (seen universe : list string) (r : string) :
  (length (unseen (set_add seen r) universe) <= length (unseen seen universe))%nat.
Proof.
  induction universe as [|a U IH]; simpl; [lia|].
  destruct (string_dec a r) as [-> | Hne].
  - replace (set_has (set_add seen r) r) with true
      by (symmetry; apply set_has_In, set_add_In; now right).
    simpl. destruct (set_has seen r); simpl; lia.
  - rewrite set_has_add_other by assumption.
    destruct (set_has seen a); simpl; lia.
Qed.

Lemma unseen_add_lt (seen universe : list string) (r : string) :
  In r universe -> ~ In r seen ->
  (length (unseen (set_add seen r) universe) < length (unseen seen universe))%nat.
Proof.
  intros Hin Hnew. induction universe as [|a U IH]; simpl; [destruct Hin|].
  destruct (string_dec a r) as [-> | Hne].
  - replace (set_has (set_add seen r) r) with true
      by (symmetry; apply set_has_In, set_add_In; now right).
    apply set_has_false in Hnew. rewrite Hnew. simpl.
    assert (H := unseen_add_le seen U r). lia.
  - rewrite set_has_add_other by assumption.
    destruct Hin as [-> | Hin]; [congruence|].
    specialize (IH Hin). destruct (set_has seen a); simpl; lia.
Qed.

(** What one pass over the related ids does to the set and the queue. *)
Lemma visit_spec (universe related : list string) :
  incl related universe ->
  forall all q all' q',
    fold_left visitRelated related (all, q) = (all', q') ->
    (NoDup all -> NoDup all') /\
    (forall v, In v all' <-> In v all \/ In v related) /\
    (forall v, In v q' <-> In v q \/ (In v related /\ ~ In v all)) /\
    (length (unseen all' universe) + length q'
     <= length (unseen all universe) + length q)%nat.
Proof.
  induction related as [|r related IH]; intros Hincl all q all' q'; simpl.
  - intros [= <- <-]. repeat split; try tauto. lia.
  - assert (Hr : In r universe) by (apply Hincl; now left).
    assert (Hincl' : incl related universe)
      by (intros x Hx; apply Hincl; now right).
    destruct (set_has all r) eqn:Hhas.
    + intros Hfold. destruct (IH Hincl' _ _ _ _ Hfold) as (H1 & H2 & H3 & H4).
      apply set_has_In in Hhas.
      split; [assumption|]. split; [|split; [|assumption]].
      * intros v. rewrite H2. intuition (subst; try tauto; auto).
      * intros v. rewrite H3. intuition (subst; try tauto; auto).
    + intros Hfold. destruct (IH Hincl' _ _ _ _ Hfold) as (H1 & H2 & H3 & H4).
      apply set_has_false in Hhas.
      split; [|split; [|split]].
      * intros Hnd. apply H1. now apply set_add_NoDup.
      * intros v. rewrite H2, set_add_In. intuition (subst; try tauto; auto).
      * intros v. rewrite H3, in_app_iff, set_add_In. simpl.
        destruct (string_dec v r) as [-> | Hne]; intuition (subst; try tauto; auto).
      * assert (Hlt := unseen_add_lt all universe r Hr Hhas).
        rewrite length_app in H4. simpl in H4. lia.
Qed.

Lemma related_in_mapIds (m : StringMap) (c : string) (related : StringSet) :
  map_get m c = Some related -> incl related (mapIds m).
Proof.
  intros Hget x Hx. apply map_get_In in Hget.
  unfold mapIds. apply in_flat_map. exists (c, related). simpl. tauto.
Qed.

Lemma reach_step (m : StringMap) (k c v : string) :
  reach m k c -> edge m c v -> reach m k v.
Proof.
  intros Hkc Hcv. eapply rt_trans; [exact Hkc | now apply rt_step].
Qed.

(** A set that holds [k] and all neighbours of its members holds all that
    can be reached from [k]. *)
Lemma closed_reach (m : StringMap) (all : list string) (k : string) :
  In k all -> (forall v w, In v all -> edge m v w -> In w all) ->
  forall v, reach m k v -> In v all.
Proof.
  intros Hk Hclosed v Hreach.
  induction Hreach using clos_refl_trans_ind_left; [assumption|].
  eapply Hclosed; eassumption.
Qed.

(** The traversal ends with an empty queue, and the set it stops with is
    exactly what can be reached from the id it started from. *)
Lemma traverse_spec (m : StringMap) (k : string) (fuel : nat) :
  forall all queue,
    incl queue all ->
    (forall v, In v all -> reach m k v) ->
    (forall v, In v all -> ~ In v queue -> forall w, edge m v w -> In w all) ->
    NoDup all -> In k all ->
    (length (unseen all (mapIds m)) + length queue <= fuel)%nat ->
    snd (traverse fuel m all queue) = [] /\
    NoDup (fst (traverse fuel m all queue)) /\
    forall v, In v (fst (traverse fuel m all queue)) <-> reach m k v.
Proof.
  induction fuel as [|fuel IH]; intros all queue Hq Hreach Hclosed Hnd Hk Hfuel.
  - destruct queue; [|simpl in Hfuel; lia]. simpl.
    split; [reflexivity | split; [assumption|]].
    intros v. split; [apply Hreach|].
    apply closed_reach; [assumption|]. intros a w Ha. now apply Hclosed.
  - destruct queue as [|c rest].
    + simpl. split; [reflexivity | split; [assumption|]].
      intros v. split; [apply Hreach|].
      apply closed_reach; [assumption|]. intros a w Ha. now apply Hclosed.
    + simpl.
      assert (Hc : reach m k c) by (apply Hreach, Hq; now left).
      destruct (map_get m c) as [related|] eqn:Hget.
      * match goal with
        | |- context [fold_left visitRelated related ?st] =>
            destruct (fold_left visitRelated related st) as [all' q'] eqn:Hfold
        end.
        destruct (visit_spec (mapIds m) related (related_in_mapIds _ _ _ Hget)
                    _ _ _ _ Hfold) as (H1 & H2 & H3 & H4).
        apply IH.
        -- intros v Hv. apply H3 in Hv. apply H2.
           destruct Hv as [Hv | Hv]; [left; apply Hq; now right | tauto].
        -- intros v Hv. apply H2 in Hv. destruct Hv as [Hv | Hv]; [auto|].
           eapply reach_step; [exact Hc|]. exists related. tauto.
        -- intros v Hv Hnq w Hvw. apply H2. apply H2 in Hv.
           rewrite H3 in Hnq.
           assert (Hva : In v all)
             by (destruct (in_dec string_dec v all); tauto).
           clear Hv. rename Hva into Hv.
           destruct (string_dec v c) as [-> | Hne].
           ++ destruct Hvw as (s & Hs & Hw). right. congruence.
           ++ left. apply (Hclosed v Hv); [|assumption].
              intros [Heq | Hin]; [congruence | tauto].
        -- auto.
        -- apply H2. now left.
        -- simpl in Hfuel. lia.
      * apply IH; auto.
        -- intros v Hv. apply Hq. now right.
        -- intros v Hv Hnq w Hvw.
           destruct (string_dec v c) as [-> | Hne].
           ++ destruct Hvw as (s & Hs & _). congruence.
           ++ apply (Hclosed v Hv); [|assumption].
              intros [Heq | Hin]; [congruence | tauto].
        -- simpl in Hfuel. lia.
Qed.

(** From a single id, with the rounds that [groupEntry] allows. *)
Lemma traverse_from (m : StringMap) (k : string) :
  snd (traverse (rounds m) m [k] [k]) = [] /\
  NoDup (fst (traverse (rounds m) m [k] [k])) /\
  forall v, In v (fst (traverse (rounds m) m [k] [k])) <-> reach m k v.
Proof.
  apply traverse_spec.
  - apply incl_refl.
  - intros v [<- | []]. apply rt_refl.
  - intros v Hv Hnot. contradiction.
  - repeat constructor. intros [].
  - now left.
  - unfold rounds. assert (H := unseen_length [k] (mapIds m)). simpl. lia.
Qed.

End TraverseFacts.

(* ===================================================================== *)
(** ** The grouping loop *)

Module GroupFacts.
Import Js Conflicts JsFacts TraverseFacts.

Section Grouping.
Variable clock : nat -> Z.
Variable m : StringMap.
Hypothesis edge_sym : forall a b, edge m a b -> edge m b a.

Lemma reach_sym (a b : string) : reach m a b -> reach m b a.
Proof.
  intros H. induction H as [a b H | a | a b c _ IH1 _ IH2].
  - apply rt_step. now apply edge_sym.
  - apply rt_refl.
  - eapply rt_trans; eassumption.
Qed.

Lemma reach_key (k v : string) :
  reach m k v -> map_has m k = true -> map_has m v = true.
Proof.
  intros H Hk. induction H using clos_refl_trans_ind_left; [assumption|].
  apply map_has_get.
  match goal with Hyz : edge m _ _ |- _ => apply edge_sym in Hyz;
    destruct Hyz as (s & Hs & _) end.
  eauto.
Qed.


Lemma nth_error_snoc {A : Type} (l : list A) (x y : A) (i : nat) :
  nth_error (l ++ [x]) i = Some y ->
  (nth_error l i = Some y /\ (i < length l)%nat) \/ (i = length l /\ y = x).
Proof.
  intros H. destruct (Nat.lt_ge_cases i (length l)) as [Hlt | Hge].
  - rewrite nth_error_app1 in H by assumption. tauto.
  - rewrite nth_error_app2 in H by assumption.
    destruct (i - length l)%nat as [|n] eqn:Hn; simpl in H.
    + injection H as <-. right. split; [lia | reflexivity].
    + destruct n; discriminate.
Qed.

Lemma groupEntry_inv (done : list string) (st : StringSet * list Conflict)
  (entry : string * StringSet) :
  groupInv m done st -> groupInv m (done ++ [fst entry]) (groupEntry clock m st entry).
Proof.
  destruct st as [processed conflicts]. destruct entry as [k s].
  intros (J1 & J2 & J3 & J4). unfold groupEntry. simpl in *.
  destruct (set_has processed k) eqn:Hk.
  - apply set_has_In in Hk. repeat split; simpl; try apply J1; auto.
    + intros c Hc. destruct (J2 c Hc) as (k' & Hk' & Hg).
      exists k'. rewrite in_app_iff. tauto.
    + intros k' Hk'. apply in_app_iff in Hk'.
      destruct Hk' as [Hk' | [<- | []]]; auto.
  - apply set_has_false in Hk.
    destruct (traverse_from m k) as (_ & Hnd & Hall).
    set (all := fst (traverse (rounds m) m [k] [k])) in *.
    assert (Hfresh : forall c v, In c conflicts -> In v (Conflict.events c) ->
                                 ~ In v all).
    { intros c v Hc Hv Hin. apply Hall in Hin.
      destruct (J2 c Hc) as (k' & _ & _ & Hc' & _).
      apply Hk, J1. exists c. split; [assumption|].
      apply Hc'. eapply rt_trans; [apply Hc', Hv | now apply reach_sym]. }
    repeat split; simpl.
    + rewrite fold_set_add_In. intros [Hv | Hv].
      * apply J1 in Hv. destruct Hv as (c & Hc & Hv).
        exists c. rewrite in_app_iff. tauto.
      * eexists. rewrite in_app_iff. split; [right; now left | exact Hv].
    + intros (c & Hc & Hv). rewrite fold_set_add_In.
      apply in_app_iff in Hc. destruct Hc as [Hc | [<- | []]].
      * left. apply J1. eauto.
      * now right.
    + intros c Hc. apply in_app_iff in Hc. destruct Hc as [Hc | [<- | []]].
      * destruct (J2 c Hc) as (k' & Hk' & Hg).
        exists k'. rewrite in_app_iff. tauto.
      * exists k. rewrite in_app_iff. split; [right; now left|].
        repeat split; simpl; auto; apply Hall.
    + intros i j ci cj v Hi Hj Hvi Hvj.
      apply nth_error_snoc in Hi. apply nth_error_snoc in Hj.
      destruct Hi as [(Hi & _) | (-> & ->)], Hj as [(Hj & _) | (-> & ->)].
      * eapply J3; eassumption.
      * exfalso. apply nth_error_In in Hi. eapply Hfresh; eassumption.
      * exfalso. apply nth_error_In in Hj. eapply Hfresh; eassumption.
      * reflexivity.
    + intros k' Hk'. rewrite fold_set_add_In. apply in_app_iff in Hk'.
      destruct Hk' as [Hk' | [<- | []]]; [left; auto|].
      right. apply Hall, rt_refl.
Qed.

Lemma fold_groupEntry_inv (entries : list (string * StringSet)) :
  forall done st,
    groupInv m done st ->
    groupInv m (done ++ map fst entries) (fold_left (groupEntry clock m) entries st).
Proof.
  induction entries as [|entry entries IH]; intros done st Hinv; simpl.
  - now rewrite app_nil_r.
  - replace (done ++ fst entry :: map fst entries)
      with ((done ++ [fst entry]) ++ map fst entries)
      by (rewrite <- app_assoc; reflexivity).
    apply IH. now apply groupEntry_inv.
Qed.

Lemma groupConflicts_inv :
  groupInv m (map fst m) (fold_left (groupEntry clock m) m ([], [])).
Proof.
  apply (fold_groupEntry_inv m [] ([], [])).
  repeat split; simpl; try tauto.
  - intros (c & [] & _).
  - intros i j ci cj v Hi. destruct i; discriminate.
Qed.

(** Every conflict is the set of ids reached from some key of the map. *)
Lemma groupConflicts_grouped (c : Conflict) :
  In c (groupConflicts clock m) ->
  exists k, map_has m k = true /\ grouped m c k.
Proof.
  intros Hc. destruct groupConflicts_inv as (_ & J2 & _).
  destruct (J2 c Hc) as (k & Hk & Hg). exists k. split; [|assumption].
  apply in_map_iff in Hk. destruct Hk as ([k' s] & <- & Hin).
  eapply In_map_has. exact Hin.
Qed.

(** Every key of the map is in one conflict, and in one only. *)
Lemma groupConflicts_key (k : string) :
  map_has m k = true ->
  exists i c, nth_error (groupConflicts clock m) i = Some c /\
              In k (Conflict.events c) /\
              forall j c', nth_error (groupConflicts clock m) j = Some c' ->
                           In k (Conflict.events c') -> j = i.
Proof.
  intros Hk. destruct groupConflicts_inv as (J1 & _ & J3 & J4).
  apply map_has_get in Hk. destruct Hk as (s & Hs). apply map_get_In in Hs.
  assert (Hin : In k (map fst m)) by (apply in_map_iff; exists (k, s); tauto).
  apply J4, J1 in Hin. destruct Hin as (c & Hc & Hv).
  apply In_nth_error in Hc. destruct Hc as (i & Hi).
  exists i, c. repeat split; auto.
  intros j c' Hj Hv'. eapply J3; eassumption.
Qed.

(** Only keys of the map are in a conflict. *)
Lemma groupConflicts_members (c : Conflict) (v : string) :
  In c (groupConflicts clock m) -> In v (Conflict.events c) -> map_has m v = true.
Proof.
  intros Hc Hv. destruct (groupConflicts_grouped c Hc) as (k & Hk & _ & Hall & _).
  apply Hall in Hv. eapply reach_key; eassumption.
Qed.

End Grouping.

End GroupFacts.

(* ===================================================================== *)
(** ** The stable sort *)

Module SortFacts.
Import Js.

Section Sort.
Context {A : Type}.
Variable compareFn : A -> A -> Z.

Lemma insert_perm (x : A) (l : list A) : Permutation (insert compareFn x l) (x :: l).
Proof.
  induction l as [|y l IH]; simpl; [reflexivity|].
  destruct (compareFn x y <=? 0); [reflexivity|].
  rewrite IH. apply perm_swap.
Qed.

Lemma sort_perm (l : list A) : Permutation (sort compareFn l) l.
Proof.
  induction l as [|x l IH]; simpl; [reflexivity|].
  rewrite insert_perm. now constructor.
Qed.

Lemma sort_In (l : list A) (x : A) : In x (sort compareFn l) <-> In x l.
Proof.
  split; apply Permutation_in; [|symmetry]; apply sort_perm.
Qed.

Lemma sort_length (l : list A) : length (sort compareFn l) = length l.
Proof. apply Permutation_length, sort_perm. Qed.

(** When the comparison is the difference of a key, the result is in
    ascending order of the key. *)
Variable key : A -> Z.
Hypothesis compare_key : forall a b, compareFn a b = key a - key b.


Lemma insert_sorted (x : A) (l : list A) :
  StronglySorted (ascending key) l -> StronglySorted (ascending key) (insert compareFn x l).
Proof.
  induction 1 as [|y l Hl IH Hy]; simpl.
  - repeat constructor.
  - rewrite compare_key. destruct (key x - key y <=? 0) eqn:Hxy.
    + apply Z.leb_le in Hxy. constructor; [now constructor|].
      constructor; [unfold ascending; lia|].
      eapply Forall_impl; [|exact Hy]. unfold ascending. intros; lia.
    + apply Z.leb_gt in Hxy. constructor; [assumption|].
      eapply Permutation_Forall; [symmetry; apply insert_perm|].
      constructor; [unfold ascending; lia | assumption].
Qed.

Lemma sort_sorted (l : list A) : StronglySorted (ascending key) (sort compareFn l).
Proof.
  induction l as [|x l IH]; simpl; [constructor | now apply insert_sorted].
Qed.

End Sort.

End SortFacts.

Module ListFacts.

Lemma NoDup_map_filter {X Y : Type} (keep : X -> bool) (key : X -> Y) (xs : list X) :
  NoDup (map key xs) -> NoDup (map key (filter keep xs)).
Proof.
  intros Hnd. induction xs as [|x xs IH]; simpl in *; [exact Hnd|].
  apply NoDup_cons_iff in Hnd. destruct Hnd as (Hx & Hxs).
  destruct (keep x); simpl; [|auto].
  apply NoDup_cons; [|auto].
  rewrite in_map_iff. intros (y & Hy & Hin). apply filter_In in Hin.
  apply Hx. rewrite in_map_iff. exists y. tauto.
Qed.

Lemma NoDup_map_injective {A B : Type} (f : A -> B) (l : list A) (a b : A) :
  NoDup (map f l) -> In a l -> In b l -> f a = f b -> a = b.
Proof.
  induction l as [|x l IH]; simpl; [intros _ []|].
  intros Hnd. inversion Hnd as [|? ? Hx Hl]; subst.
  intros [-> | Ha] [-> | Hb] Heq; auto.
  - exfalso. apply Hx. rewrite Heq. now apply in_map.
  - exfalso. apply Hx. rewrite <- Heq. now apply in_map.
Qed.

Lemma NoDup_two {A : Type} (l : list A) (a b : A) :
  NoDup l -> In a l -> In b l -> a <> b -> (2 <= length l)%nat.
Proof.
  intros Hnd Ha Hb Hne.
  destruct l as [|x [|y l]]; simpl in *; try lia; try tauto.
  destruct Ha as [-> | []], Hb as [-> | []]. congruence.
Qed.

Lemma StronglySorted_weaken {A : Type} (R R' : A -> A -> Prop) (l : list A) :
  (forall a b, R a b -> R' a b) -> StronglySorted R l -> StronglySorted R' l.
Proof.
  intros Himp. induction 1 as [|x l Hl IH Hx]; constructor; auto.
  eapply Forall_impl; [|exact Hx]. auto.
Qed.

End ListFacts.

(* ===================================================================== *)
(** ** detectConflicts on events with distinct ids *)

Module DetectFacts.
Import Js Conflicts JsFacts MapFacts GroupFacts SortFacts ListFacts.

Lemma strictOverlap_sym (a b : CalendarEvent) : strictOverlap a b -> strictOverlap b a.
Proof. unfold strictOverlap. tauto. Qed.

Lemma sorted_timed (events : list CalendarEvent) (x : CalendarEvent) :
  In x (sortedEvents events) <-> In x (timed events).
Proof. unfold sortedEvents. apply sort_In. Qed.

Lemma edge_empty (a b : string) : ~ edge [] a b.
Proof. intros (s & Hs & _). discriminate. Qed.

(** In the map that [detectConflicts] builds, an id is a key exactly when
    it has a neighbour. *)
Lemma key_has_edge (l : list CalendarEvent) (k : string) :
  map_has (checkPairs [] l) k = true <-> exists y, edge (checkPairs [] l) k y.
Proof.
  rewrite checkPairs_pairs, fold_checkStep_has. split.
  - intros [H | (p & y & Hp & Hj)]; [discriminate|].
    exists y. apply fold_checkStep_edge. right. eauto.
  - intros (y & Hy). apply fold_checkStep_edge in Hy.
    destruct Hy as [Hy | (p & Hp & Hj)]; [now apply edge_empty in Hy|].
    right. eauto.
Qed.

Lemma joins_sym (p : CalendarEvent * CalendarEvent) (x y : string) :
  joins p x y -> joins p y x.
Proof. unfold joins. tauto. Qed.

(** The map that [detectConflicts] builds is symmetric. *)
Lemma edge_sym (l : list CalendarEvent) (a b : string) :
  edge (checkPairs [] l) a b -> edge (checkPairs [] l) b a.
Proof.
  rewrite checkPairs_pairs, !fold_checkStep_edge.
  intros [H | (p & Hp & Hj)]; [now apply edge_empty in H|].
  right. exists p. split; [assumption | now apply joins_sym].
Qed.

(** Its keys are ids of the events it was built from. *)
Lemma key_ids (l : list CalendarEvent) (k : string) :
  map_has (checkPairs [] l) k = true -> In k (ids l).
Proof.
  rewrite checkPairs_pairs, fold_checkStep_has.
  intros [H | ([P Q] & y & Hp & _ & Hj)]; [discriminate|].
  apply In_pairs in Hp. unfold ids. simpl in Hj.
  destruct Hj as [(-> & _) | (-> & _)]; apply in_map; tauto.
Qed.

(** The members of a conflict are ids of events that are not all-day. *)
Lemma member_timed (clock : nat -> Z) (events : list CalendarEvent)
  (c : Conflict) (i : string) :
  In c (detectConflicts clock events) -> In i (Conflict.events c) ->
  exists X, In X (timed events) /\ Event.id X = i.
Proof.
  intros Hc Hi. unfold detectConflicts in Hc.
  apply (groupConflicts_members clock _ (edge_sym _) c _ Hc) in Hi.
  apply key_ids in Hi. unfold ids in Hi. apply in_map_iff in Hi.
  destruct Hi as (X & <- & HX). apply sorted_timed in HX. eauto.
Qed.

Section Events.
Variable events : list CalendarEvent.
Hypothesis distinct_ids : NoDup (ids events).
Hypothesis well_formed : forall e, In e (timed events) -> wellFormed e.

Lemma timed_distinct : NoDup (ids (timed events)).
Proof. unfold ids, timed. now apply NoDup_map_filter. Qed.

Lemma sorted_distinct : NoDup (ids (sortedEvents events)).
Proof.
  unfold ids, sortedEvents.
  eapply Permutation_NoDup; [|exact timed_distinct].
  apply Permutation_map. symmetry. apply sort_perm.
Qed.

Lemma id_injective (a b : CalendarEvent) :
  In a (timed events) -> In b (timed events) -> Event.id a = Event.id b -> a = b.
Proof. apply NoDup_map_injective, timed_distinct. Qed.

Lemma edge_events (a b : string) :
  edge (checkPairs [] (sortedEvents events)) a b <->
  exists A B, In A (timed events) /\ In B (timed events) /\ A <> B /\
              strictOverlap A B /\ Event.id A = a /\ Event.id B = b.
Proof.
  rewrite checkPairs_pairs, fold_checkStep_edge. split.
  - intros [H | ([P Q] & Hp & Hov & Hxy)]; [now apply edge_empty in H|].
    simpl in *.
    assert (Hne := pairs_distinct_ids _ _ _ sorted_distinct Hp).
    apply In_pairs in Hp. rewrite !sorted_timed in Hp. destruct Hp as (HP & HQ).
    apply overlapping_strictOverlap in Hov; auto.
    destruct Hxy as [(-> & ->) | (-> & ->)].
    + exists P, Q. repeat split; auto; try apply Hov; try congruence.
    + exists Q, P. repeat split; auto; try apply Hov; try congruence.
  - intros (A & B & HA & HB & Hne & Hov & <- & <-). right.
    destruct (pairs_complete (sortedEvents events) A B) as [Hp | Hp];
      try (apply sorted_timed; assumption); try assumption.
    + exists (A, B). split; [assumption|]. split; simpl; [|tauto].
      apply overlapping_strictOverlap; auto.
    + exists (B, A). split; [assumption|]. split; simpl; [|tauto].
      apply overlapping_strictOverlap; auto. now apply strictOverlap_sym.
Qed.

Lemma reach_connected (X : CalendarEvent) (b : string) :
  In X (timed events) ->
  reach (checkPairs [] (sortedEvents events)) (Event.id X) b ->
  exists Y, In Y (timed events) /\ connected events X Y /\ Event.id Y = b.
Proof.
  intros HX H. induction H as [|y z _ IH Hyz] using clos_refl_trans_ind_left.
  - exists X. repeat split; auto. apply rt_refl.
  - destruct IH as (Y & HY & Hc & <-).
    apply edge_events in Hyz.
    destruct Hyz as (A & B & HA & HB & Hne & Hov & Heq & <-).
    apply id_injective in Heq; auto. subst A.
    exists B. repeat split; auto.
    eapply rt_trans; [exact Hc|]. apply rt_step. repeat split; auto; apply Hov.
Qed.

Lemma connected_reach (X Y : CalendarEvent) :
  connected events X Y ->
  reach (checkPairs [] (sortedEvents events)) (Event.id X) (Event.id Y).
Proof.
  intros H. induction H as [A B (HA & HB & Hov) | A | A B C _ IH1 _ IH2].
  - destruct (string_dec (Event.id A) (Event.id B)) as [Heq | Hne].
    + rewrite Heq. apply rt_refl.
    + apply rt_step. apply edge_events. exists A, B.
      repeat split; auto; try apply Hov; try congruence.
  - apply rt_refl.
  - eapply rt_trans; eassumption.
Qed.

Variable clock : nat -> Z.

(** A conflict is a connected component: it holds the ids of the events
    connected to any of its members, at least two of them, once each. *)
Lemma conflict_component (c : Conflict) :
  In c (detectConflicts clock events) ->
  NoDup (Conflict.events c) /\
  (2 <= length (Conflict.events c))%nat /\
  (forall i, In i (Conflict.events c) ->
             exists X, In X (timed events) /\ Event.id X = i) /\
  (forall X, In X (timed events) -> In (Event.id X) (Conflict.events c) ->
             forall i, In i (Conflict.events c) <->
                       exists Y, connected events X Y /\ Event.id Y = i) /\
  Conflict.type c = typeOf (Z.of_nat (length (Conflict.events c))) /\
  Conflict.severity c = severityOf (Z.of_nat (length (Conflict.events c))).
Proof.
  intros Hc. unfold detectConflicts in Hc.
  destruct (groupConflicts_grouped clock _ (edge_sym _) c Hc) as (k & Hk & Hnd & Hall & Hty & Hsev).
  apply key_has_edge in Hk. destruct Hk as (y & Hky).
  assert (Hky' := Hky). apply edge_events in Hky'.
  destruct Hky' as (K & Y & HK & HY & Hne & Hov & <- & <-).
  repeat split; auto.
  - apply (NoDup_two _ (Event.id K) (Event.id Y)); auto.
    + apply Hall, rt_refl.
    + apply Hall. now apply rt_step.
    + intros Heq. apply Hne. now apply id_injective.
  - intros i Hi. apply Hall in Hi.
    destruct (reach_connected K i HK Hi) as (Z & HZ & _ & Heq). eauto.
  - intros Hi. apply Hall in Hi.
    match goal with HX : In X (timed events), HXc : In (Event.id X) _ |- _ =>
      apply Hall in HXc;
      assert (Hr : reach (checkPairs [] (sortedEvents events)) (Event.id X) i)
        by (eapply rt_trans; [apply (reach_sym _ (edge_sym _)), HXc | exact Hi]);
      destruct (reach_connected X i HX Hr) as (Z & _ & HZ & Heq)
    end.
    eauto.
  - intros (Z & HZ & <-). apply Hall.
    match goal with HXc : In (Event.id X) _ |- _ => apply Hall in HXc;
      eapply rt_trans; [exact HXc | now apply connected_reach] end.
Qed.

(** An event that strictly overlaps another one is in exactly one
    conflict. *)
Lemma overlapping_event_grouped (x y : CalendarEvent) :
  In x (timed events) -> In y (timed events) -> y <> x -> strictOverlap x y ->
  exists i c, nth_error (detectConflicts clock events) i = Some c /\
              In (Event.id x) (Conflict.events c) /\
              forall j c', nth_error (detectConflicts clock events) j = Some c' ->
                           In (Event.id x) (Conflict.events c') -> j = i.
Proof.
  intros Hx Hy Hne Hov. unfold detectConflicts.
  apply groupConflicts_key; [exact (edge_sym _)|].
  apply key_has_edge. exists (Event.id y). apply edge_events.
  exists x, y. repeat split; auto; apply Hov.
Qed.

(** An event that overlaps no other one is in no conflict. *)
Lemma isolated_event_free (x : CalendarEvent) (c : Conflict) :
  In x (timed events) ->
  (forall y, In y (timed events) -> y <> x -> ~ strictOverlap x y) ->
  In c (detectConflicts clock events) -> ~ In (Event.id x) (Conflict.events c).
Proof.
  intros Hx Hfree Hc Hin. unfold detectConflicts in Hc.
  apply (groupConflicts_members clock _ (edge_sym _) c _ Hc) in Hin.
  apply key_has_edge in Hin. destruct Hin as (y & Hy).
  apply edge_events in Hy.
  destruct Hy as (A & B & HA & HB & Hne & Hov & Heq & _).
  apply id_injective in Heq; auto. subst A.
  apply (Hfree B); auto.
Qed.

End Events.

End DetectFacts.

(* ===================================================================== *)
(** ** detectConflicts: the claims *)

Module PairFacts.
Import Js Conflicts JsFacts MapFacts GroupFacts DetectFacts.

Lemma overlapping_comm (a b : CalendarEvent) : overlapping a b = overlapping b a.
Proof. apply DateFacts.overlapping_sym. Qed.

(** Two events of which one is all-day, or which do not overlap, give no
    conflict. *)
Lemma pair_none (clock : nat -> Z) (A B : CalendarEvent) :
  Event.isAllDay A = true \/ Event.isAllDay B = true \/ overlapping A B = false ->
  detectConflicts clock [A; B] = [].
Proof.
  intros H. unfold detectConflicts, sortedEvents. simpl.
  destruct (Event.isAllDay A) eqn:HA, (Event.isAllDay B) eqn:HB; simpl;
    try reflexivity.
  destruct H as [H | [H | H]]; try discriminate.
  destruct (byStart A B <=? 0); simpl; unfold checkPair.
  - now rewrite H.
  - now rewrite overlapping_comm, H.
Qed.

(** Two overlapping events that are not all-day are in one conflict. *)
Lemma pair_some (clock : nat -> Z) (A B : CalendarEvent) :
  Event.isAllDay A = false -> Event.isAllDay B = false -> overlapping A B = true ->
  exists c, In c (detectConflicts clock [A; B]) /\
            In (Event.id A) (Conflict.events c) /\ In (Event.id B) (Conflict.events c).
Proof.
  intros HA HB Hov. unfold detectConflicts.
  set (m := checkPairs [] (sortedEvents [A; B])).
  assert (Hedge : edge m (Event.id A) (Event.id B)).
  { unfold m, sortedEvents. simpl. rewrite HA, HB. simpl.
    rewrite checkPairs_pairs. apply fold_checkStep_edge. right.
    destruct (byStart A B <=? 0); simpl.
    - exists (A, B). unfold joins. simpl. tauto.
    - exists (B, A). unfold joins. simpl. rewrite overlapping_comm. tauto. }
  assert (Hkey : map_has m (Event.id A) = true).
  { apply map_has_get. destruct Hedge as (s & Hs & _). eauto. }
  destruct (groupConflicts_key clock m (edge_sym _) _ Hkey) as (i & c & Hi & Hin & _).
  apply nth_error_In in Hi. exists c. repeat split; auto.
  destruct (groupConflicts_grouped clock m (edge_sym _) c Hi) as (k & _ & _ & Hall & _).
  apply Hall. apply Hall in Hin. eapply rt_trans; [exact Hin | now apply rt_step].
Qed.

End PairFacts.

(** C1.  For two events with well-formed intervals, [detectConflicts]
    reports a conflict that holds both exactly when neither is all-day and
    they strictly overlap; two events that touch ([A.end = B.start]) give no
    conflict; and, for events with distinct ids, an all-day event of the
    input is in no conflict. *)
Theorem detectConflicts_two_events (clock : nat -> Z) (A B : CalendarEvent) :
  wellFormed A -> wellFormed B ->
  ((exists c, In c (Conflicts.detectConflicts clock [A; B]) /\
              In (Event.id A) (Conflict.events c) /\
              In (Event.id B) (Conflict.events c))
   <-> (Event.isAllDay A = false /\ Event.isAllDay B = false /\ strictOverlap A B))
  /\ (Event.end_ A = Event.start B -> Conflicts.detectConflicts clock [A; B] = [])
  /\ (forall (events : list CalendarEvent) (E : CalendarEvent) (c : Conflict),
        NoDup (ids events) -> In E events -> Event.isAllDay E = true ->
        In c (Conflicts.detectConflicts clock events) ->
        ~ In (Event.id E) (Conflict.events c)).
Proof.
  intros HA HB. split; [|split].
  - split.
    + intros (c & Hc & _).
      destruct (Event.isAllDay A) eqn:HallA;
        [rewrite PairFacts.pair_none in Hc by (rewrite ?HallA; tauto); destruct Hc|].
      destruct (Event.isAllDay B) eqn:HallB;
        [rewrite PairFacts.pair_none in Hc by (rewrite ?HallB; tauto); destruct Hc|].
      destruct (Conflicts.overlapping A B) eqn:Hov;
        [|rewrite PairFacts.pair_none in Hc by tauto; destruct Hc].
      split; [reflexivity | split; [reflexivity|]].
      now apply overlapping_strictOverlap.
    + intros (HallA & HallB & Hov).
      apply PairFacts.pair_some; auto. now apply overlapping_strictOverlap.
  - intros Htouch. apply PairFacts.pair_none. right. right.
    apply not_true_is_false. rewrite overlapping_strictOverlap by assumption.
    unfold strictOverlap, wellFormed in *. lia.
  - intros events E c Hnd HE Hall Hc Hin.
    destruct (DetectFacts.member_timed clock events c _ Hc Hin) as (X & HX & Heq).
    unfold timed in HX. apply filter_In in HX. destruct HX as (HX & Htimed).
    apply (ListFacts.NoDup_map_injective Event.id events X E Hnd HX HE) in Heq.
    subst X. rewrite Hall in Htimed. discriminate.
Qed.

Lemma detectConflicts_two_events_witness :
  wellFormed (meeting "a" 0 10) /\ wellFormed (meeting "b" 5 15)
  /\ exists c, In c (Conflicts.detectConflicts sampleClock
                       [meeting "a" 0 10; meeting "b" 5 15]) /\
               In (Event.id (meeting "a" 0 10)) (Conflict.events c) /\
               In (Event.id (meeting "b" 5 15)) (Conflict.events c).
Proof.
  assert (HA : wellFormed (meeting "a" 0 10)) by (unfold wellFormed; simpl; lia).
  assert (HB : wellFormed (meeting "b" 5 15)) by (unfold wellFormed; simpl; lia).
  refine (conj HA (conj HB _)).
  apply (proj1 (detectConflicts_two_events sampleClock _ _ HA HB)).
  split; [reflexivity|]. split; [reflexivity|].
  unfold strictOverlap. simpl. lia.
Defined.

(** C2.  For events with distinct ids and well-formed intervals, the
    conflicts are the connected components of size at least 2 of the strict
    overlap graph over the events that are not all-day: a conflict holds,
    once each, the ids of the events connected to any of its members, and
    at least two of them; an event that overlaps another one is in exactly
    one conflict, and one that overlaps no other is in none; the severity
    is low for 2 members, medium for 3 and high from 4 on, and the type is
    overbooking exactly for more than 2. *)
Theorem detectConflicts_components (clock : nat -> Z) (events : list CalendarEvent) :
  NoDup (ids events) ->
  (forall e, In e (timed events) -> wellFormed e) ->
  (forall c, In c (Conflicts.detectConflicts clock events) ->
     NoDup (Conflict.events c) /\
     (2 <= length (Conflict.events c))%nat /\
     (exists X, In X (timed events) /\ In (Event.id X) (Conflict.events c)) /\
     (forall X, In X (timed events) -> In (Event.id X) (Conflict.events c) ->
        forall i, In i (Conflict.events c) <->
                  exists Y, connected events X Y /\ Event.id Y = i) /\
     (length (Conflict.events c) = 2%nat -> Conflict.severity c = low) /\
     (length (Conflict.events c) = 3%nat -> Conflict.severity c = medium) /\
     ((4 <= length (Conflict.events c))%nat -> Conflict.severity c = high) /\
     (Conflict.type c = overbooking <-> (2 < length (Conflict.events c))%nat) /\
     (Conflict.type c = overlap <-> (length (Conflict.events c) <= 2)%nat))
  /\ (forall x y, In x (timed events) -> In y (timed events) -> y <> x ->
        strictOverlap x y ->
        exists i c, nth_error (Conflicts.detectConflicts clock events) i = Some c /\
                    In (Event.id x) (Conflict.events c) /\
                    forall j c', nth_error (Conflicts.detectConflicts clock events) j = Some c' ->
                                 In (Event.id x) (Conflict.events c') -> j = i)
  /\ (forall x c, In x (timed events) ->
        (forall y, In y (timed events) -> y <> x -> ~ strictOverlap x y) ->
        In c (Conflicts.detectConflicts clock events) ->
        ~ In (Event.id x) (Conflict.events c)).
Proof.
  intros Hnd Hwf. split; [|split].
  - intros c Hc.
    destruct (DetectFacts.conflict_component events Hnd Hwf clock c Hc)
      as (H1 & H2 & H3 & H4 & Hty & Hsev).
    split; [assumption|]. split; [assumption|]. split.
    { destruct (Conflict.events c) as [|i l] eqn:Hev; [simpl in H2; lia|].
      destruct (H3 i (or_introl eq_refl)) as (X & HX & Heq).
      exists X. split; [assumption|]. rewrite Heq. now left. }
    split; [assumption|].
    rewrite Hty, Hsev. unfold Conflicts.severityOf, Conflicts.typeOf.
    set (n := length (Conflict.events c)) in *.
    rewrite !Z.gtb_ltb.
    destruct (Z.ltb_spec 3 (Z.of_nat n)), (Z.ltb_spec 2 (Z.of_nat n));
      repeat split; intros; try lia; try reflexivity; try discriminate.
  - intros x y. apply DetectFacts.overlapping_event_grouped; assumption.
  - intros x c Hx Hfree. apply DetectFacts.isolated_event_free; assumption.
Qed.

Lemma detectConflicts_components_witness :
  NoDup (ids sampleEvents)
  /\ (forall e, In e (timed sampleEvents) -> wellFormed e)
  /\ (forall x c, In x (timed sampleEvents) ->
        (forall y, In y (timed sampleEvents) -> y <> x -> ~ strictOverlap x y) ->
        In c (Conflicts.detectConflicts sampleClock sampleEvents) ->
        ~ In (Event.id x) (Conflict.events c)).
Proof.
  assert (Hnd : NoDup (ids sampleEvents)).
  { unfold ids. simpl. repeat constructor; simpl; intuition discriminate. }
  assert (Hwf : forall e, In e (timed sampleEvents) -> wellFormed e).
  { intros e He. simpl in He.
    repeat (destruct He as [<- | He]; [unfold wellFormed; simpl; lia|]).
    destruct He. }
  exact (conj Hnd (conj Hwf
           (proj2 (proj2 (detectConflicts_components sampleClock sampleEvents Hnd Hwf))))).
Defined.

(* ===================================================================== *)
(** ** findFreeSlots *)


Module FreeSlotFacts.
Import Js Suggestions DateFns FreeSlotSpec.

Lemma startOfDay_mod (d : Date) : startOfDay d mod millisecondsInDay = 0.
Proof.
  unfold startOfDay, millisecondsInDay.
  rewrite Zminus_mod, Zmod_mod, Z.sub_diag. reflexivity.
Qed.

Lemma window_at (day : Date) (h m : Z) :
  day mod millisecondsInDay = 0 ->
  setMinutes (setHours day h) m = at_ day h m.
Proof.
  intros Hday. unfold setMinutes, setHours, getMinutes, getHours, at_.
  rewrite Hday.
  unfold millisecondsInDay, millisecondsInHour, millisecondsInMinute in *.
  change (0 / 3600000) with 0. rewrite Z.sub_0_r.
  replace ((day + h * 3600000) mod 3600000) with 0.
  - change (0 / 60000) with 0. lia.
  - rewrite Z.add_mod, Z.mod_mul, Z.add_0_r, Z.mod_mod by lia.
    symmetry. apply Z.mod_divide; [lia|].
    apply Z.mod_divide in Hday; [|lia].
    destruct Hday as (q & ->). exists (q * 24). lia.
Qed.

Lemma pushGap_gap (minDuration : Z) (acc : list FreeSlot) (from to : Date) :
  pushGap minDuration acc from to = acc ++ gap minDuration from to.
Proof.
  unfold pushGap, gap, isBefore, differenceInMinutes, getTime, millisecondsInMinute.
  destruct (from <? to) eqn:Hlt; simpl; [|now rewrite app_nil_r].
  apply Z.ltb_lt in Hlt.
  rewrite Z.quot_div_nonneg by lia.
  rewrite Z.geb_leb.
  destruct (minDuration <=? (to - from) / 60000) eqn:H1,
           (minDuration * 60000 <=? to - from) eqn:H2;
    try reflexivity; try (now rewrite app_nil_r).
  - apply Z.leb_le in H1. apply Z.leb_gt in H2.
    assert (H := Z.mul_div_le (to - from) 60000). nia.
  - apply Z.leb_gt in H1. apply Z.leb_le in H2.
    assert (minDuration <= (to - from) / 60000)
      by (apply Z.div_le_lower_bound; lia). lia.
Qed.

(** On well-formed events and a well-formed window, the filter of the code
    keeps the events that meet the window. *)
Lemma onDay_relevant (windowStart windowEnd : Z) (e : CalendarEvent) :
  windowStart <= windowEnd ->
  (Event.isAllDay e = false -> wellFormed e) ->
  onDay windowStart windowEnd e = relevant windowStart windowEnd e.
Proof.
  intros Hw He. unfold onDay, relevant.
  destruct (Event.isAllDay e); [reflexivity|]. simpl.
  specialize (He eq_refl). unfold wellFormed in He.
  rewrite !DateFacts.within_wellFormed by assumption. simpl.
  unfold isBefore, isAfter, getTime.
  destruct (windowStart <=? Event.start e) eqn:H1,
           (Event.start e <=? windowEnd) eqn:H2,
           (windowStart <=? Event.end_ e) eqn:H3,
           (Event.end_ e <=? windowEnd) eqn:H4,
           (Event.start e <? windowStart) eqn:H5,
           (windowEnd <? Event.end_ e) eqn:H6; simpl; try reflexivity;
    rewrite ?Z.leb_le, ?Z.leb_gt, ?Z.ltb_lt, ?Z.ltb_ge in *; lia.
Qed.

(** The loop over the events of a day, followed by the last gap, is the
    cursor scan. *)
Lemma scan_cursorScan (minDuration windowStart windowEnd : Z)
  (l : list CalendarEvent) :
  windowStart <= windowEnd ->
  (forall e, In e l -> Event.start e <= windowEnd /\ windowStart <= Event.end_ e) ->
  forall cursor acc,
    pushGap minDuration
      (snd (fold_left (scanEvent windowStart windowEnd minDuration) l (cursor, acc)))
      (fst (fold_left (scanEvent windowStart windowEnd minDuration) l (cursor, acc)))
      windowEnd
    = acc ++ cursorScan minDuration windowStart windowEnd cursor l.
Proof.
  intros Hw. induction l as [|e l IH]; intros Hl cursor acc; simpl.
  - apply pushGap_gap.
  - destruct (Hl e (or_introl eq_refl)) as (Hs & He).
    rewrite IH by (intros x Hx; apply Hl; now right).
    rewrite pushGap_gap, <- app_assoc. unfold clamp, isBefore, isAfter, getTime.
    destruct (Z.ltb_spec (Event.start e) windowStart),
             (Z.ltb_spec windowEnd (Event.end_ e));
      match goal with
      | |- context [if ?a <? ?b then _ else _] => destruct (Z.ltb_spec a b)
      end; repeat f_equal; lia.
Qed.

Section Day.
Variable events : list CalendarEvent.
Variables startHour startMin endHour endMin minDuration : Z.
Hypothesis window_ok : at_ 0 startHour startMin <= at_ 0 endHour endMin.
Hypothesis events_ok : forall e, In e events -> Event.isAllDay e = false -> wellFormed e.

Lemma window_ok_at (day : Date) :
  at_ day startHour startMin <= at_ day endHour endMin.
Proof. unfold at_ in *. lia. Qed.

Lemma dayEvents_relevant (windowStart windowEnd : Z) :
  windowStart <= windowEnd ->
  dayEvents events windowStart windowEnd
  = sort byStart (filter (relevant windowStart windowEnd) events).
Proof.
  intros Hw. unfold dayEvents. f_equal. apply filter_ext_in.
  intros e He. apply onDay_relevant; auto.
Qed.

Lemma relevant_meets (windowStart windowEnd : Z) (e : CalendarEvent) :
  In e (sort byStart (filter (relevant windowStart windowEnd) events)) ->
  In e events /\ Event.isAllDay e = false /\
  Event.start e <= windowEnd /\ windowStart <= Event.end_ e.
Proof.
  intros He. apply SortFacts.sort_In, filter_In in He.
  destruct He as (Hin & Hrel). unfold relevant in Hrel.
  rewrite !andb_true_iff, negb_true_iff, !Z.leb_le in Hrel. tauto.
Qed.

(** One round of the loop over the days adds the slots of that day. *)
Lemma scanDay_daySlots (day : Date) (acc : list FreeSlot) :
  day mod millisecondsInDay = 0 ->
  scanDay events startHour startMin endHour endMin minDuration day acc
  = acc ++ daySlots events minDuration
             (at_ day startHour startMin) (at_ day endHour endMin).
Proof.
  intros Hday. unfold scanDay, daySlots. rewrite !window_at by assumption.
  assert (Hw := window_ok_at day).
  rewrite dayEvents_relevant by assumption.
  match goal with
  | |- context [fold_left ?f ?l ?st] =>
      assert (Hscan := scan_cursorScan minDuration _ _ l Hw
                         (fun e He => proj2 (proj2 (relevant_meets _ _ e He)))
                         (at_ day startHour startMin) acc);
      destruct (fold_left f l st) as [slotStart freeSlots']
  end.
  exact Hscan.
Qed.

Lemma scanDays_days (n : nat) :
  forall (currentDay lastDay : Date) (acc : list FreeSlot),
    currentDay mod millisecondsInDay = 0 ->
    (forall k, (k < n)%nat -> addDays currentDay (Z.of_nat k) <= lastDay) ->
    scanDays n events startHour startMin endHour endMin minDuration
             currentDay lastDay acc
    = acc ++ flat_map (fun day => daySlots events minDuration
                                    (at_ day startHour startMin)
                                    (at_ day endHour endMin))
                      (map (fun k => addDays currentDay (Z.of_nat k)) (seq 0 n)).
Proof.
  induction n as [|n IH]; intros currentDay lastDay acc Hday Hle; simpl.
  - now rewrite app_nil_r.
  - assert (H0 := Hle O (Nat.lt_0_succ n)). unfold addDays in H0. simpl in H0.
    replace (currentDay <=? lastDay) with true by (symmetry; apply Z.leb_le; lia).
    rewrite IH.
    + rewrite scanDay_daySlots by assumption.
      rewrite <- app_assoc. f_equal.
      replace (addDays currentDay 0) with currentDay by (unfold addDays; lia).
      f_equal. f_equal.
      rewrite <- seq_shift, map_map. apply map_ext.
      intros k. unfold addDays. lia.
    + unfold addDays, millisecondsInDay in *.
      rewrite Z.add_mod, Hday by lia. reflexivity.
    + intros k Hk. specialize (Hle (S k) (proj1 (Nat.succ_lt_mono k n) Hk)).
      unfold addDays in *. lia.
Qed.

(** The loop over the days has come to its end after [dayCount] rounds:
    more rounds change nothing. *)
Lemma scanDays_done (n extra : nat) :
  forall (currentDay lastDay : Date) (acc : list FreeSlot),
    lastDay < addDays currentDay (Z.of_nat n) ->
    scanDays (n + extra) events startHour startMin endHour endMin minDuration
             currentDay lastDay acc
    = scanDays n events startHour startMin endHour endMin minDuration
               currentDay lastDay acc.
Proof.
  induction n as [|n IH]; intros currentDay lastDay acc Hlt; simpl.
  - unfold addDays in Hlt. destruct extra; simpl; [reflexivity|].
    replace (currentDay <=? lastDay) with false
      by (symmetry; apply Z.leb_gt; lia). reflexivity.
  - destruct (currentDay <=? lastDay); [|reflexivity].
    apply IH. unfold addDays in *. lia.
Qed.

Lemma dayCount_enough (currentDay lastDay : Date) :
  lastDay < addDays currentDay (Z.of_nat (dayCount currentDay lastDay)).
Proof.
  unfold dayCount, addDays, millisecondsInDay.
  assert (H := Z.mod_pos_bound (lastDay - currentDay) 86400000 eq_refl).
  assert (H' := Z.div_mod (lastDay - currentDay) 86400000).
  lia.
Qed.

Lemma dayCount_within (currentDay lastDay : Date) (k : nat) :
  (k < dayCount currentDay lastDay)%nat ->
  addDays currentDay (Z.of_nat k) <= lastDay.
Proof.
  unfold dayCount, addDays, millisecondsInDay. intros Hk.
  assert (H := Z.mod_pos_bound (lastDay - currentDay) 86400000 eq_refl).
  assert (H' := Z.div_mod (lastDay - currentDay) 86400000).
  lia.
Qed.

(** [dayCount] rounds are all the rounds that the loop over the days
    makes. *)
Lemma scanDays_complete (extra : nat) (currentDay lastDay : Date)
  (acc : list FreeSlot) :
  scanDays (dayCount currentDay lastDay + extra) events
           startHour startMin endHour endMin minDuration currentDay lastDay acc
  = scanDays (dayCount currentDay lastDay) events
             startHour startMin endHour endMin minDuration currentDay lastDay acc.
Proof. apply scanDays_done, dayCount_enough. Qed.

End Day.

End FreeSlotFacts.

Module FreeSlotClaims.
Import Js Suggestions DateFns FreeSlotSpec FreeSlotFacts.

(** [findFreeSlots] computes the free slots of the specification. *)
Lemma findFreeSlots_freeSlots (events : list CalendarEvent)
  (startDate endDate : Date) (workingHours : WorkingHours.t)
  (startHour startMin endHour endMin minDuration : Z) :
  hourAndMinute (WorkingHours.start workingHours) = (Some startHour, Some startMin) ->
  hourAndMinute (WorkingHours.end_ workingHours) = (Some endHour, Some endMin) ->
  at_ 0 startHour startMin <= at_ 0 endHour endMin ->
  (forall e, In e events -> Event.isAllDay e = false -> wellFormed e) ->
  findFreeSlots events startDate endDate workingHours minDuration
  = freeSlots events startDate endDate startHour startMin endHour endMin minDuration.
Proof.
  intros Hs He Hw Hev. unfold findFreeSlots. rewrite Hs, He.
  rewrite scanDays_days; auto.
  - apply startOfDay_mod.
  - intros k. apply dayCount_within.
Qed.

Lemma gap_none (minDuration from to : Z) : to <= from -> gap minDuration from to = [].
Proof.
  intros H. unfold gap.
  replace (from <? to) with false by (symmetry; apply Z.ltb_ge; lia). reflexivity.
Qed.

Section Covered.
Variables minDuration windowStart windowEnd : Z.
Hypothesis window_ok : windowStart <= windowEnd.

(** Events that start before the window leave no gap and keep the cursor
    in the window. *)
Lemma scan_before (l rest : list CalendarEvent) :
  (forall x, In x l -> Event.start x <= windowStart) ->
  forall cursor, windowStart <= cursor <= windowEnd ->
    exists cursor', windowStart <= cursor' <= windowEnd /\
      cursorScan minDuration windowStart windowEnd cursor (l ++ rest)
      = cursorScan minDuration windowStart windowEnd cursor' rest.
Proof.
  induction l as [|x l IH]; intros Hl cursor Hc; simpl.
  - exists cursor. tauto.
  - assert (Hx := Hl x (or_introl eq_refl)).
    rewrite gap_none by (unfold clamp; lia). simpl.
    apply IH; [intros y Hy; apply Hl; now right|].
    unfold clamp. lia.
Qed.

(** Once the cursor is at the end of the window nothing more is found. *)
Lemma scan_after (l : list CalendarEvent) :
  (forall x, In x l -> Event.start x <= windowEnd) ->
  cursorScan minDuration windowStart windowEnd windowEnd l = [].
Proof.
  induction l as [|x l IH]; intros Hl; simpl.
  - apply gap_none. lia.
  - assert (Hx := Hl x (or_introl eq_refl)).
    rewrite gap_none by (unfold clamp; lia). simpl.
    replace (Z.max windowEnd (clamp windowStart windowEnd (Event.end_ x)))
      with windowEnd by (unfold clamp; lia).
    apply IH. intros y Hy. apply Hl. now right.
Qed.

Lemma sorted_before {A : Type} (R : A -> A -> Prop) (l1 l2 : list A) (x : A) :
  StronglySorted R (l1 ++ x :: l2) -> forall y, In y l1 -> R y x.
Proof.
  induction l1 as [|a l1 IH]; simpl; [intros _ y []|].
  intros Hs y [<- | Hy].
  - apply StronglySorted_inv in Hs. destruct Hs as (_ & Hall).
    rewrite Forall_forall in Hall. apply Hall, in_elt.
  - apply StronglySorted_inv in Hs. apply IH; tauto.
Qed.

(** A day with an event that covers the whole window has no free slot. *)
Lemma daySlots_covered (events : list CalendarEvent) (E : CalendarEvent) :
  In E events -> Event.isAllDay E = false ->
  Event.start E <= windowStart -> windowEnd <= Event.end_ E ->
  daySlots events minDuration windowStart windowEnd = [].
Proof.
  intros HE Hall Hs He. unfold daySlots.
  set (l := sort byStart (filter (relevant windowStart windowEnd) events)).
  assert (Hin : In E l).
  { apply SortFacts.sort_In, filter_In. split; [assumption|].
    unfold relevant. rewrite Hall. simpl.
    apply andb_true_iff. rewrite !Z.leb_le. lia. }
  assert (Hsorted : StronglySorted (ascending Event.start) l).
  { apply SortFacts.sort_sorted. reflexivity. }
  assert (Hrel : forall x, In x l -> Event.start x <= windowEnd).
  { intros x Hx. apply SortFacts.sort_In, filter_In in Hx.
    destruct Hx as (_ & Hx). unfold relevant in Hx.
    rewrite !andb_true_iff, Z.leb_le in Hx. tauto. }
  destruct (in_split _ _ Hin) as (l1 & l2 & Heq). rewrite Heq in *.
  destruct (scan_before l1 (E :: l2)) with (cursor := windowStart)
    as (cursor' & Hc & ->); [|lia|].
  { intros y Hy. assert (H := sorted_before _ _ _ _ Hsorted y Hy).
    unfold ascending in H. lia. }
  simpl. rewrite gap_none by (unfold clamp; lia). simpl.
  replace (Z.max cursor' (clamp windowStart windowEnd (Event.end_ E)))
    with windowEnd by (unfold clamp; lia).
  apply scan_after. intros x Hx. apply Hrel. apply in_app_iff. right. now right.
Qed.

(** A day on which no event meets the window is one gap. *)
Lemma daySlots_empty (events : list CalendarEvent) :
  (forall e, In e events ->
     Event.isAllDay e = true \/ Event.end_ e < windowStart \/ windowEnd < Event.start e) ->
  daySlots events minDuration windowStart windowEnd
  = gap minDuration windowStart windowEnd.
Proof.
  intros Hnone. unfold daySlots.
  replace (filter (relevant windowStart windowEnd) events) with (@nil CalendarEvent);
    [reflexivity|].
  symmetry. induction events as [|e events IH]; simpl; [reflexivity|].
  rewrite IH by (intros x Hx; apply Hnone; now right).
  replace (relevant windowStart windowEnd e) with false; [reflexivity|].
  symmetry. unfold relevant.
  destruct (Hnone e (or_introl eq_refl)) as [-> | [H | H]]; [reflexivity | |].
  - rewrite andb_false_iff, Z.leb_gt. tauto.
  - rewrite andb_false_iff, andb_false_iff, Z.leb_gt. tauto.
Qed.

End Covered.

(** A range within one day has that day only. *)
Lemma days_single (rangeStart rangeEnd : Date) :
  startOfDay rangeStart = startOfDay rangeEnd ->
  days rangeStart rangeEnd = [startOfDay rangeStart].
Proof.
  intros Heq. unfold days, dayCount. rewrite <- Heq, Z.sub_diag. simpl.
  unfold addDays. f_equal. lia.
Qed.

End FreeSlotClaims.

(** C3.  With working hours in HH:mm form whose start is not after their
    end, and events with well-formed intervals, [findFreeSlots] returns, day
    by day over the inclusive range, the gaps of at least [minDuration]
    minutes that the cursor scan of the specification finds over the
    relevant events of the day in order of start, each clamped to the
    working window.  Hence a single day on which no event meets the window
    09:00-17:00 gives the one slot that covers the window when
    [minDuration <= 480], and a single day with an event that covers the
    window gives no slot. *)
Theorem findFreeSlots_cursor_scan :
  (forall (events : list CalendarEvent) (startDate endDate : DateFns.Date)
          (workingHours : WorkingHours.t)
          (startHour startMin endHour endMin minDuration : Z),
      Suggestions.hourAndMinute (WorkingHours.start workingHours)
        = (Some startHour, Some startMin) ->
      Suggestions.hourAndMinute (WorkingHours.end_ workingHours)
        = (Some endHour, Some endMin) ->
      FreeSlotSpec.at_ 0 startHour startMin <= FreeSlotSpec.at_ 0 endHour endMin ->
      (forall e, In e events -> Event.isAllDay e = false -> wellFormed e) ->
      Suggestions.findFreeSlots events startDate endDate workingHours minDuration
      = FreeSlotSpec.freeSlots events startDate endDate
          startHour startMin endHour endMin minDuration)
  /\ (forall (events : list CalendarEvent) (startDate endDate : DateFns.Date)
             (minDuration : Z),
        DateFns.startOfDay startDate = DateFns.startOfDay endDate ->
        minDuration <= 480 ->
        (forall e, In e events ->
           Event.isAllDay e = true \/
           (wellFormed e /\
            (Event.end_ e < FreeSlotSpec.at_ (DateFns.startOfDay startDate) 9 0 \/
             FreeSlotSpec.at_ (DateFns.startOfDay startDate) 17 0 < Event.start e))) ->
        Suggestions.findFreeSlots events startDate endDate
          (WorkingHours.mk "09:00" "17:00") minDuration
        = [FreeSlot.mk (FreeSlotSpec.at_ (DateFns.startOfDay startDate) 9 0)
                       (FreeSlotSpec.at_ (DateFns.startOfDay startDate) 17 0) 480])
  /\ (forall (events : list CalendarEvent) (startDate endDate : DateFns.Date)
             (workingHours : WorkingHours.t)
             (startHour startMin endHour endMin minDuration : Z) (E : CalendarEvent),
        Suggestions.hourAndMinute (WorkingHours.start workingHours)
          = (Some startHour, Some startMin) ->
        Suggestions.hourAndMinute (WorkingHours.end_ workingHours)
          = (Some endHour, Some endMin) ->
        FreeSlotSpec.at_ 0 startHour startMin <= FreeSlotSpec.at_ 0 endHour endMin ->
        (forall e, In e events -> Event.isAllDay e = false -> wellFormed e) ->
        DateFns.startOfDay startDate = DateFns.startOfDay endDate ->
        In E events -> Event.isAllDay E = false ->
        Event.start E <= FreeSlotSpec.at_ (DateFns.startOfDay startDate) startHour startMin ->
        FreeSlotSpec.at_ (DateFns.startOfDay startDate) endHour endMin <= Event.end_ E ->
        Suggestions.findFreeSlots events startDate endDate workingHours minDuration = []).
Proof.
  split; [|split].
  - intros. now apply FreeSlotClaims.findFreeSlots_freeSlots.
  - intros events startDate endDate minDuration Hday Hmin Hnone.
    rewrite (FreeSlotClaims.findFreeSlots_freeSlots events startDate endDate
               _ 9 0 17 0 minDuration); try reflexivity.
    + unfold FreeSlotSpec.freeSlots.
      rewrite FreeSlotClaims.days_single by assumption. simpl.
      rewrite app_nil_r, FreeSlotClaims.daySlots_empty.
      * unfold FreeSlotSpec.gap, FreeSlotSpec.at_, DateFns.millisecondsInHour,
          DateFns.millisecondsInMinute.
        set (day := DateFns.startOfDay startDate).
        replace (day + 9 * 3600000 + 0 * 60000 <? day + 17 * 3600000 + 0 * 60000)
          with true by (symmetry; apply Z.ltb_lt; lia).
        replace (day + 17 * 3600000 + 0 * 60000 - (day + 9 * 3600000 + 0 * 60000))
          with 28800000 by lia.
        replace (minDuration * 60000 <=? 28800000)
          with true by (symmetry; apply Z.leb_le; lia).
        reflexivity.
      * intros e He. destruct (Hnone e He) as [H | (_ & H)]; tauto.
    + unfold FreeSlotSpec.at_, DateFns.millisecondsInHour. lia.
    + intros e He Hall. destruct (Hnone e He) as [H | (H & _)]; [congruence | exact H].
  - intros events startDate endDate workingHours startHour startMin endHour endMin
           minDuration E Hs He Hw Hev Hday HE Hall HsE HeE.
    rewrite (FreeSlotClaims.findFreeSlots_freeSlots events startDate endDate
               workingHours startHour startMin endHour endMin minDuration);
      try assumption.
    unfold FreeSlotSpec.freeSlots.
    rewrite FreeSlotClaims.days_single by assumption. simpl.
    rewrite app_nil_r.
    apply (FreeSlotClaims.daySlots_covered minDuration _ _
             (FreeSlotFacts.window_ok_at _ _ _ _ Hw _) events E); assumption.
Qed.

Lemma findFreeSlots_cursor_scan_witness :
  Suggestions.hourAndMinute "09:00" = (Some 9, Some 0)
  /\ Suggestions.hourAndMinute "18:00" = (Some 18, Some 0)
  /\ FreeSlotSpec.at_ 0 9 0 <= FreeSlotSpec.at_ 0 18 0
  /\ (forall e, In e sampleEvents -> Event.isAllDay e = false -> wellFormed e)
  /\ Suggestions.findFreeSlots sampleEvents 0 0 (WorkingHours.mk "09:00" "18:00") 30
     = FreeSlotSpec.freeSlots sampleEvents 0 0 9 0 18 0 30.
Proof.
  assert (H1 : Suggestions.hourAndMinute "09:00" = (Some 9, Some 0)) by reflexivity.
  assert (H2 : Suggestions.hourAndMinute "18:00" = (Some 18, Some 0)) by reflexivity.
  assert (H3 : FreeSlotSpec.at_ 0 9 0 <= FreeSlotSpec.at_ 0 18 0)
    by (unfold FreeSlotSpec.at_; simpl; lia).
  assert (H4 : forall e, In e sampleEvents -> Event.isAllDay e = false -> wellFormed e).
  { intros e He _. simpl in He.
    repeat (destruct He as [<- | He]; [unfold wellFormed; simpl; lia|]).
    destruct He. }
  refine (conj H1 (conj H2 (conj H3 (conj H4 _)))).
  exact (proj1 findFreeSlots_cursor_scan sampleEvents 0 0
           (WorkingHours.mk "09:00" "18:00") 9 0 18 0 30 H1 H2 H3 H4).
Defined.

(* ===================================================================== *)
(** ** suggestBestTimes *)

Module SuggestFacts.
Import Js Suggestions DateFns.


Lemma suggestSlot_step (desiredDuration : Z) (categoryHabit : option HabitPattern)
  (category : option EventCategory) (acc : list TimeSuggestion) (slot : FreeSlot) :
  suggestSlot desiredDuration categoryHabit category acc slot
  = acc ++ (if longEnough desiredDuration slot
            then [suggestionFor desiredDuration categoryHabit category slot]
            else []).
Proof.
  unfold suggestSlot, longEnough, suggestionFor.
  destruct (FreeSlot.duration slot <? desiredDuration).
  - symmetry. apply app_nil_r.
  - destruct (scoreSlot desiredDuration categoryHabit category slot). reflexivity.
Qed.

Lemma suggest_fold (desiredDuration : Z) (categoryHabit : option HabitPattern)
  (category : option EventCategory) (slots : list FreeSlot) :
  forall acc,
    fold_left (suggestSlot desiredDuration categoryHabit category) slots acc
    = acc ++ map (suggestionFor desiredDuration categoryHabit category)
                 (filter (longEnough desiredDuration) slots).
Proof.
  induction slots as [|slot slots IH]; intros acc.
  - simpl. now rewrite app_nil_r.
  - cbn [fold_left filter]. rewrite IH, suggestSlot_step, <- app_assoc.
    now destruct (longEnough desiredDuration slot).
Qed.

Lemma scorePreferredTime_grows (category : option EventCategory)
  (slotHour slotDayOfWeek : Z) (st : Z * list string) (preferredTime : TimeSlot) :
  fst st <= fst (scorePreferredTime category slotHour slotDayOfWeek st preferredTime).
Proof.
  destruct st as [score reasons]. unfold scorePreferredTime.
  destruct (sameDay _ _);
    destruct (Z.abs (TimeSlot.hour preferredTime - slotHour) <=? 1);
    try destruct (Z.abs (TimeSlot.hour preferredTime - slotHour) <=? 2);
    simpl; lia.
Qed.

Lemma fold_scorePreferredTime_grows (category : option EventCategory)
  (slotHour slotDayOfWeek : Z) (times : list TimeSlot) :
  forall st,
    fst st <= fst (fold_left (scorePreferredTime category slotHour slotDayOfWeek) times st).
Proof.
  induction times as [|t times IH]; intros st; simpl; [lia|].
  eapply Z.le_trans; [apply scorePreferredTime_grows | apply IH].
Qed.

Lemma scoreSlot_bounds (desiredDuration : Z) (categoryHabit : option HabitPattern)
  (category : option EventCategory) (slot : FreeSlot) :
  50 <= fst (scoreSlot desiredDuration categoryHabit category slot) <= 100.
Proof.
  unfold scoreSlot.
  set (st0 := match categoryHabit with
              | Some habit => fold_left _ _ _
              | None => _
              end).
  assert (H0 : 50 <= fst st0).
  { unfold st0. destruct categoryHabit; [|simpl; lia].
    apply (fold_scorePreferredTime_grows category _ _ _ (50, [])). }
  clearbody st0.
  repeat match goal with
         | |- context [if ?b then _ else _] => destruct b
         end; simpl; lia.
Qed.

End SuggestFacts.

(** C5.  Every suggestion of [suggestBestTimes] has a score between 0.5 and
    1.0 (50 and 100 hundredths) and comes from a free slot that is at least
    as long as the desired duration; its slot starts where that free slot
    starts, ends [desiredDuration] minutes later and has the desired
    duration.  The free slots that are shorter are dropped, the others all
    give a suggestion, and the result is in descending order of score. *)
Theorem suggestBestTimes_sound (freeSlots : list FreeSlot) (desiredDuration : Z)
  (habits : list HabitPattern) (category : option EventCategory) :
  (forall s, In s (Suggestions.suggestBestTimes freeSlots desiredDuration habits category) ->
     50 <= TimeSuggestion.score s <= 100 /\
     FreeSlot.duration (TimeSuggestion.slot s) = desiredDuration /\
     DateFns.getTime (FreeSlot.end_ (TimeSuggestion.slot s))
       - DateFns.getTime (FreeSlot.start (TimeSuggestion.slot s))
       = desiredDuration * DateFns.millisecondsInMinute /\
     exists slot, In slot freeSlots /\
                  desiredDuration <= FreeSlot.duration slot /\
                  FreeSlot.start (TimeSuggestion.slot s) = FreeSlot.start slot /\
                  FreeSlot.end_ (TimeSuggestion.slot s)
                    = DateFns.addMinutes (FreeSlot.start slot) desiredDuration)
  /\ Permutation
       (map TimeSuggestion.slot
            (Suggestions.suggestBestTimes freeSlots desiredDuration habits category))
       (map (fun slot => FreeSlot.mk (FreeSlot.start slot)
                           (DateFns.addMinutes (FreeSlot.start slot) desiredDuration)
                           desiredDuration)
            (filter (fun slot => desiredDuration <=? FreeSlot.duration slot) freeSlots))
  /\ StronglySorted (fun a b => TimeSuggestion.score b <= TimeSuggestion.score a)
       (Suggestions.suggestBestTimes freeSlots desiredDuration habits category).
Proof.
  unfold Suggestions.suggestBestTimes.
  cbv zeta. rewrite SuggestFacts.suggest_fold. cbn [app].
  split; [|split].
  - intros s Hs. apply SortFacts.sort_In, in_map_iff in Hs.
    destruct Hs as (slot & <- & Hslot). apply filter_In in Hslot.
    destruct Hslot as (Hin & Hlong). unfold longEnough in Hlong.
    apply negb_true_iff, Z.ltb_ge in Hlong.
    unfold suggestionFor. simpl.
    split; [apply SuggestFacts.scoreSlot_bounds|].
    split; [reflexivity|].
    split; [unfold DateFns.addMinutes, DateFns.getTime; lia|].
    exists slot. auto.
  - rewrite SortFacts.sort_perm, map_map. simpl.
    replace (filter (longEnough desiredDuration) freeSlots)
      with (filter (fun slot => desiredDuration <=? FreeSlot.duration slot) freeSlots);
      [reflexivity|].
    apply filter_ext. intros slot. unfold longEnough.
    now rewrite Z.leb_antisym.
  - apply (ListFacts.StronglySorted_weaken
             (ascending (fun s => - TimeSuggestion.score s))).
    + unfold ascending. intros a b. lia.
    + apply SortFacts.sort_sorted. intros a b.
      unfold Suggestions.byScoreDescending. lia.
Qed.

(** C8.  The bonus for a slot hour within 2 of a preferred hour comes with
    no reason: for a slot at 11:00 and a habit that prefers 9:00 on another
    day of the week, the score rises from 0.5 to 0.6 while the list of
    reasons stays empty. *)
Theorem suggestBestTimes_bonus_without_reason :
  let habit := HabitPattern.mk "h" personal [TimeSlot.mk (Some 0) 9 0]
                               60 weekly [] 1 0 0 in
  let slot := FreeSlot.mk (11 * 3600000) (12 * 3600000) 60 in
  Suggestions.suggestBestTimes [slot] 60 [] (Some personal)
    = [TimeSuggestion.mk slot 50 []]
  /\ Suggestions.suggestBestTimes [slot] 60 [habit] (Some personal)
    = [TimeSuggestion.mk slot 60 []].
Proof. split; reflexivity. Qed.

(* ===================================================================== *)
(** ** The habits table *)

Module HabitFacts.
Import Js Habits DateFns.


Lemma EventCategory_eqb_eq (a b : EventCategory) :
  EventCategory_eqb a b = true <-> a = b.
Proof. destruct a, b; simpl; split; congruence. Qed.

Lemma table_get_In (db : Table) (id : string) (h : HabitPattern) :
  table_get db id = Some h -> In h db /\ HabitPattern.id h = id.
Proof.
  intros H. apply find_some in H. now rewrite String.eqb_eq in H.
Qed.

Lemma table_get_None (db : Table) (id : string) :
  table_get db id = None <-> ~ In id (map HabitPattern.id db).
Proof.
  unfold table_get. induction db as [|x db IH]; simpl; [tauto|].
  destruct (String.eqb (HabitPattern.id x) id) eqn:Hx.
  - apply String.eqb_eq in Hx. split; [discriminate | tauto].
  - apply String.eqb_neq in Hx. rewrite IH. tauto.
Qed.

Lemma table_get_ok (db : Table) (h : HabitPattern) :
  tableOk db -> In h db -> table_get db (HabitPattern.id h) = Some h.
Proof.
  intros Hok Hin.
  destruct (table_get db (HabitPattern.id h)) as [x|] eqn:Hget.
  - apply table_get_In in Hget. destruct Hget as (Hx & Hid).
    f_equal. eapply ListFacts.NoDup_map_injective; eassumption.
  - apply table_get_None in Hget. exfalso. apply Hget. now apply in_map.
Qed.

Lemma byCategory_In (db : Table) (c : EventCategory) (h : HabitPattern) :
  getHabitByCategory db c = Some h -> In h db /\ HabitPattern.category h = c.
Proof.
  intros H. apply find_some in H. now rewrite EventCategory_eqb_eq in H.
Qed.

Lemma byCategory_None (db : Table) (c : EventCategory) :
  getHabitByCategory db c = None <-> ~ In c (map HabitPattern.category db).
Proof.
  unfold getHabitByCategory. induction db as [|x db IH]; simpl; [tauto|].
  destruct (EventCategory_eqb (HabitPattern.category x) c) eqn:Hx.
  - apply EventCategory_eqb_eq in Hx. split; [discriminate | tauto].
  - rewrite IH. split; [|tauto].
    intros Hn [Heq | Hin]; [|tauto].
    apply EventCategory_eqb_eq in Heq. congruence.
Qed.

Lemma table_put_In (db : Table) (h x : HabitPattern) :
  In x (table_put db h) -> x = h \/ In x db.
Proof.
  induction db as [|y db IH]; simpl; [intuition congruence|].
  destruct (String.eqb (HabitPattern.id y) (HabitPattern.id h)); simpl;
    intuition congruence.
Qed.

(** [put] replaces, in place, the row that has the key. *)
Lemma table_put_replace (db : Table) (h h' : HabitPattern) :
  tableOk db -> In h db -> HabitPattern.id h' = HabitPattern.id h ->
  exists l1 l2, db = l1 ++ h :: l2 /\ table_put db h' = l1 ++ h' :: l2.
Proof.
  intros Hok Hin Hid. induction db as [|x db IH]; [destruct Hin|].
  simpl. destruct (String.eqb (HabitPattern.id x) (HabitPattern.id h')) eqn:Hx.
  - apply String.eqb_eq in Hx.
    assert (x = h).
    { apply (ListFacts.NoDup_map_injective HabitPattern.id (x :: db));
        auto; [now left | congruence]. }
    subst x. exists [], db. auto.
  - apply String.eqb_neq in Hx.
    destruct Hin as [-> | Hin]; [congruence|].
    inversion Hok; subst.
    destruct (IH ltac:(assumption) Hin) as (l1 & l2 & -> & ->).
    exists (x :: l1), l2. auto.
Qed.

Lemma byCategory_replace (l1 l2 : Table) (h h' : HabitPattern) (c : EventCategory) :
  tableOk (l1 ++ h :: l2) ->
  getHabitByCategory (l1 ++ h :: l2) c = Some h ->
  HabitPattern.category h' = c ->
  getHabitByCategory (l1 ++ h' :: l2) c = Some h'.
Proof.
  unfold getHabitByCategory, tableOk. intros Hok Hget Hcat.
  induction l1 as [|x l1 IH]; simpl in *.
  - rewrite Hcat. destruct c; reflexivity.
  - inversion Hok as [|? ? Hx Hl]; subst.
    destruct (EventCategory_eqb (HabitPattern.category x) (HabitPattern.category h')).
    + injection Hget as ->. exfalso. apply Hx.
      rewrite map_app. apply in_app_iff. right. now left.
    + now apply IH.
Qed.


Lemma learn_update (env : Env) (event : CalendarEvent) (db : Table)
  (habit : HabitPattern) :
  tableOk db ->
  getHabitByCategory db (categoryOf event) = Some habit ->
  learnFromEvent env event db
  = Ok (Some (learned env event habit), table_put db (learned env event habit)).
Proof.
  intros Hok Hget. unfold learnFromEvent. rewrite Hget.
  unfold updateHabit.
  rewrite table_get_ok by (auto; apply (byCategory_In _ _ _ Hget)).
  reflexivity.
Qed.

Lemma learn_create (env : Env) (event : CalendarEvent) (db : Table) :
  getHabitByCategory db (categoryOf event) = None ->
  table_get db (generatedId env) = None ->
  learnFromEvent env event db = Ok (Some (created env event), db ++ [created env event]).
Proof.
  intros Hget Hfresh. unfold learnFromEvent, createHabit, table_add.
  rewrite Hget. simpl. rewrite Hfresh. reflexivity.
Qed.

Lemma learn_create_clash (env : Env) (event : CalendarEvent) (db : Table)
  (h : HabitPattern) :
  getHabitByCategory db (categoryOf event) = None ->
  table_get db (generatedId env) = Some h ->
  learnFromEvent env event db = ConstraintError.
Proof.
  intros Hget Hclash. unfold learnFromEvent, createHabit, table_add.
  rewrite Hget. simpl. rewrite Hclash. reflexivity.
Qed.

End HabitFacts.

(* ===================================================================== *)
(** ** Runs of learnFromEvent *)

Module HabitRun.
Import Js Habits DateFns HabitFacts.


Lemma sliceLast_length {A : Type} (n : nat) (l : list A) :
  (length (sliceLast n l) <= n)%nat.
Proof. unfold sliceLast. rewrite length_skipn. lia. Qed.

Lemma sliceLast_snoc {A : Type} (n : nat) (l : list A) (x : A) :
  (1 <= n)%nat -> sliceLast n (sliceLast n l ++ [x]) = sliceLast n (l ++ [x]).
Proof.
  intros Hn. unfold sliceLast.
  rewrite !length_app, length_skipn. simpl.
  destruct (Nat.le_gt_cases (length l) n) as [Hle | Hgt].
  - replace (length l - n)%nat with O by lia. simpl.
    now rewrite Nat.sub_0_r.
  - replace (length l - (length l - n) + 1 - n)%nat with 1%nat by lia.
    replace (length l + 1 - n)%nat with (S (length l - n)) by lia.
    rewrite !skipn_app, length_skipn.
    replace (1 - (length l - (length l - n)))%nat with O by lia.
    replace (S (length l - n) - length l)%nat with O by lia.
    simpl. f_equal.
    exact (skipn_skipn 1 (length l - n) l).
Qed.

Lemma setAt_length {A : Type} (i : nat) (v : A) (l : list A) :
  length (setAt i v l) = length l.
Proof.
  revert i. induction l as [|x l IH]; intros [|i]; simpl; auto.
Qed.

Lemma updatePreferredTimes_length (existing : list TimeSlot) (newSlot : TimeSlot) :
  (length existing <= 5)%nat ->
  (length (updatePreferredTimes existing newSlot) <= 5)%nat.
Proof.
  intros H. unfold updatePreferredTimes.
  destruct (findIndex _ existing) as [i|].
  - destruct (nth_error existing i); [now rewrite setAt_length | assumption].
  - apply sliceLast_length.
Qed.

Lemma occurrencesOf_snoc (c : EventCategory) (calls : list (Env * CalendarEvent))
  (env : Env) (event : CalendarEvent) :
  occurrencesOf c (calls ++ [(env, event)])
  = occurrencesOf c calls
    ++ (if EventCategory_eqb (categoryOf event) c then [Event.start event] else []).
Proof.
  unfold occurrencesOf. rewrite filter_app, map_app. simpl.
  now destruct (EventCategory_eqb (categoryOf event) c).
Qed.

Lemma occurrencesOf_none (c : EventCategory) (calls : list (Env * CalendarEvent)) :
  (forall call, In call calls -> categoryOf (snd call) <> c) ->
  occurrencesOf c calls = [].
Proof.
  intros H. unfold occurrencesOf.
  induction calls as [|call calls IH]; simpl; [reflexivity|].
  destruct (EventCategory_eqb (categoryOf (snd call)) c) eqn:Hc.
  - apply EventCategory_eqb_eq in Hc. exfalso. apply (H call); [now left | exact Hc].
  - apply IH. intros x Hx. apply H. now right.
Qed.

Lemma eqb_other (a b : EventCategory) : a <> b -> EventCategory_eqb a b = false.
Proof.
  intros H. apply not_true_is_false. now rewrite EventCategory_eqb_eq.
Qed.

Lemma eqb_same (a : EventCategory) : EventCategory_eqb a a = true.
Proof. now apply EventCategory_eqb_eq. Qed.

(** An update keeps the invariant. *)
Lemma runInv_update (calls : list (Env * CalendarEvent)) (db : Table)
  (env : Env) (event : CalendarEvent) (habit : HabitPattern) :
  runInv calls db ->
  getHabitByCategory db (categoryOf event) = Some habit ->
  runInv (calls ++ [(env, event)]) (table_put db (learned env event habit)).
Proof.
  intros (Hok & Hcats & Hrows & Hcalls & Hids) Hget.
  destruct (byCategory_In _ _ _ Hget) as (Hin & Hcat).
  destruct (table_put_replace db habit (learned env event habit) Hok Hin eq_refl)
    as (l1 & l2 & Hdb & Hput).
  rewrite Hput. subst db.
  assert (Hother : forall x, In x (l1 ++ l2) ->
                             HabitPattern.category x <> categoryOf event).
  { intros x Hx Heq. rewrite map_app in Hcats. simpl in Hcats.
    apply NoDup_remove_2 in Hcats. apply Hcats.
    rewrite <- map_app, Hcat, <- Heq. now apply in_map. }
  repeat split.
  - unfold tableOk in *. rewrite map_app in Hok |- *. exact Hok.
  - rewrite map_app in Hcats |- *. exact Hcats.
  - apply in_app_iff in H. destruct H as [H | [<- | H]].
    + rewrite occurrencesOf_snoc, eqb_other, app_nil_r
        by (apply not_eq_sym, Hother, in_app_iff; tauto).
      apply Hrows, in_app_iff. tauto.
    + simpl. rewrite occurrencesOf_snoc, Hcat, eqb_same.
      destruct (Hrows habit Hin) as (-> & _). rewrite Hcat.
      apply sliceLast_snoc. lia.
    + rewrite occurrencesOf_snoc, eqb_other, app_nil_r
        by (apply not_eq_sym, Hother, in_app_iff; tauto).
      apply Hrows, in_app_iff. right. now right.
  - apply in_app_iff in H. destruct H as [H | [<- | H]].
    + rewrite occurrencesOf_snoc, eqb_other, app_nil_r
        by (apply not_eq_sym, Hother, in_app_iff; tauto).
      apply Hrows, in_app_iff. tauto.
    + simpl. rewrite occurrencesOf_snoc, Hcat, eqb_same, length_app.
      destruct (Hrows habit Hin) as (_ & -> & _). rewrite Hcat. simpl. lia.
    + rewrite occurrencesOf_snoc, eqb_other, app_nil_r
        by (apply not_eq_sym, Hother, in_app_iff; tauto).
      apply Hrows, in_app_iff. right. now right.
  - apply in_app_iff in H. destruct H as [H | [<- | H]].
    + apply Hrows, in_app_iff. tauto.
    + simpl. apply updatePreferredTimes_length. now apply Hrows.
    + apply Hrows, in_app_iff. right. now right.
  - intros call Hc. rewrite map_app. simpl.
    apply in_app_iff in Hc. destruct Hc as [Hc | [<- | []]].
    + specialize (Hcalls call Hc). rewrite map_app in Hcalls. exact Hcalls.
    + simpl. apply in_app_iff. right. left. exact Hcat.
  - intros h Hh.
    assert (Hh' : exists h0, In h0 (l1 ++ habit :: l2) /\
                             HabitPattern.id h0 = HabitPattern.id h).
    { apply in_app_iff in Hh. destruct Hh as [Hh | [<- | Hh]].
      - exists h. rewrite in_app_iff. tauto.
      - exists habit. auto.
      - exists h. rewrite in_app_iff. split; [right; now right | reflexivity]. }
    destruct Hh' as (h0 & Hh0 & <-).
    destruct (Hids h0 Hh0) as (call & Hc & Heq).
    exists call. rewrite in_app_iff. tauto.
Qed.

(** A creation keeps the invariant. *)
Lemma runInv_create (calls : list (Env * CalendarEvent)) (db : Table)
  (env : Env) (event : CalendarEvent) :
  runInv calls db ->
  getHabitByCategory db (categoryOf event) = None ->
  table_get db (generatedId env) = None ->
  runInv (calls ++ [(env, event)]) (db ++ [created env event]).
Proof.
  intros (Hok & Hcats & Hrows & Hcalls & Hids) Hget Hfresh.
  apply byCategory_None in Hget. apply table_get_None in Hfresh.
  assert (Hnone : occurrencesOf (categoryOf event) calls = []).
  { apply occurrencesOf_none. intros call Hc Heq.
    apply Hget. rewrite <- Heq. now apply Hcalls. }
  assert (Hother : forall x, In x db -> HabitPattern.category x <> categoryOf event).
  { intros x Hx Heq. apply Hget. rewrite <- Heq. now apply in_map. }
  split; [|split; [|split; [|split]]].
  - unfold tableOk in *. rewrite map_app. simpl.
    apply NoDup_app; [assumption | repeat constructor; intros [] |].
    intros a Ha [<- | []]. contradiction.
  - rewrite map_app. simpl.
    apply NoDup_app; [assumption | repeat constructor; intros [] |].
    intros a Ha [<- | []]. contradiction.
  - intros h Hh. apply in_app_iff in Hh. destruct Hh as [Hh | [<- | []]].
    + rewrite occurrencesOf_snoc, eqb_other, app_nil_r
        by (apply not_eq_sym, Hother, Hh).
      now apply Hrows.
    + simpl. rewrite occurrencesOf_snoc, eqb_same, Hnone. simpl.
      repeat split; lia.
  - intros call Hc. rewrite map_app. apply in_app_iff.
    apply in_app_iff in Hc. destruct Hc as [Hc | [<- | []]].
    + left. now apply Hcalls.
    + right. now left.
  - intros h Hh. apply in_app_iff in Hh. destruct Hh as [Hh | [<- | []]].
    + destruct (Hids h Hh) as (call & Hc & Heq).
      exists call. rewrite in_app_iff. tauto.
    + exists (env, event). rewrite in_app_iff. simpl. tauto.
Qed.

Lemma runInv_empty : runInv [] [].
Proof.
  unfold runInv, tableOk. simpl.
  split; [constructor|]. split; [constructor|].
  split; [intros h []|]. split; [intros call [] | intros h []].
Qed.

(** Every call that succeeds keeps the invariant. *)
Lemma learn_step (calls : list (Env * CalendarEvent)) (db db' : Table)
  (env : Env) (event : CalendarEvent) (r : option HabitPattern) :
  runInv calls db ->
  learnFromEvent env event db = Ok (r, db') ->
  runInv (calls ++ [(env, event)]) db'.
Proof.
  intros Hinv Hlearn.
  destruct (getHabitByCategory db (categoryOf event)) as [habit|] eqn:Hget.
  - rewrite (learn_update env event db habit (proj1 Hinv) Hget) in Hlearn.
    injection Hlearn as <- <-. now apply runInv_update.
  - destruct (table_get db (generatedId env)) as [h|] eqn:Hfresh.
    + rewrite (learn_create_clash env event db h Hget Hfresh) in Hlearn.
      discriminate.
    + rewrite (learn_create env event db Hget Hfresh) in Hlearn.
      injection Hlearn as <- <-. now apply runInv_create.
Qed.

Lemma learnAll_inv (rest : list (Env * CalendarEvent)) :
  forall prefix db db',
    runInv prefix db -> learnAll rest db = Ok db' -> runInv (prefix ++ rest) db'.
Proof.
  induction rest as [|[env event] rest IH]; intros prefix db db' Hinv Hrun; simpl in Hrun.
  - injection Hrun as <-. now rewrite app_nil_r.
  - destruct (learnFromEvent env event db) as [[r db1]|] eqn:Hlearn; [|discriminate].
    replace (prefix ++ (env, event) :: rest)
      with ((prefix ++ [(env, event)]) ++ rest)
      by (rewrite <- app_assoc; reflexivity).
    eapply IH; [|exact Hrun]. eapply learn_step; eassumption.
Qed.

(** With generated ids that are all distinct, every call succeeds. *)
Lemma learnAll_distinct (rest : list (Env * CalendarEvent)) :
  forall prefix db,
    runInv prefix db ->
    NoDup (map (fun call => generatedId (fst call)) (prefix ++ rest)) ->
    exists db', learnAll rest db = Ok db'.
Proof.
  induction rest as [|[env event] rest IH]; intros prefix db Hinv Hnd; simpl.
  - eauto.
  - assert (Hstep : exists r db1, learnFromEvent env event db = Ok (r, db1)).
    { destruct (getHabitByCategory db (categoryOf event)) as [habit|] eqn:Hget.
      - rewrite (learn_update env event db habit (proj1 Hinv) Hget). eauto.
      - destruct (table_get db (generatedId env)) as [h|] eqn:Hfresh.
        + exfalso. apply table_get_In in Hfresh. destruct Hfresh as (Hh & Hid).
          destruct Hinv as (_ & _ & _ & _ & Hids).
          destruct (Hids h Hh) as (call & Hc & Heq).
          rewrite map_app in Hnd. simpl in Hnd.
          apply NoDup_remove_2 in Hnd. apply Hnd.
          apply in_app_iff. left. apply in_map_iff.
          exists call. split; [congruence | assumption].
        + rewrite (learn_create env event db Hget Hfresh). eauto. }
    destruct Hstep as (r & db1 & Hlearn). rewrite Hlearn.
    apply (IH (prefix ++ [(env, event)]) db1).
    + eapply learn_step; eassumption.
    + now rewrite <- app_assoc.
Qed.

(** Events of categories that have been learned before are learned
    without generating an id. *)
Lemma learnAll_known (rest : list (Env * CalendarEvent)) :
  forall prefix db,
    runInv prefix db ->
    (forall call, In call rest ->
       exists call', In call' prefix /\ categoryOf (snd call') = categoryOf (snd call)) ->
    exists db', learnAll rest db = Ok db'.
Proof.
  induction rest as [|[env event] rest IH]; intros prefix db Hinv Hknown; simpl.
  - eauto.
  - destruct (Hknown (env, event) (or_introl eq_refl)) as (call' & Hc' & Heq).
    simpl in Heq.
    destruct (getHabitByCategory db (categoryOf event)) as [habit|] eqn:Hget.
    + rewrite (learn_update env event db habit (proj1 Hinv) Hget).
      apply (IH (prefix ++ [(env, event)])).
      * now apply runInv_update.
      * intros call Hc. destruct (Hknown call (or_intror Hc)) as (x & Hx & Hxe).
        exists x. rewrite in_app_iff. tauto.
    + exfalso. apply byCategory_None in Hget. apply Hget.
      rewrite <- Heq. destruct Hinv as (_ & _ & _ & Hcalls & _). now apply Hcalls.
Qed.

Lemma roundDiv_spec (n d : Z) :
  0 < d -> 2 * d * roundDiv n d - d <= 2 * n < 2 * d * roundDiv n d + d.
Proof.
  intros Hd. unfold roundDiv.
  assert (H := Z.div_mod (2 * n + d) (2 * d) ltac:(lia)).
  assert (H' := Z.mod_pos_bound (2 * n + d) (2 * d) ltac:(lia)).
  lia.
Qed.

End HabitRun.

(* ===================================================================== *)
(** ** learnFromEvent: the claims *)

Module HabitClaims.
Import Js Habits DateFns HabitFacts HabitRun.

Lemma occurrencesOf_all (c : EventCategory) (calls : list (Env * CalendarEvent)) :
  (forall call, In call calls -> categoryOf (snd call) = c) ->
  length (occurrencesOf c calls) = length calls.
Proof.
  intros H. unfold occurrencesOf. rewrite length_map.
  induction calls as [|call calls IH]; simpl; [reflexivity|].
  rewrite (H call (or_introl eq_refl)), eqb_same. simpl.
  f_equal. apply IH. intros x Hx. apply H. now right.
Qed.

(** [N >= 1] events of one category, learned from an empty table, leave a
    pattern that counts [N] events. *)
Lemma learn_same_category (c : EventCategory) (calls : list (Env * CalendarEvent)) :
  calls <> [] ->
  (forall call, In call calls -> categoryOf (snd call) = c) ->
  exists db h, learnAll calls [] = Ok db /\
               getHabitByCategory db c = Some h /\
               HabitPattern.eventCount h = Z.of_nat (length calls).
Proof.
  intros Hne Hcat. destruct calls as [|[env event] rest]; [congruence|].
  assert (Hfirst : runInv [(env, event)] [created env event])
    by (apply (runInv_create [] [] env event runInv_empty); reflexivity).
  destruct (learnAll_known rest [(env, event)] [created env event] Hfirst)
    as (db & Hrun).
  { intros call Hc. exists (env, event). split; [now left|].
    transitivity c; [exact (Hcat (env, event) (or_introl eq_refl))|].
    symmetry. apply Hcat. now right. }
  assert (Hinv := learnAll_inv rest _ _ _ Hfirst Hrun).
  simpl in Hinv. destruct Hinv as (_ & _ & Hrows & Hcalls & _).
  destruct (getHabitByCategory db c) as [h|] eqn:Hget.
  - exists db, h. split; [|split; [exact Hget|]].
    + cbn [learnAll]. rewrite (learn_create env event []) by reflexivity. exact Hrun.
    + destruct (byCategory_In _ _ _ Hget) as (Hin & Hc).
      destruct (Hrows h Hin) as (_ & -> & _). rewrite Hc.
      now rewrite occurrencesOf_all.
  - exfalso. apply byCategory_None in Hget. apply Hget.
    rewrite <- (Hcat (env, event) (or_introl eq_refl)).
    apply (Hcalls (env, event)). now left.
Qed.

End HabitClaims.

(** C4.  Learning [N >= 1] events of one category from an empty table
    leaves a pattern for that category with [eventCount = N].  Each update
    of a stored pattern adds one to the count and sets the average duration
    to [round((oldAvg * oldCount + duration) / (oldCount + 1))], the
    integer nearest to the quotient, halves going up.  After two events of
    30 and 60 minutes the average is 45. *)
Theorem learnFromEvent_count_and_average :
  (forall (c : EventCategory) (calls : list (Habits.Env * CalendarEvent)),
      calls <> [] ->
      (forall call, In call calls -> Habits.categoryOf (snd call) = c) ->
      exists db h, Habits.learnAll calls [] = Habits.Ok db /\
                   Habits.getHabitByCategory db c = Some h /\
                   HabitPattern.eventCount h = Z.of_nat (length calls))
  /\ (forall (env : Habits.Env) (event : CalendarEvent) (db : Habits.Table)
             (habit : HabitPattern),
        tableOk db ->
        NoDup (map HabitPattern.category db) ->
        Habits.getHabitByCategory db (Habits.categoryOf event) = Some habit ->
        0 <= HabitPattern.eventCount habit ->
        exists habit' db',
          Habits.learnFromEvent env event db = Habits.Ok (Some habit', db') /\
          Habits.getHabitByCategory db' (Habits.categoryOf event) = Some habit' /\
          HabitPattern.eventCount habit' = HabitPattern.eventCount habit + 1 /\
          let total := HabitPattern.avgDuration habit * HabitPattern.eventCount habit
                       + DateFns.differenceInMinutes (Event.end_ event) (Event.start event) in
          let count := HabitPattern.eventCount habit + 1 in
          HabitPattern.avgDuration habit' = Js.roundDiv total count /\
          2 * count * HabitPattern.avgDuration habit' - count <= 2 * total
            < 2 * count * HabitPattern.avgDuration habit' + count)
  /\ (forall (env1 env2 : Habits.Env) (event1 event2 : CalendarEvent),
        Habits.categoryOf event1 = Habits.categoryOf event2 ->
        DateFns.differenceInMinutes (Event.end_ event1) (Event.start event1) = 30 ->
        DateFns.differenceInMinutes (Event.end_ event2) (Event.start event2) = 60 ->
        exists db h,
          Habits.learnAll [(env1, event1); (env2, event2)] [] = Habits.Ok db /\
          Habits.getHabitByCategory db (Habits.categoryOf event1) = Some h /\
          HabitPattern.eventCount h = 2 /\
          HabitPattern.avgDuration h = 45).
Proof.
  split; [|split].
  - apply HabitClaims.learn_same_category.
  - intros env event db habit Hok _ Hget Hcount.
    exists (learned env event habit),
           (Habits.table_put db (learned env event habit)).
    split; [now apply HabitFacts.learn_update|].
    split.
    { destruct (HabitFacts.byCategory_In _ _ _ Hget) as (Hin & Hcat).
      destruct (HabitFacts.table_put_replace db habit
                  (learned env event habit) Hok Hin eq_refl)
        as (l1 & l2 & Hdb & ->).
      subst db. eapply HabitFacts.byCategory_replace; eauto. }
    split; [reflexivity|]. simpl.
    split; [reflexivity|]. apply HabitRun.roundDiv_spec. lia.
  - intros env1 env2 event1 event2 Hcat H30 H60.
    set (h1 := created env1 event1).
    assert (Hget : Habits.getHabitByCategory [h1] (Habits.categoryOf event2) = Some h1).
    { unfold Habits.getHabitByCategory. simpl.
      now rewrite Hcat, HabitRun.eqb_same. }
    exists [learned env2 event2 h1], (learned env2 event2 h1).
    split; [|split; [|split]].
    + cbn [Habits.learnAll].
      rewrite (HabitFacts.learn_create env1 event1 []) by reflexivity.
      fold h1. cbn [app].
      rewrite (HabitFacts.learn_update env2 event2 [h1] h1); auto.
      * simpl. now rewrite String.eqb_refl.
      * repeat constructor. intros [].
    + unfold Habits.getHabitByCategory. simpl. now rewrite HabitRun.eqb_same.
    + reflexivity.
    + simpl. rewrite H30, H60. reflexivity.
Qed.

Lemma learnFromEvent_count_and_average_witness :
  sampleCalls <> []
  /\ (forall call, In call sampleCalls -> Habits.categoryOf (snd call) = other)
  /\ exists db h, Habits.learnAll sampleCalls [] = Habits.Ok db /\
                  Habits.getHabitByCategory db other = Some h /\
                  HabitPattern.eventCount h = Z.of_nat (length sampleCalls).
Proof.
  assert (H1 : sampleCalls <> []) by discriminate.
  assert (H2 : forall call, In call sampleCalls -> Habits.categoryOf (snd call) = other).
  { intros call Hc. simpl in Hc.
    repeat (destruct Hc as [<- | Hc]; [reflexivity|]). destruct Hc. }
  exact (conj H1 (conj H2
           (proj1 learnFromEvent_count_and_average other sampleCalls H1 H2))).
Defined.

Module HistoryFacts.
Import Js Habits DateFns HabitFacts HabitRun.

Lemma sorted_filter {A : Type} (R : A -> A -> Prop) (p : A -> bool) (l : list A) :
  StronglySorted R l -> StronglySorted R (filter p l).
Proof.
  induction 1 as [|x l Hl IH Hx]; simpl; [constructor|].
  destruct (p x); [|assumption].
  constructor; [assumption|].
  rewrite Forall_forall in *. intros y Hy. apply filter_In in Hy. now apply Hx.
Qed.

Lemma sorted_map {A B : Type} (R : A -> A -> Prop) (R' : B -> B -> Prop)
  (f : A -> B) (l : list A) :
  (forall a b, R a b -> R' (f a) (f b)) ->
  StronglySorted R l -> StronglySorted R' (map f l).
Proof.
  intros Hf. induction 1 as [|x l Hl IH Hx]; simpl; constructor; auto.
  rewrite Forall_forall in *. intros y Hy. apply in_map_iff in Hy.
  destruct Hy as (a & <- & Ha). auto.
Qed.

Lemma sorted_skipn {A : Type} (R : A -> A -> Prop) (n : nat) (l : list A) :
  StronglySorted R l -> StronglySorted R (skipn n l).
Proof.
  revert l. induction n as [|n IH]; intros l Hl; simpl; [assumption|].
  destruct l as [|x l]; [constructor|].
  apply IH. now apply StronglySorted_inv in Hl.
Qed.


Lemma occurrences_sorted (c : EventCategory) (calls : list (Env * CalendarEvent)) :
  inOrderOfStart calls -> StronglySorted Z.le (sliceLast 10 (occurrencesOf c calls)).
Proof.
  intros H. unfold sliceLast, occurrencesOf. apply sorted_skipn.
  eapply sorted_map; [|apply sorted_filter; exact H]. auto.
Qed.

End HistoryFacts.

(** C6 fails as stated: learning an event that starts on day 2 and then one
    that starts on day 1 leaves the occurrences in the order of the calls,
    the later start first. *)
Lemma lastOccurrences_call_order :
  let calls := [(Habits.mkEnv 0 "id1", Event.mk "a" 172800000 176400000 None None);
                (Habits.mkEnv 1 "id2", Event.mk "b" 86400000 90000000 None None)] in
  exists db h,
    Habits.learnAll calls [] = Habits.Ok db /\ In h db /\
    HabitPattern.lastOccurrences h = [172800000; 86400000] /\
    ~ StronglySorted Z.le (HabitPattern.lastOccurrences h).
Proof.
  simpl. eexists. eexists. split; [reflexivity|].
  split; [now left|]. split; [reflexivity|].
  simpl. intros H. apply StronglySorted_inv in H. destruct H as (_ & H).
  apply Forall_inv in H. lia.
Qed.

(** C6, amended.  After any sequence of [learnFromEvent] calls from an
    empty table (which succeeds when the generated ids are distinct), every
    pattern has at most 5 preferred times and at most 10 last occurrences;
    these are the starts of the last events of its category that were
    learned, in the order of the calls, the most recently learned last.
    They are in chronological order when the events were learned in order
    of start. *)
Theorem learnFromEvent_bounded_history (calls : list (Habits.Env * CalendarEvent)) :
  (NoDup (map (fun call => Habits.generatedId (fst call)) calls) ->
   exists db, Habits.learnAll calls [] = Habits.Ok db)
  /\ (forall db h,
        Habits.learnAll calls [] = Habits.Ok db -> In h db ->
        (length (HabitPattern.preferredTimes h) <= 5)%nat /\
        (length (HabitPattern.lastOccurrences h) <= 10)%nat /\
        HabitPattern.lastOccurrences h
          = Js.sliceLast 10 (occurrencesOf (HabitPattern.category h) calls) /\
        (inOrderOfStart calls ->
         StronglySorted Z.le (HabitPattern.lastOccurrences h))).
Proof.
  split.
  - intros Hnd. apply (HabitRun.learnAll_distinct calls [] []); [|exact Hnd].
    apply HabitRun.runInv_empty.
  - intros db h Hrun Hh.
    assert (Hinv := HabitRun.learnAll_inv calls [] [] db HabitRun.runInv_empty Hrun).
    simpl in Hinv. destruct Hinv as (_ & _ & Hrows & _).
    destruct (Hrows h Hh) as (Hocc & _ & Hpt).
    split; [assumption|]. rewrite Hocc.
    split; [apply HabitRun.sliceLast_length|].
    split; [reflexivity|]. apply HistoryFacts.occurrences_sorted.
Qed.

Lemma learnFromEvent_bounded_history_witness :
  NoDup (map (fun call => Habits.generatedId (fst call)) sampleCalls)
  /\ exists db, Habits.learnAll sampleCalls [] = Habits.Ok db.
Proof.
  assert (H1 : NoDup (map (fun call => Habits.generatedId (fst call)) sampleCalls)).
  { simpl. repeat constructor; simpl; intuition discriminate. }
  exact (conj H1 (proj1 (learnFromEvent_bounded_history sampleCalls) H1)).
Defined.

(* ===================================================================== *)
(** ** The queries on habits *)

(** C9.  [getAvgDurationForCategory] does not answer the stored average of
    every pattern: a pattern whose average duration is 0, as the one that a
    single event with [start = end] creates, is answered with the default
    60, because [habit?.avgDuration || 60] takes 0 for a missing value. *)
Lemma avgDuration_zero_is_default :
  let calls := [(Habits.mkEnv 0 "id1", Event.mk "a" 3600000 3600000 None (Some work))] in
  exists db h,
    Habits.learnAll calls [] = Habits.Ok db /\
    Habits.getHabitByCategory db work = Some h /\
    HabitPattern.avgDuration h = 0 /\
    Habits.getAvgDurationForCategory db work = 60 /\
    Habits.getAvgDurationForCategory db work <> HabitPattern.avgDuration h.
Proof.
  simpl. eexists. eexists. split; [reflexivity|].
  split; [reflexivity|]. split; [reflexivity|]. split; [reflexivity|].
  discriminate.
Qed.

(** The answers of the queries.  For a category without a pattern
    [getAvgDurationForCategory] answers 60 and [getSuggestedTimeForCategory]
    answers null; for a category with a pattern the average duration of the
    pattern is answered when it is not 0, and 60 when it is 0.
    [analyzeHabitFrequency] answers weekly for an unknown pattern and for
    one with fewer than 2 recorded occurrences. *)
Theorem habit_query_defaults (db : Habits.Table) (category : EventCategory) :
  (Habits.getHabitByCategory db category = None ->
   Habits.getAvgDurationForCategory db category = 60 /\
   forall date, Habits.getSuggestedTimeForCategory db category date = None)
  /\ (forall habit,
        Habits.getHabitByCategory db category = Some habit ->
        (HabitPattern.avgDuration habit <> 0 ->
         Habits.getAvgDurationForCategory db category = HabitPattern.avgDuration habit) /\
        (HabitPattern.avgDuration habit = 0 ->
         Habits.getAvgDurationForCategory db category = 60))
  /\ (forall habitId,
        Habits.getHabit db habitId = None ->
        Habits.analyzeHabitFrequency db habitId = weekly)
  /\ (forall habitId habit,
        Habits.getHabit db habitId = Some habit ->
        (length (HabitPattern.lastOccurrences habit) < 2)%nat ->
        Habits.analyzeHabitFrequency db habitId = weekly).
Proof.
  unfold Habits.getAvgDurationForCategory, Habits.getSuggestedTimeForCategory,
    Habits.analyzeHabitFrequency.
  split; [|split; [|split]].
  - intros ->. auto.
  - intros habit ->. split.
    + intros Hne. apply Z.eqb_neq in Hne. now rewrite Hne.
    + intros ->. reflexivity.
  - intros habitId ->. reflexivity.
  - intros habitId habit -> Hlen. apply Nat.ltb_lt in Hlen. now rewrite Hlen.
Qed.

Lemma habit_query_defaults_witness :
  Habits.getHabitByCategory sampleTable health = None
  /\ Habits.getAvgDurationForCategory sampleTable health = 60
  /\ forall date, Habits.getSuggestedTimeForCategory sampleTable health date = None.
Proof.
  assert (H1 : Habits.getHabitByCategory sampleTable health = None) by reflexivity.
  exact (conj H1 (proj1 (habit_query_defaults sampleTable health) H1)).
Defined.

(* ===================================================================== *)
(** ** Events of zero duration *)

(** C7 fails as stated: an event of zero duration that lies inside another
    event conflicts with it, two identical events of zero duration do not
    conflict, and an event of zero duration at 12:00 splits the free slot
    of the day in two. *)
Lemma zero_duration_is_seen :
  let a := Event.mk "a" 0 10 None None in
  let z := Event.mk "z" 5 5 None None in
  let z' := Event.mk "y" 5 5 None None in
  let noon := Event.mk "n" 43200000 43200000 None None in
  let hours := WorkingHours.mk "09:00" "17:00" in
  Conflicts.detectConflicts (fun _ => 0) [a; z]
    = [Conflict.mk "conflict-0-0" ["a"; "z"]%string overlap low]
  /\ Conflicts.detectConflicts (fun _ => 0) [z; z'] = []
  /\ Suggestions.findFreeSlots [] 0 0 hours 30
     = [FreeSlot.mk 32400000 61200000 480]
  /\ Suggestions.findFreeSlots [noon] 0 0 hours 30
     = [FreeSlot.mk 32400000 43200000 180; FreeSlot.mk 43200000 61200000 300].
Proof. repeat split; reflexivity. Qed.

(** C7, amended.  An event of zero duration at the instant [t] overlaps a
    well-formed event exactly when [t] is strictly inside it, and
    [detectConflicts] puts the two in a conflict exactly then; so two
    events of zero duration never conflict, identical or not.  In
    [findFreeSlots] an event of zero duration at [t] inside the working
    window ends the gap before it at [t] and moves the cursor to [t] when
    the cursor was before: a day with this event only has the gap from the
    start of the window to [t] and the gap from [t] to its end, each kept
    when it is long enough. *)
Theorem zero_duration_events :
  (forall z x : CalendarEvent,
      Event.start z = Event.end_ z -> wellFormed x ->
      (Conflicts.overlapping z x = true
       <-> Event.start x < Event.start z < Event.end_ x))
  /\ (forall (clock : nat -> Z) (z x : CalendarEvent),
        Event.start z = Event.end_ z -> wellFormed x ->
        ((exists c, In c (Conflicts.detectConflicts clock [z; x]) /\
                    In (Event.id z) (Conflict.events c) /\
                    In (Event.id x) (Conflict.events c))
         <-> (Event.isAllDay z = false /\ Event.isAllDay x = false /\
              Event.start x < Event.start z < Event.end_ x)))
  /\ (forall (clock : nat -> Z) (z x : CalendarEvent),
        Event.start z = Event.end_ z -> Event.start x = Event.end_ x ->
        Conflicts.detectConflicts clock [z; x] = [])
  /\ (forall (dayStart dayEnd minDuration cursor : Z) (acc : list FreeSlot)
             (z : CalendarEvent),
        Event.start z = Event.end_ z ->
        dayStart <= Event.start z <= dayEnd ->
        Suggestions.scanEvent dayStart dayEnd minDuration (cursor, acc) z
        = (Z.max cursor (Event.start z),
           Suggestions.pushGap minDuration acc cursor (Event.start z)))
  /\ (forall (z : CalendarEvent) (startDate endDate : DateFns.Date)
             (workingHours : WorkingHours.t)
             (startHour startMin endHour endMin minDuration : Z),
        Suggestions.hourAndMinute (WorkingHours.start workingHours)
          = (Some startHour, Some startMin) ->
        Suggestions.hourAndMinute (WorkingHours.end_ workingHours)
          = (Some endHour, Some endMin) ->
        DateFns.startOfDay startDate = DateFns.startOfDay endDate ->
        Event.isAllDay z = false ->
        Event.start z = Event.end_ z ->
        FreeSlotSpec.at_ (DateFns.startOfDay startDate) startHour startMin
          <= Event.start z
          <= FreeSlotSpec.at_ (DateFns.startOfDay startDate) endHour endMin ->
        Suggestions.findFreeSlots [z] startDate endDate workingHours minDuration
        = FreeSlotSpec.gap minDuration
            (FreeSlotSpec.at_ (DateFns.startOfDay startDate) startHour startMin)
            (Event.start z)
          ++ FreeSlotSpec.gap minDuration (Event.start z)
               (FreeSlotSpec.at_ (DateFns.startOfDay startDate) endHour endMin)).
Proof.
  assert (Hov : forall z x : CalendarEvent,
             Event.start z = Event.end_ z -> wellFormed x ->
             (Conflicts.overlapping z x = true
              <-> Event.start x < Event.start z < Event.end_ x)).
  { intros z x Hz Hx.
    rewrite overlapping_strictOverlap by (unfold wellFormed in *; lia).
    unfold strictOverlap. rewrite <- Hz. tauto. }
  split; [exact Hov|]. split; [|split; [|split]].
  - intros clock z x Hz Hx. split.
    + intros (c & Hc & _).
      destruct (Event.isAllDay z) eqn:HallZ;
        [rewrite PairFacts.pair_none in Hc by (rewrite ?HallZ; tauto); destruct Hc|].
      destruct (Event.isAllDay x) eqn:HallX;
        [rewrite PairFacts.pair_none in Hc by (rewrite ?HallX; tauto); destruct Hc|].
      destruct (Conflicts.overlapping z x) eqn:Hzx;
        [|rewrite PairFacts.pair_none in Hc by tauto; destruct Hc].
      split; [reflexivity | split; [reflexivity|]]. now apply Hov.
    + intros (HallZ & HallX & Hin).
      apply PairFacts.pair_some; auto. now apply Hov.
  - intros clock z x Hz Hx. apply PairFacts.pair_none. right. right.
    apply not_true_is_false. rewrite Hov by (unfold wellFormed; lia). lia.
  - intros dayStart dayEnd minDuration cursor acc z Hz Hin.
    unfold Suggestions.scanEvent, DateFns.isBefore, DateFns.isAfter, DateFns.getTime.
    rewrite <- Hz.
    replace (Event.start z <? dayStart) with false by (symmetry; apply Z.ltb_ge; lia).
    replace (dayEnd <? Event.start z) with false by (symmetry; apply Z.ltb_ge; lia).
    f_equal. destruct (Z.ltb_spec cursor (Event.start z)); lia.
  - intros z startDate endDate workingHours startHour startMin endHour endMin
           minDuration Hs He Hday Hall Hz Hin.
    rewrite (FreeSlotClaims.findFreeSlots_freeSlots [z] startDate endDate
               workingHours startHour startMin endHour endMin minDuration);
      try assumption.
    + unfold FreeSlotSpec.freeSlots.
      rewrite FreeSlotClaims.days_single by assumption. simpl.
      rewrite app_nil_r. unfold FreeSlotSpec.daySlots. simpl.
      unfold FreeSlotSpec.relevant. rewrite Hall, <- Hz. simpl.
      replace (Event.start z <=? _) with true by (symmetry; apply Z.leb_le; lia).
      replace (_ <=? Event.start z) with true by (symmetry; apply Z.leb_le; lia).
      simpl. unfold FreeSlotSpec.clamp. rewrite <- Hz.
      f_equal; f_equal; lia.
    + unfold FreeSlotSpec.at_ in *. lia.
    + intros e [<- | []] _. unfold wellFormed. lia.
Qed.

Lemma zero_duration_events_witness :
  Event.start (meeting "z" 5 5) = Event.end_ (meeting "z" 5 5)
  /\ wellFormed (meeting "a" 0 10)
  /\ (Conflicts.overlapping (meeting "z" 5 5) (meeting "a" 0 10) = true
      <-> Event.start (meeting "a" 0 10) < Event.start (meeting "z" 5 5)
          < Event.end_ (meeting "a" 0 10)).
Proof.
  assert (H1 : Event.start (meeting "z" 5 5) = Event.end_ (meeting "z" 5 5))
    by reflexivity.
  assert (H2 : wellFormed (meeting "a" 0 10)) by (unfold wellFormed; simpl; lia).
  exact (conj H1 (conj H2 (proj1 zero_duration_events _ _ H1 H2))).
Defined.

(* ===================================================================== *)
(** ** The scenarios of the specification *)

(** Three events that overlap in a chain are one conflict of severity
    medium; the separate event and the all-day event are in none. *)
Example scenario_chain :
  Conflicts.detectConflicts sampleClock sampleEvents
  = [Conflict.mk "conflict-0-0" ["a"; "b"; "c"]%string overbooking medium].
Proof. reflexivity. Qed.

(** 09:00-10:30 and 10:00-11:00 overlap: one conflict, low, overlap. *)
Example scenario_overlap :
  Conflicts.detectConflicts sampleClock
    [meeting "x" (9 * 3600000) (10 * 3600000 + 1800000);
     meeting "y" (10 * 3600000) (11 * 3600000)]
  = [Conflict.mk "conflict-0-0" ["x"; "y"]%string overlap low].
Proof. reflexivity. Qed.

(** 09:00-10:00 and 10:00-11:00 touch: no conflict, and with working hours
    09:00-18:00 the day has the one free slot 11:00-18:00 of 420 minutes. *)
Example scenario_touching :
  Conflicts.detectConflicts sampleClock
    [meeting "x" (9 * 3600000) (10 * 3600000);
     meeting "y" (10 * 3600000) (11 * 3600000)] = []
  /\ Suggestions.findFreeSlots
       [meeting "x" (9 * 3600000) (10 * 3600000);
        meeting "y" (10 * 3600000) (11 * 3600000)]
       0 0 (WorkingHours.mk "09:00" "18:00") 30
     = [FreeSlot.mk (11 * 3600000) (18 * 3600000) 420].
Proof. split; reflexivity. Qed.

(** Four events that overlap pairwise are one conflict of severity high. *)
Example scenario_four :
  map Conflict.severity
      (Conflicts.detectConflicts sampleClock
         [meeting "p" 0 10; meeting "q" 1 11; meeting "r" 2 12; meeting "s" 3 13])
  = [high].
Proof. reflexivity. Qed.

(* ===================================================================== *)
(** ** More about hasConflict and detectConflicts *)

Module ConflictMore.
Import Js Conflicts JsFacts MapFacts GroupFacts DetectFacts.

(** [hasConflict] finds an existing event that is not all-day and that the
    date library reports as overlapping the candidate. *)
Lemma hasConflict_exists (newEvent : DateFns.Interval) (l : list CalendarEvent) :
  hasConflict newEvent l = true <->
  exists e, In e l /\ Event.isAllDay e = false /\
            DateFns.areIntervalsOverlapping newEvent (Event.interval e) = true.
Proof.
  induction l as [|x l IH]; simpl.
  - split; [discriminate | intros (e & [] & _)].
  - destruct (Event.isAllDay x) eqn:Hall.
    + rewrite IH. split; intros (e & Hin & Hrest).
      * exists e. tauto.
      * destruct Hin as [<- | Hin]; [|exists e; tauto].
        destruct Hrest as (Hf & _). congruence.
    + destruct (DateFns.areIntervalsOverlapping newEvent (Event.interval x)) eqn:Hov.
      * split; [intros _ | reflexivity]. exists x. tauto.
      * rewrite IH. split; intros (e & Hin & Hrest).
        -- exists e. tauto.
        -- destruct Hin as [<- | Hin]; [|exists e; tauto].
           destruct Hrest as (_ & Hf). congruence.
Qed.

Lemma hasConflict_app (newEvent : DateFns.Interval) (l1 l2 : list CalendarEvent) :
  hasConflict newEvent (l1 ++ l2) = hasConflict newEvent l1 || hasConflict newEvent l2.
Proof.
  induction l1 as [|x l1 IH]; simpl; [reflexivity|].
  destruct (Event.isAllDay x); [exact IH|].
  destruct (DateFns.areIntervalsOverlapping newEvent (Event.interval x));
    [reflexivity | exact IH].
Qed.

Lemma hasConflict_timed (newEvent : DateFns.Interval) (l : list CalendarEvent) :
  hasConflict newEvent l = hasConflict newEvent (timed l).
Proof.
  unfold timed. induction l as [|x l IH]; simpl; [reflexivity|].
  destruct (Event.isAllDay x) eqn:Hall; simpl; [exact IH|].
  rewrite Hall, IH. reflexivity.
Qed.

Lemma bool_eq_iff (a b : bool) : (a = true <-> b = true) -> a = b.
Proof. destruct a, b; intuition congruence. Qed.

Lemma hasConflict_perm (newEvent : DateFns.Interval) (l l' : list CalendarEvent) :
  Permutation l l' -> hasConflict newEvent l = hasConflict newEvent l'.
Proof.
  intros Hp. apply bool_eq_iff. rewrite !hasConflict_exists.
  split; intros (e & Hin & Hrest); exists e; split; auto.
  - eapply Permutation_in; eassumption.
  - eapply Permutation_in; [symmetry|]; eassumption.
Qed.

(** The conflicts are disjoint. *)
Lemma detectConflicts_disjoint (clock : nat -> Z) (events : list CalendarEvent)
  (i j : nat) (ci cj : Conflict) (v : string) :
  nth_error (detectConflicts clock events) i = Some ci ->
  nth_error (detectConflicts clock events) j = Some cj ->
  In v (Conflict.events ci) -> In v (Conflict.events cj) -> i = j.
Proof.
  unfold detectConflicts.
  destruct (groupConflicts_inv clock _ (edge_sym (sortedEvents events)))
    as (_ & _ & J3 & _).
  apply J3.
Qed.

End ConflictMore.

(** X1.  [hasConflict] does not depend on the all-day events nor on the
    order of the existing events, and over two lists put together it is
    the disjunction of the two answers. *)
Theorem hasConflict_order_free (newEvent : DateFns.Interval) :
  (forall l1 l2, Conflicts.hasConflict newEvent (l1 ++ l2)
                 = Conflicts.hasConflict newEvent l1 || Conflicts.hasConflict newEvent l2)
  /\ (forall l, Conflicts.hasConflict newEvent l = Conflicts.hasConflict newEvent (timed l))
  /\ (forall l l', Permutation l l' ->
                   Conflicts.hasConflict newEvent l = Conflicts.hasConflict newEvent l').
Proof.
  split; [|split].
  - apply ConflictMore.hasConflict_app.
  - apply ConflictMore.hasConflict_timed.
  - apply ConflictMore.hasConflict_perm.
Qed.

Lemma hasConflict_order_free_witness :
  Permutation sampleEvents (rev sampleEvents)
  /\ Conflicts.hasConflict (DateFns.mkInterval 0 1) sampleEvents
     = Conflicts.hasConflict (DateFns.mkInterval 0 1) (rev sampleEvents).
Proof.
  assert (H : Permutation sampleEvents (rev sampleEvents)) by apply Permutation_rev.
  exact (conj H (proj2 (proj2 (hasConflict_order_free (DateFns.mkInterval 0 1))) _ _ H)).
Defined.

(** X2.  For events with distinct ids and well-formed intervals, a new
    event that is not all-day is in a conflict of [detectConflicts] after it
    is added exactly when [hasConflict] flags it against the events that
    were there. *)
Theorem hasConflict_predicts_conflict (clock : nat -> Z)
  (events : list CalendarEvent) (newEvent : CalendarEvent) :
  NoDup (ids (newEvent :: events)) ->
  (forall e, In e (timed (newEvent :: events)) -> wellFormed e) ->
  Event.isAllDay newEvent = false ->
  (Conflicts.hasConflict (Event.interval newEvent) events = true
   <-> exists c, In c (Conflicts.detectConflicts clock (newEvent :: events)) /\
                 In (Event.id newEvent) (Conflict.events c)).
Proof.
  intros Hnd Hwf Hall.
  assert (HN : In newEvent (timed (newEvent :: events))).
  { unfold timed. simpl. rewrite Hall. now left. }
  rewrite ConflictMore.hasConflict_exists. split.
  - intros (e & He & Hte & Hov).
    assert (HE : In e (timed (newEvent :: events))).
    { unfold timed. apply filter_In. split; [now right | now rewrite Hte]. }
    assert (Hne : e <> newEvent).
    { intros ->. unfold ids in Hnd. simpl in Hnd. apply NoDup_cons_iff in Hnd.
      apply (proj1 Hnd). now apply in_map. }
    destruct (DetectFacts.overlapping_event_grouped (newEvent :: events) Hnd Hwf
                clock newEvent e HN HE Hne) as (i & c & Hi & Hin & _).
    + apply overlapping_strictOverlap; auto.
    + exists c. split; [eapply nth_error_In; eassumption | assumption].
  - intros (c & Hc & Hin). unfold Conflicts.detectConflicts in Hc.
    apply (GroupFacts.groupConflicts_members clock _ (DetectFacts.edge_sym _) c _ Hc) in Hin.
    apply DetectFacts.key_has_edge in Hin. destruct Hin as (y & Hy).
    apply (DetectFacts.edge_events (newEvent :: events) Hnd Hwf) in Hy.
    destruct Hy as (A & B & HA & HB & Hne & Hov & Heq & _).
    apply (DetectFacts.id_injective (newEvent :: events) Hnd) in Heq; auto.
    subst A. exists B.
    unfold timed in HB. apply filter_In in HB. destruct HB as (HB & HtB).
    destruct HB as [-> | HB]; [congruence|].
    split; [assumption|]. split; [now apply negb_true_iff in HtB|].
    apply overlapping_strictOverlap; auto.
    apply Hwf. unfold timed. apply filter_In. split; [now right | assumption].
Qed.

Lemma hasConflict_predicts_conflict_witness :
  NoDup (ids (meeting "n" (10 * 3600000) (11 * 3600000) :: sampleEvents))
  /\ (forall e, In e (timed (meeting "n" (10 * 3600000) (11 * 3600000) :: sampleEvents)) ->
                wellFormed e)
  /\ Event.isAllDay (meeting "n" (10 * 3600000) (11 * 3600000)) = false
  /\ (Conflicts.hasConflict (Event.interval (meeting "n" (10 * 3600000) (11 * 3600000)))
        sampleEvents = true
      <-> exists c,
            In c (Conflicts.detectConflicts sampleClock
                    (meeting "n" (10 * 3600000) (11 * 3600000) :: sampleEvents)) /\
            In (Event.id (meeting "n" (10 * 3600000) (11 * 3600000))) (Conflict.events c)).
Proof.
  assert (H1 : NoDup (ids (meeting "n" (10 * 3600000) (11 * 3600000) :: sampleEvents))).
  { unfold ids. simpl. repeat constructor; simpl; intuition discriminate. }
  assert (H2 : forall e, In e (timed (meeting "n" (10 * 3600000) (11 * 3600000)
                                        :: sampleEvents)) -> wellFormed e).
  { intros e He. simpl in He.
    repeat (destruct He as [<- | He]; [unfold wellFormed; simpl; lia|]).
    destruct He. }
  assert (H3 : Event.isAllDay (meeting "n" (10 * 3600000) (11 * 3600000)) = false)
    by reflexivity.
  exact (conj H1 (conj H2 (conj H3
           (hasConflict_predicts_conflict sampleClock sampleEvents _ H1 H2 H3)))).
Defined.

(** X3.  For events with distinct ids and well-formed intervals,
    [detectConflicts] returns no conflict exactly when no two events that
    are not all-day strictly overlap. *)
Theorem detectConflicts_empty_iff (clock : nat -> Z) (events : list CalendarEvent) :
  NoDup (ids events) ->
  (forall e, In e (timed events) -> wellFormed e) ->
  (Conflicts.detectConflicts clock events = []
   <-> forall x y, In x (timed events) -> In y (timed events) -> y <> x ->
                   ~ strictOverlap x y).
Proof.
  intros Hnd Hwf. split.
  - intros Hnil x y Hx Hy Hne Hov.
    destruct (DetectFacts.overlapping_event_grouped events Hnd Hwf clock x y
                Hx Hy Hne Hov) as (i & c & Hi & _).
    rewrite Hnil in Hi. destruct i; discriminate.
  - intros Hfree.
    destruct (Conflicts.detectConflicts clock events) as [|c cs] eqn:Hcs;
      [reflexivity | exfalso].
    assert (Hc : In c (Conflicts.detectConflicts clock events))
      by (rewrite Hcs; now left).
    destruct (DetectFacts.conflict_component events Hnd Hwf clock c Hc)
      as (_ & Hlen & Hmem & _).
    destruct (Conflict.events c) as [|i l] eqn:Hev; [simpl in Hlen; lia|].
    destruct (Hmem i (or_introl eq_refl)) as (X & HX & Heq).
    apply (DetectFacts.isolated_event_free events Hnd Hwf clock X c HX
             (fun y Hy Hne => Hfree X y HX Hy Hne) Hc).
    rewrite Hev, Heq. now left.
Qed.

Lemma detectConflicts_empty_iff_witness :
  NoDup (ids [meeting "x" 0 10; meeting "y" 10 20])
  /\ (forall e, In e (timed [meeting "x" 0 10; meeting "y" 10 20]) -> wellFormed e)
  /\ (Conflicts.detectConflicts sampleClock [meeting "x" 0 10; meeting "y" 10 20] = []
      <-> forall x y, In x (timed [meeting "x" 0 10; meeting "y" 10 20]) ->
                      In y (timed [meeting "x" 0 10; meeting "y" 10 20]) ->
                      y <> x -> ~ strictOverlap x y).
Proof.
  assert (H1 : NoDup (ids [meeting "x" 0 10; meeting "y" 10 20])).
  { unfold ids. simpl. repeat constructor; simpl; intuition discriminate. }
  assert (H2 : forall e, In e (timed [meeting "x" 0 10; meeting "y" 10 20]) ->
                         wellFormed e).
  { intros e He. simpl in He.
    repeat (destruct He as [<- | He]; [unfold wellFormed; simpl; lia|]).
    destruct He. }
  exact (conj H1 (conj H2 (detectConflicts_empty_iff sampleClock _ H1 H2))).
Defined.

Module GroupMore.
Import Js Conflicts JsFacts.

Lemma nth_error_last {A : Type} (l : list A) (x y : A) (i : nat) :
  nth_error (l ++ [x]) i = Some y ->
  nth_error l i = Some y \/ (i = length l /\ y = x).
Proof.
  intros H. destruct (Nat.lt_ge_cases i (length l)) as [Hlt | Hge].
  - left. now rewrite nth_error_app1 in H.
  - right. rewrite nth_error_app2 in H by assumption.
    destruct (i - length l)%nat as [|n] eqn:Hn; simpl in H.
    + injection H as <-. split; [lia | reflexivity].
    + destruct n; discriminate.
Qed.

(** The two cases of one round of the loop over the entries. *)
Lemma groupEntry_cases (clock : nat -> Z) (m : StringMap) (processed : StringSet)
  (cs : list Conflict) (entry : string * StringSet) :
  groupEntry clock m (processed, cs) entry
  = if set_has processed (fst entry) then (processed, cs)
    else
      let all := fst (traverse (rounds m) m [fst entry] [fst entry]) in
      (fold_left set_add all processed,
       cs ++ [Conflict.mk (conflictId (clock (length cs)) (length cs)) all
                          (typeOf (Z.of_nat (length all)))
                          (severityOf (Z.of_nat (length all)))]).
Proof. reflexivity. Qed.

(** The processed ids and the shapes of the conflicts do not depend on
    the clock. *)
Lemma fold_groupEntry_clock (clock1 clock2 : nat -> Z) (m : StringMap)
  (entries : list (string * StringSet)) :
  forall processed cs1 cs2,
    map shape cs1 = map shape cs2 ->
    fst (fold_left (groupEntry clock1 m) entries (processed, cs1))
    = fst (fold_left (groupEntry clock2 m) entries (processed, cs2))
    /\ map shape (snd (fold_left (groupEntry clock1 m) entries (processed, cs1)))
       = map shape (snd (fold_left (groupEntry clock2 m) entries (processed, cs2))).
Proof.
  induction entries as [|entry entries IH]; intros processed cs1 cs2 Heq.
  - simpl. auto.
  - cbn [fold_left]. rewrite !groupEntry_cases.
    destruct (set_has processed (fst entry)); [now apply IH|].
    cbv zeta. apply IH. rewrite !map_app, Heq. reflexivity.
Qed.

(** The conflict of index [k] has the id made of [clock k] and [k]. *)
Lemma fold_groupEntry_ids (clock : nat -> Z) (m : StringMap)
  (entries : list (string * StringSet)) :
  forall processed cs,
    (forall k c, nth_error cs k = Some c ->
                 Conflict.id c = conflictId (clock k) k) ->
    forall k c,
      nth_error (snd (fold_left (groupEntry clock m) entries (processed, cs))) k = Some c ->
      Conflict.id c = conflictId (clock k) k.
Proof.
  induction entries as [|entry entries IH]; intros processed cs Hcs.
  - simpl. exact Hcs.
  - cbn [fold_left]. rewrite groupEntry_cases.
    destruct (set_has processed (fst entry)); [now apply IH|].
    cbv zeta. apply IH. intros k c Hk.
    apply nth_error_last in Hk.
    destruct Hk as [Hk | (-> & ->)]; [now apply Hcs | reflexivity].
Qed.

Lemma concat_NoDup {A : Type} (L : list (list A)) :
  (forall l, In l L -> NoDup l) ->
  (forall i j li lj v, nth_error L i = Some li -> nth_error L j = Some lj ->
                       In v li -> In v lj -> i = j) ->
  NoDup (concat L).
Proof.
  induction L as [|l L IH]; intros Hnd Hdis; simpl; [constructor|].
  apply NoDup_app.
  - apply Hnd. now left.
  - apply IH; [intros x Hx; apply Hnd; now right|].
    intros i j li lj v Hi Hj Hvi Hvj.
    assert (H := Hdis (S i) (S j) li lj v Hi Hj Hvi Hvj). lia.
  - intros v Hv Hv'. apply in_concat in Hv'. destruct Hv' as (lj & Hlj & Hvj).
    apply In_nth_error in Hlj. destruct Hlj as (j & Hj).
    assert (H := Hdis O (S j) l lj v eq_refl Hj Hv Hvj). discriminate.
Qed.

Lemma concat_length_two {A : Type} (L : list (list A)) :
  (forall l, In l L -> (2 <= length l)%nat) ->
  (2 * length L <= length (concat L))%nat.
Proof.
  induction L as [|l L IH]; intros H; simpl; [lia|].
  rewrite length_app.
  assert (H1 := H l (or_introl eq_refl)).
  assert (H2 := IH (fun x Hx => H x (or_intror Hx))). lia.
Qed.

End GroupMore.

(** X4.  Two runs of [detectConflicts] on the same events differ at most in
    the time stamps of the conflict ids: members, type and severity of the
    conflicts are the same, in the same order, and the conflict of index
    [k] has the id [conflict-<now>-<k>]. *)
Theorem detectConflicts_rerun (clock1 clock2 : nat -> Z) (events : list CalendarEvent) :
  map shape (Conflicts.detectConflicts clock1 events)
  = map shape (Conflicts.detectConflicts clock2 events)
  /\ (forall k c, nth_error (Conflicts.detectConflicts clock1 events) k = Some c ->
                  Conflict.id c = Conflicts.conflictId (clock1 k) k).
Proof.
  unfold Conflicts.detectConflicts, Conflicts.groupConflicts. split.
  - apply GroupMore.fold_groupEntry_clock. reflexivity.
  - apply GroupMore.fold_groupEntry_ids. intros k c Hk. destruct k; discriminate.
Qed.

(** X5.  For events with distinct ids and well-formed intervals there are
    at most half as many conflicts as events that are not all-day, and no
    id is in two conflicts. *)
Theorem detectConflicts_count (clock : nat -> Z) (events : list CalendarEvent) :
  NoDup (ids events) ->
  (forall e, In e (timed events) -> wellFormed e) ->
  (2 * length (Conflicts.detectConflicts clock events) <= length (timed events))%nat
  /\ NoDup (concat (map Conflict.events (Conflicts.detectConflicts clock events))).
Proof.
  intros Hnd Hwf.
  set (cs := Conflicts.detectConflicts clock events).
  assert (Hall : NoDup (concat (map Conflict.events cs))).
  { apply GroupMore.concat_NoDup.
    - intros l Hl. apply in_map_iff in Hl. destruct Hl as (c & <- & Hc).
      apply (DetectFacts.conflict_component events Hnd Hwf clock c Hc).
    - intros i j li lj v Hi Hj Hvi Hvj.
      rewrite nth_error_map in Hi, Hj.
      match type of Hi with
      | option_map _ ?o = _ => destruct o as [ci|] eqn:Hci; [|discriminate]
      end.
      match type of Hj with
      | option_map _ ?o = _ => destruct o as [cj|] eqn:Hcj; [|discriminate]
      end.
      simpl in Hi, Hj. injection Hi as <-. injection Hj as <-.
      eapply ConflictMore.detectConflicts_disjoint; eassumption. }
  split; [|exact Hall].
  assert (Hlen : (2 * length (map Conflict.events cs)
                  <= length (concat (map Conflict.events cs)))%nat).
  { apply GroupMore.concat_length_two. intros l Hl.
    apply in_map_iff in Hl. destruct Hl as (c & <- & Hc).
    apply (DetectFacts.conflict_component events Hnd Hwf clock c Hc). }
  rewrite length_map in Hlen.
  assert (Hincl : incl (concat (map Conflict.events cs)) (ids (timed events))).
  { intros v Hv. apply in_concat in Hv. destruct Hv as (l & Hl & Hv).
    apply in_map_iff in Hl. destruct Hl as (c & <- & Hc).
    destruct (DetectFacts.member_timed clock events c v Hc Hv) as (X & HX & <-).
    unfold ids. now apply in_map. }
  assert (Hle := NoDup_incl_length Hall Hincl).
  assert (Hids : length (ids (timed events)) = length (timed events))
    by apply length_map.
  rewrite Hids in Hle. exact (Nat.le_trans _ _ _ Hlen Hle).
Qed.

Lemma detectConflicts_count_witness :
  NoDup (ids sampleEvents)
  /\ (forall e, In e (timed sampleEvents) -> wellFormed e)
  /\ (2 * length (Conflicts.detectConflicts sampleClock sampleEvents)
      <= length (timed sampleEvents))%nat.
Proof.
  assert (Hnd : NoDup (ids sampleEvents)).
  { unfold ids. simpl. repeat constructor; simpl; intuition discriminate. }
  assert (Hwf : forall e, In e (timed sampleEvents) -> wellFormed e).
  { intros e He. simpl in He.
    repeat (destruct He as [<- | He]; [unfold wellFormed; simpl; lia|]).
    destruct He. }
  exact (conj Hnd (conj Hwf
           (proj1 (detectConflicts_count sampleClock sampleEvents Hnd Hwf)))).
Defined.

(* ===================================================================== *)
(** ** Back-to-back events *)

Module BackToBackFacts.
Import BackToBack.

(** One round of the loop. *)
Lemma scanAdjacent_step (bufferMinutes : Z) (current next : CalendarEvent)
  (rest : list CalendarEvent) (acc : list t) :
  scanAdjacent bufferMinutes (current :: next :: rest) acc
  = scanAdjacent bufferMinutes (next :: rest)
      (if (DateFns.differenceInMinutes (Event.start next) (Event.end_ current) >=? 0)
          && (DateFns.differenceInMinutes (Event.start next) (Event.end_ current)
              <? bufferMinutes)
       then acc ++ [mk (Event.id current) (Event.id next)
                       (DateFns.differenceInMinutes (Event.start next)
                                                    (Event.end_ current))]
       else acc).
Proof. reflexivity. Qed.

Lemma scanAdjacent_acc (bufferMinutes : Z) (l : list CalendarEvent) :
  forall acc,
    scanAdjacent bufferMinutes l acc = acc ++ scanAdjacent bufferMinutes l [].
Proof.
  induction l as [|current l IH]; intros acc; [simpl; now rewrite app_nil_r|].
  destruct l as [|next rest]; [simpl; now rewrite app_nil_r|].
  rewrite !scanAdjacent_step, IH. symmetry. rewrite IH.
  match goal with
  | |- context [if ?c then _ else _] => destruct c
  end; simpl; [now rewrite <- app_assoc | reflexivity].
Qed.

Lemma scanAdjacent_cons (bufferMinutes : Z) (current next : CalendarEvent)
  (rest : list CalendarEvent) :
  scanAdjacent bufferMinutes (current :: next :: rest) []
  = (if (DateFns.differenceInMinutes (Event.start next) (Event.end_ current) >=? 0)
        && (DateFns.differenceInMinutes (Event.start next) (Event.end_ current)
            <? bufferMinutes)
     then [mk (Event.id current) (Event.id next)
              (DateFns.differenceInMinutes (Event.start next) (Event.end_ current))]
     else [])
    ++ scanAdjacent bufferMinutes (next :: rest) [].
Proof.
  rewrite scanAdjacent_step, scanAdjacent_acc.
  match goal with
  | |- context [if ?c then _ else _] => destruct c
  end; reflexivity.
Qed.

(** The entries are those of the neighbours whose gap is in the range. *)
Lemma scanAdjacent_In (bufferMinutes : Z) (l : list CalendarEvent) (r : t) :
  In r (scanAdjacent bufferMinutes l []) <->
  exists l1 current next l2,
    l = l1 ++ current :: next :: l2 /\
    r = mk (Event.id current) (Event.id next)
           (DateFns.differenceInMinutes (Event.start next) (Event.end_ current)) /\
    0 <= DateFns.differenceInMinutes (Event.start next) (Event.end_ current)
      < bufferMinutes.
Proof.
  induction l as [|current l IH].
  - simpl. split; [intros [] | intros (l1 & c & n & l2 & H & _)].
    destruct l1; discriminate.
  - destruct l as [|next rest].
    + simpl. split; [intros [] | intros (l1 & c & n & l2 & H & _)].
      destruct l1 as [|x [|y l1]]; discriminate.
    + rewrite scanAdjacent_cons, in_app_iff, IH. split.
      * intros [Hhead | (l1 & c & n & l2 & Heq & Hr & Hrange)].
        -- destruct (_ && _) eqn:Hc in Hhead; [|destruct Hhead].
           destruct Hhead as [<- | []].
           apply andb_true_iff in Hc. rewrite Z.geb_le, Z.ltb_lt in Hc.
           exists [], current, next, rest. auto.
        -- exists (current :: l1), c, n, l2. rewrite Heq. auto.
      * intros (l1 & c & n & l2 & Heq & Hr & Hrange).
        destruct l1 as [|x l1].
        -- injection Heq as <- <- <-. left.
           replace (_ && _) with true; [now left|].
           symmetry. apply andb_true_iff. rewrite Z.geb_le, Z.ltb_lt. exact Hrange.
        -- injection Heq as <- Heq. right. exists l1, c, n, l2. auto.
Qed.

Lemma scanAdjacent_length (bufferMinutes : Z) (l : list CalendarEvent) :
  (length (scanAdjacent bufferMinutes l []) <= length l - 1)%nat.
Proof.
  induction l as [|current l IH]; [simpl; lia|].
  destruct l as [|next rest]; [simpl; lia|].
  rewrite scanAdjacent_cons, length_app.
  match goal with
  | |- context [if ?c then _ else _] => destruct c
  end; simpl in *; lia.
Qed.

(** The difference in whole minutes is between 0 and [b - 1] exactly for
    the differences from -59999 ms to [b] minutes less 1 ms. *)
Lemma minutes_range (x b : Z) :
  0 <= Z.quot x 60000 < b <-> 0 < b /\ - 60000 < x < b * 60000.
Proof.
  assert (H := Z.quot_rem' x 60000).
  assert (Hr := Z.rem_bound_abs x 60000 ltac:(lia)).
  destruct (Z.le_gt_cases 0 x) as [Hx | Hx].
  - assert (Hs := Z.rem_nonneg x 60000 ltac:(lia) Hx). lia.
  - assert (Hs := Z.rem_nonpos x 60000 ltac:(lia) ltac:(lia)). lia.
Qed.

Lemma sorted_split {A : Type} (R : A -> A -> Prop) (l1 l2 : list A) (x : A) :
  StronglySorted R (l1 ++ x :: l2) ->
  (forall y, In y l1 -> R y x) /\ (forall y, In y l2 -> R x y).
Proof.
  induction l1 as [|a l1 IH]; simpl; intros Hs.
  - apply StronglySorted_inv in Hs. destruct Hs as (_ & Hall).
    rewrite Forall_forall in Hall. split; [intros y [] | exact Hall].
  - apply StronglySorted_inv in Hs. destruct Hs as (Hs & Hall).
    rewrite Forall_forall in Hall. destruct (IH Hs) as (H1 & H2).
    split; [|exact H2]. intros y [<- | Hy]; [apply Hall, in_elt | now apply H1].
Qed.

Lemma sortedEvents_sorted (events : list CalendarEvent) :
  StronglySorted (ascending Event.start) (Conflicts.sortedEvents events).
Proof. apply SortFacts.sort_sorted. reflexivity. Qed.

Lemma sortedEvents_In (events : list CalendarEvent) (e : CalendarEvent) :
  In e (Conflicts.sortedEvents events) <-> In e (timed events).
Proof. apply SortFacts.sort_In. Qed.

End BackToBackFacts.

(** X6.  [checkBackToBackEvents] reports exactly the pairs of neighbours,
    in order of start among the events that are not all-day, whose gap in
    whole minutes is at least 0 and less than the buffer.  For every entry,
    the second event starts more than -1 minute and less than the buffer
    after the end of the first, the first does not start after the second,
    and no event that is not all-day starts strictly between the two
    starts. *)
Theorem checkBackToBackEvents_neighbours (events : list CalendarEvent)
  (bufferMinutes : Z) :
  (forall r,
      In r (BackToBack.checkBackToBackEvents events bufferMinutes) <->
      exists l1 current next l2,
        Conflicts.sortedEvents events = l1 ++ current :: next :: l2 /\
        r = BackToBack.mk (Event.id current) (Event.id next)
              (DateFns.differenceInMinutes (Event.start next) (Event.end_ current)) /\
        0 <= DateFns.differenceInMinutes (Event.start next) (Event.end_ current)
          < bufferMinutes)
  /\ (forall r,
        In r (BackToBack.checkBackToBackEvents events bufferMinutes) ->
        exists current next,
          In current events /\ Event.isAllDay current = false /\
          In next events /\ Event.isAllDay next = false /\
          BackToBack.eventA r = Event.id current /\
          BackToBack.eventB r = Event.id next /\
          BackToBack.gap r
            = DateFns.differenceInMinutes (Event.start next) (Event.end_ current) /\
          0 <= BackToBack.gap r < bufferMinutes /\
          - 60000 < Event.start next - Event.end_ current < bufferMinutes * 60000 /\
          Event.start current <= Event.start next /\
          (forall e, In e events -> Event.isAllDay e = false ->
                     Event.start e <= Event.start current
                     \/ Event.start next <= Event.start e)).
Proof.
  assert (Hiff := BackToBackFacts.scanAdjacent_In bufferMinutes
                    (Conflicts.sortedEvents events)).
  split; [exact Hiff|].
  intros r Hr. apply Hiff in Hr.
  destruct Hr as (l1 & current & next & l2 & Heq & -> & Hrange).
  assert (Hsorted := BackToBackFacts.sortedEvents_sorted events).
  assert (Hin : forall e, In e events -> Event.isAllDay e = false ->
                          In e (l1 ++ current :: next :: l2)).
  { intros e He Hall. rewrite <- Heq. apply BackToBackFacts.sortedEvents_In.
    apply filter_In. now rewrite Hall. }
  assert (Hback : forall e, In e (l1 ++ current :: next :: l2) ->
                            In e events /\ Event.isAllDay e = false).
  { intros e He. rewrite <- Heq in He. apply BackToBackFacts.sortedEvents_In in He.
    apply filter_In in He. now rewrite negb_true_iff in He. }
  rewrite Heq in Hsorted.
  destruct (BackToBackFacts.sorted_split _ _ _ _ Hsorted) as (Hbefore & Hafter).
  assert (Hsorted' : StronglySorted (ascending Event.start)
                       ((l1 ++ [current]) ++ next :: l2))
    by (rewrite <- app_assoc; exact Hsorted).
  destruct (BackToBackFacts.sorted_split _ _ _ _ Hsorted') as (Hbefore' & Hafter').
  destruct (Hback current) as (Hc1 & Hc2); [apply in_elt|].
  destruct (Hback next) as (Hn1 & Hn2);
    [apply in_app_iff; right; right; now left|].
  exists current, next. simpl.
  repeat (split; [assumption|]).
  split; [reflexivity|]. split; [reflexivity|]. split; [reflexivity|].
  split; [exact Hrange|].
  split; [apply (BackToBackFacts.minutes_range _ bufferMinutes); exact Hrange|].
  split; [apply (Hafter next); now left|].
  intros e He Hall. specialize (Hin e He Hall).
  apply in_app_iff in Hin. destruct Hin as [Hin | [<- | [<- | Hin]]].
  - left. now apply Hbefore.
  - left. unfold ascending. lia.
  - right. unfold ascending. lia.
  - right. now apply Hafter'.
Qed.

Module BackToBackMore.
Import BackToBack BackToBackFacts.

Lemma sortedEvents_pair (a b : CalendarEvent) :
  Event.isAllDay a = false -> Event.isAllDay b = false ->
  Event.start a <= Event.start b ->
  Conflicts.sortedEvents [a; b] = [a; b].
Proof.
  intros Ha Hb Hle. unfold Conflicts.sortedEvents. simpl. rewrite Ha, Hb. simpl.
  unfold Conflicts.byStart, DateFns.getTime.
  replace (Event.start a - Event.start b <=? 0) with true; [reflexivity|].
  symmetry. apply Z.leb_le. lia.
Qed.

Lemma sortedEvents_swapped (a b : CalendarEvent) :
  Event.isAllDay a = false -> Event.isAllDay b = false ->
  Event.start a < Event.start b ->
  Conflicts.sortedEvents [b; a] = [a; b].
Proof.
  intros Ha Hb Hlt. unfold Conflicts.sortedEvents. simpl. rewrite Ha, Hb. simpl.
  unfold Conflicts.byStart, DateFns.getTime.
  replace (Event.start b - Event.start a <=? 0) with false; [reflexivity|].
  symmetry. apply Z.leb_gt. lia.
Qed.

Lemma eventA_In (bufferMinutes : Z) (l : list CalendarEvent) (x : string) :
  In x (map eventA (scanAdjacent bufferMinutes l [])) -> In x (map Event.id l).
Proof.
  rewrite in_map_iff. intros (r & <- & Hr). apply scanAdjacent_In in Hr.
  destruct Hr as (l1 & current & next & l2 & -> & -> & _). simpl.
  apply in_map, in_elt.
Qed.

Lemma eventB_In (bufferMinutes : Z) (l : list CalendarEvent) (x : string) :
  In x (map eventB (scanAdjacent bufferMinutes l [])) -> In x (map Event.id (tl l)).
Proof.
  rewrite in_map_iff. intros (r & <- & Hr). apply scanAdjacent_In in Hr.
  destruct Hr as (l1 & current & next & l2 & -> & -> & _). simpl.
  apply in_map. destruct l1 as [|y l1]; simpl; [now left|].
  apply in_app_iff. right. right. now left.
Qed.

Lemma eventA_NoDup (bufferMinutes : Z) (l : list CalendarEvent) :
  NoDup (map Event.id l) -> NoDup (map eventA (scanAdjacent bufferMinutes l [])).
Proof.
  induction l as [|current l IH]; intros Hnd; [constructor|].
  destruct l as [|next rest]; [constructor|].
  rewrite scanAdjacent_cons, map_app.
  apply NoDup_cons_iff in Hnd. destruct Hnd as (Hcur & Hnd).
  match goal with
  | |- context [if ?c then _ else _] => destruct c
  end; cbn [map app eventA]; [|now apply IH].
  constructor; [|now apply IH].
  intros Hin. apply Hcur.
  exact (eventA_In bufferMinutes (next :: rest) _ Hin).
Qed.

Lemma eventB_NoDup (bufferMinutes : Z) (l : list CalendarEvent) :
  NoDup (map Event.id l) -> NoDup (map eventB (scanAdjacent bufferMinutes l [])).
Proof.
  induction l as [|current l IH]; intros Hnd; [constructor|].
  destruct l as [|next rest]; [constructor|].
  rewrite scanAdjacent_cons, map_app.
  apply NoDup_cons_iff in Hnd. destruct Hnd as (_ & Hnd).
  assert (Hnext := Hnd). apply NoDup_cons_iff in Hnext. destruct Hnext as (Hnext & _).
  match goal with
  | |- context [if ?c then _ else _] => destruct c
  end; cbn [map app eventB]; [|now apply IH].
  constructor; [|now apply IH].
  intros Hin. apply Hnext.
  exact (eventB_In bufferMinutes (next :: rest) _ Hin).
Qed.

Lemma sortedEvents_ids (events : list CalendarEvent) :
  NoDup (ids events) -> NoDup (map Event.id (Conflicts.sortedEvents events)).
Proof.
  intros Hnd. unfold Conflicts.sortedEvents.
  eapply Permutation_NoDup.
  - apply Permutation_map. symmetry. apply SortFacts.sort_perm.
  - apply ListFacts.NoDup_map_filter. exact Hnd.
Qed.

End BackToBackMore.

(** X7.  For two events that are not all-day, the first of which does not
    start after the second, [checkBackToBackEvents] reports the pair exactly
    when the buffer is positive and the second starts more than -1 minute
    and less than the buffer after the end of the first; the order of the
    input does not matter when the starts differ.  So a second event that
    starts less than one minute before the first one ends is reported with
    gap 0, while [detectConflicts] reports the two as a conflict. *)
Theorem checkBackToBackEvents_two (clock : nat -> Z) (a b : CalendarEvent)
  (bufferMinutes : Z) :
  Event.isAllDay a = false -> Event.isAllDay b = false ->
  Event.start a <= Event.start b ->
  BackToBack.checkBackToBackEvents [a; b] bufferMinutes
  = (if (0 <? bufferMinutes)
        && (- 60000 <? Event.start b - Event.end_ a)
        && (Event.start b - Event.end_ a <? bufferMinutes * 60000)
     then [BackToBack.mk (Event.id a) (Event.id b)
             (DateFns.differenceInMinutes (Event.start b) (Event.end_ a))]
     else [])
  /\ (Event.start a < Event.start b ->
      BackToBack.checkBackToBackEvents [b; a] bufferMinutes
      = BackToBack.checkBackToBackEvents [a; b] bufferMinutes)
  /\ (0 < bufferMinutes -> Event.start b < Event.end_ b ->
      Event.end_ a - 60000 < Event.start b < Event.end_ a ->
      BackToBack.checkBackToBackEvents [a; b] bufferMinutes
      = [BackToBack.mk (Event.id a) (Event.id b) 0]
      /\ exists c, In c (Conflicts.detectConflicts clock [a; b]) /\
                   In (Event.id a) (Conflict.events c) /\
                   In (Event.id b) (Conflict.events c)).
Proof.
  intros Ha Hb Hle.
  assert (Hfirst :
    BackToBack.checkBackToBackEvents [a; b] bufferMinutes
    = (if (0 <? bufferMinutes)
          && (- 60000 <? Event.start b - Event.end_ a)
          && (Event.start b - Event.end_ a <? bufferMinutes * 60000)
       then [BackToBack.mk (Event.id a) (Event.id b)
               (DateFns.differenceInMinutes (Event.start b) (Event.end_ a))]
       else [])).
  { unfold BackToBack.checkBackToBackEvents.
    rewrite BackToBackMore.sortedEvents_pair by assumption.
    rewrite BackToBackFacts.scanAdjacent_cons. simpl. rewrite app_nil_r.
    assert (Hr := BackToBackFacts.minutes_range
                    (Event.start b - Event.end_ a) bufferMinutes).
    unfold DateFns.differenceInMinutes, DateFns.getTime, DateFns.millisecondsInMinute.
    destruct ((Z.quot (Event.start b - Event.end_ a) 60000 >=? 0)
              && (Z.quot (Event.start b - Event.end_ a) 60000 <? bufferMinutes)) eqn:H1;
      destruct ((0 <? bufferMinutes)
                && (- 60000 <? Event.start b - Event.end_ a)
                && (Event.start b - Event.end_ a <? bufferMinutes * 60000)) eqn:H2;
      try reflexivity; exfalso;
      rewrite ?andb_true_iff, ?andb_false_iff, ?Z.geb_le, ?Z.ltb_lt, ?Z.ltb_ge in H1, H2;
      rewrite ?Z.geb_leb, ?Z.leb_gt in H1; lia. }
  split; [exact Hfirst|]. split.
  - intros Hlt. unfold BackToBack.checkBackToBackEvents.
    rewrite BackToBackMore.sortedEvents_swapped by assumption.
    now rewrite BackToBackMore.sortedEvents_pair by assumption.
  - intros Hbuf Hpos Hnear. split.
    + rewrite Hfirst.
      replace ((0 <? bufferMinutes)
               && (- 60000 <? Event.start b - Event.end_ a)
               && (Event.start b - Event.end_ a <? bufferMinutes * 60000)) with true
        by (symmetry; rewrite !andb_true_iff, !Z.ltb_lt; lia).
      do 2 f_equal.
      assert (Hr := BackToBackFacts.minutes_range (Event.start b - Event.end_ a) 1).
      unfold DateFns.differenceInMinutes, DateFns.getTime, DateFns.millisecondsInMinute.
      lia.
    + apply PairFacts.pair_some; try assumption.
      apply overlapping_strictOverlap; unfold wellFormed, strictOverlap; lia.
Qed.

Lemma checkBackToBackEvents_two_witness :
  Event.isAllDay (meeting "a" 0 3600000) = false
  /\ Event.isAllDay (meeting "b" 3599000 7200000) = false
  /\ Event.start (meeting "a" 0 3600000) <= Event.start (meeting "b" 3599000 7200000)
  /\ BackToBack.checkBackToBackEvents
       [meeting "a" 0 3600000; meeting "b" 3599000 7200000] 15
     = [BackToBack.mk "a" "b" 0].
Proof.
  assert (H1 : Event.isAllDay (meeting "a" 0 3600000) = false) by reflexivity.
  assert (H2 : Event.isAllDay (meeting "b" 3599000 7200000) = false) by reflexivity.
  assert (H3 : Event.start (meeting "a" 0 3600000)
               <= Event.start (meeting "b" 3599000 7200000)) by (simpl; lia).
  refine (conj H1 (conj H2 (conj H3 _))).
  exact (proj1 (checkBackToBackEvents_two sampleClock _ _ 15 H1 H2 H3)).
Defined.

(** X8.  [checkBackToBackEvents] reports fewer pairs than there are events
    that are not all-day, and none when the buffer is not positive; a larger
    buffer keeps every pair; and when the ids of the events are distinct, no
    event is the first of two reported pairs nor the second of two. *)
Theorem checkBackToBackEvents_count (events : list CalendarEvent) (bufferMinutes : Z) :
  (length (BackToBack.checkBackToBackEvents events bufferMinutes)
   <= length (timed events) - 1)%nat
  /\ (bufferMinutes <= 0 ->
      BackToBack.checkBackToBackEvents events bufferMinutes = [])
  /\ (forall larger, bufferMinutes <= larger ->
        incl (BackToBack.checkBackToBackEvents events bufferMinutes)
             (BackToBack.checkBackToBackEvents events larger))
  /\ (NoDup (ids events) ->
      NoDup (map BackToBack.eventA
               (BackToBack.checkBackToBackEvents events bufferMinutes))
      /\ NoDup (map BackToBack.eventB
                  (BackToBack.checkBackToBackEvents events bufferMinutes))).
Proof.
  unfold BackToBack.checkBackToBackEvents. split; [|split; [|split]].
  - assert (H := BackToBackFacts.scanAdjacent_length bufferMinutes
                   (Conflicts.sortedEvents events)).
    unfold Conflicts.sortedEvents in H at 2.
    rewrite SortFacts.sort_length in H. exact H.
  - intros Hb.
    destruct (BackToBack.scanAdjacent bufferMinutes (Conflicts.sortedEvents events) [])
      as [|r l] eqn:Hscan; [reflexivity | exfalso].
    assert (Hr : In r (BackToBack.scanAdjacent bufferMinutes
                         (Conflicts.sortedEvents events) []))
      by (rewrite Hscan; now left).
    apply BackToBackFacts.scanAdjacent_In in Hr.
    destruct Hr as (l1 & current & next & l2 & _ & _ & Hrange). lia.
  - intros larger Hle r Hr. apply BackToBackFacts.scanAdjacent_In in Hr.
    apply BackToBackFacts.scanAdjacent_In.
    destruct Hr as (l1 & current & next & l2 & Heq & Hr & Hrange).
    exists l1, current, next, l2. repeat split; try assumption; lia.
  - intros Hnd. apply BackToBackMore.sortedEvents_ids in Hnd. split.
    + now apply BackToBackMore.eventA_NoDup.
    + now apply BackToBackMore.eventB_NoDup.
Qed.

(* ===================================================================== *)
(** ** More about the free slots *)

Module FreeSlotMore.
Import Js Suggestions DateFns FreeSlotSpec FreeSlotFacts.

(** What holds of every slot that [pushGap] adds. *)
Lemma pushGap_Forall (P : FreeSlot -> Prop) (minDuration : Z) (acc : list FreeSlot)
  (from to : Date) :
  (from < to -> minDuration <= differenceInMinutes to from ->
   P (FreeSlot.mk from to (differenceInMinutes to from))) ->
  Forall P acc -> Forall P (pushGap minDuration acc from to).
Proof.
  intros Hnew Hacc. unfold pushGap, isBefore, getTime.
  destruct (Z.ltb_spec from to) as [Hlt | _]; [|exact Hacc].
  cbv zeta. rewrite Z.geb_leb.
  destruct (Z.leb_spec minDuration (differenceInMinutes to from)) as [Hle | _];
    [|exact Hacc].
  apply Forall_app. split; [exact Hacc|]. constructor; [auto | constructor].
Qed.

Section Valid.
Variable minDuration : Z.

(** The slot is not empty, its duration is its length in whole minutes,
    and that is [minDuration] or more. *)
Let valid (s : FreeSlot) : Prop :=
  FreeSlot.start s < FreeSlot.end_ s /\
  FreeSlot.duration s = differenceInMinutes (FreeSlot.end_ s) (FreeSlot.start s) /\
  minDuration <= FreeSlot.duration s /\
  FreeSlot.duration s * millisecondsInMinute <= FreeSlot.end_ s - FreeSlot.start s.

Lemma pushGap_valid (acc : list FreeSlot) (from to : Date) :
  Forall valid acc -> Forall valid (pushGap minDuration acc from to).
Proof.
  apply pushGap_Forall. intros Hlt Hle. unfold valid. simpl.
  repeat split; try assumption.
  unfold differenceInMinutes, getTime, millisecondsInMinute.
  rewrite Z.quot_div_nonneg by lia.
  assert (H := Z.mul_div_le (to - from) 60000 ltac:(lia)). lia.
Qed.

Lemma scanEvents_valid (dayStart dayEnd : Date) (l : list CalendarEvent) :
  forall st,
    Forall valid (snd st) ->
    Forall valid (snd (fold_left (scanEvent dayStart dayEnd minDuration) l st)).
Proof.
  induction l as [|e l IH]; intros [slotStart acc] Hacc; [exact Hacc|].
  cbn [fold_left]. apply IH. unfold scanEvent. cbn [snd].
  apply pushGap_valid. exact Hacc.
Qed.

Lemma scanDay_valid (events : list CalendarEvent)
  (workStartHour workStartMin workEndHour workEndMin : Z)
  (currentDay : Date) (acc : list FreeSlot) :
  Forall valid acc ->
  Forall valid (scanDay events workStartHour workStartMin workEndHour workEndMin
                        minDuration currentDay acc).
Proof.
  intros Hacc. unfold scanDay. cbv zeta.
  match goal with
  | |- context [fold_left ?f ?l ?st] =>
      assert (H := scanEvents_valid
                     (setMinutes (setHours currentDay workStartHour) workStartMin)
                     (setMinutes (setHours currentDay workEndHour) workEndMin)
                     l st Hacc);
      destruct (fold_left f l st) as [slotStart acc']
  end.
  apply pushGap_valid. exact H.
Qed.

Lemma scanDays_valid (events : list CalendarEvent)
  (workStartHour workStartMin workEndHour workEndMin : Z) (fuel : nat) :
  forall (currentDay lastDay : Date) (acc : list FreeSlot),
    Forall valid acc ->
    Forall valid (scanDays fuel events workStartHour workStartMin workEndHour
                           workEndMin minDuration currentDay lastDay acc).
Proof.
  induction fuel as [|fuel IH]; intros currentDay lastDay acc Hacc; simpl;
    [exact Hacc|].
  destruct (currentDay <=? lastDay); [|exact Hacc].
  apply IH, scanDay_valid, Hacc.
Qed.

Lemma findFreeSlots_valid (events : list CalendarEvent) (startDate endDate : Date)
  (workingHours : WorkingHours.t) :
  Forall valid (findFreeSlots events startDate endDate workingHours minDuration).
Proof.
  unfold findFreeSlots. cbv zeta.
  destruct (hourAndMinute (WorkingHours.start workingHours)) as [[h|] [m|]];
    try constructor.
  destruct (hourAndMinute (WorkingHours.end_ workingHours)) as [[h'|] [m'|]];
    try constructor.
  apply scanDays_valid. constructor.
Qed.

End Valid.

End FreeSlotMore.

(** X9.  Every slot that [findFreeSlots] returns is not empty, has for
    duration its length in whole minutes, rounded down, and lasts
    [minDuration] minutes or more, whatever the events and the working
    hours are. *)
Theorem findFreeSlots_slots_valid (events : list CalendarEvent)
  (startDate endDate : DateFns.Date) (workingHours : WorkingHours.t)
  (minDuration : Z) :
  Forall (fun s =>
            FreeSlot.start s < FreeSlot.end_ s /\
            FreeSlot.duration s
              = DateFns.differenceInMinutes (FreeSlot.end_ s) (FreeSlot.start s) /\
            minDuration <= FreeSlot.duration s /\
            FreeSlot.duration s * DateFns.millisecondsInMinute
              <= FreeSlot.end_ s - FreeSlot.start s)
         (Suggestions.findFreeSlots events startDate endDate workingHours minDuration).
Proof. apply FreeSlotMore.findFreeSlots_valid. Qed.

Module FreeSlotClear.
Import Js Suggestions DateFns FreeSlotSpec FreeSlotFacts.

Lemma gap_In (minDuration from to : Z) (s : FreeSlot) :
  In s (gap minDuration from to) ->
  FreeSlot.start s = from /\ FreeSlot.end_ s = to /\ from < to.
Proof.
  unfold gap. destruct (Z.ltb_spec from to) as [Hlt | _]; simpl; [|intros []].
  destruct (_ <=? _); simpl; [|intros []].
  intros [<- | []]. simpl. auto.
Qed.

Lemma gap_cases (minDuration from to : Z) :
  gap minDuration from to = [] \/
  (from < to /\
   gap minDuration from to
   = [FreeSlot.mk from to ((to - from) / millisecondsInMinute)]).
Proof.
  unfold gap. destruct (Z.ltb_spec from to) as [Hlt | _]; simpl; [|now left].
  destruct (_ <=? _); [right | left]; auto.
Qed.

Section Window.
Variables minDuration windowStart windowEnd : Z.

(** Every slot of the cursor scan lies in the window, not before the
    cursor, and meets none of the events scanned. *)
Lemma cursorScan_clear (l : list CalendarEvent) :
  StronglySorted (ascending Event.start) l ->
  forall cursor s,
    windowStart <= cursor ->
    In s (cursorScan minDuration windowStart windowEnd cursor l) ->
    cursor <= FreeSlot.start s /\ FreeSlot.start s < FreeSlot.end_ s /\
    FreeSlot.end_ s <= windowEnd /\
    forall x, In x l ->
              Event.end_ x <= FreeSlot.start s \/ FreeSlot.end_ s <= Event.start x.
Proof.
  induction 1 as [|e l Hl IH He]; intros cursor s Hc Hs; simpl in Hs.
  - apply gap_In in Hs. destruct Hs as (-> & -> & Hlt).
    repeat split; try lia. intros x [].
  - rewrite Forall_forall in He. apply in_app_iff in Hs. destruct Hs as [Hs | Hs].
    + apply gap_In in Hs. destruct Hs as (-> & -> & Hlt). unfold clamp in *.
      repeat split; try lia.
      intros x [<- | Hx]; [lia|].
      specialize (He x Hx). unfold ascending in He. lia.
    + apply IH in Hs; [|unfold clamp; lia].
      destruct Hs as (H1 & H2 & H3 & H4). unfold clamp in *.
      repeat split; try lia.
      intros x [<- | Hx]; [lia | now apply H4].
Qed.

(** The slots of the cursor scan are in chronological order and do not
    meet each other. *)
Lemma cursorScan_sorted (l : list CalendarEvent) :
  (forall e, In e l -> Event.start e <= Event.end_ e) ->
  forall cursor,
    StronglySorted (fun a b => FreeSlot.end_ a <= FreeSlot.start b)
                   (cursorScan minDuration windowStart windowEnd cursor l)
    /\ Forall (fun s => cursor <= FreeSlot.start s)
              (cursorScan minDuration windowStart windowEnd cursor l).
Proof.
  induction l as [|e l IH]; intros Hwf cursor; cbn [cursorScan].
  - destruct (gap_cases minDuration cursor windowEnd) as [-> | (Hlt & ->)].
    + split; constructor.
    + split; repeat constructor. simpl. lia.
  - destruct (IH (fun x Hx => Hwf x (or_intror Hx))
                (Z.max cursor (clamp windowStart windowEnd (Event.end_ e))))
      as (Hsorted & Hfrom).
    assert (He := Hwf e (or_introl eq_refl)).
    destruct (gap_cases minDuration cursor
                (clamp windowStart windowEnd (Event.start e))) as [-> | (Hlt & ->)];
      cbn [app].
    + split; [exact Hsorted|].
      eapply Forall_impl; [|exact Hfrom]. simpl. intros a; lia.
    + split.
      * constructor; [exact Hsorted|]. cbn [FreeSlot.end_].
        eapply Forall_impl; [|exact Hfrom]. unfold clamp. simpl. intros a; lia.
      * constructor; [simpl; lia|].
        eapply Forall_impl; [|exact Hfrom]. simpl. intros a; lia.
Qed.

Lemma daySlots_clear (events : list CalendarEvent) (s : FreeSlot) :
  In s (daySlots events minDuration windowStart windowEnd) ->
  windowStart <= FreeSlot.start s /\ FreeSlot.start s < FreeSlot.end_ s /\
  FreeSlot.end_ s <= windowEnd /\
  forall x, In x events -> Event.isAllDay x = false ->
            Event.end_ x <= FreeSlot.start s \/ FreeSlot.end_ s <= Event.start x.
Proof.
  unfold daySlots. intros Hs.
  apply cursorScan_clear in Hs;
    [|apply SortFacts.sort_sorted; reflexivity | lia].
  destruct Hs as (H1 & H2 & H3 & H4). repeat split; try assumption.
  intros x Hx Hall.
  destruct (relevant windowStart windowEnd x) eqn:Hrel.
  - apply H4. apply SortFacts.sort_In, filter_In. auto.
  - unfold relevant in Hrel. rewrite Hall in Hrel. simpl in Hrel.
    apply andb_false_iff in Hrel. rewrite !Z.leb_gt in Hrel. lia.
Qed.

Lemma daySlots_sorted (events : list CalendarEvent) :
  (forall e, In e events -> Event.isAllDay e = false -> wellFormed e) ->
  StronglySorted (fun a b => FreeSlot.end_ a <= FreeSlot.start b)
                 (daySlots events minDuration windowStart windowEnd).
Proof.
  intros Hwf. unfold daySlots. apply cursorScan_sorted.
  intros e He. apply SortFacts.sort_In, filter_In in He. destruct He as (He & Hrel).
  apply Hwf; [exact He|]. unfold relevant in Hrel.
  rewrite !andb_true_iff, negb_true_iff in Hrel. tauto.
Qed.

End Window.

(** An interval that meets no event that is not all-day has no conflict. *)
Lemma clear_hasConflict (events : list CalendarEvent) (from to : Date) :
  (forall e, In e events -> Event.isAllDay e = false -> wellFormed e) ->
  from <= to ->
  (forall x, In x events -> Event.isAllDay x = false ->
             Event.end_ x <= from \/ to <= Event.start x) ->
  Conflicts.hasConflict (mkInterval from to) events = false.
Proof.
  intros Hwf Hle Hclear. apply not_true_is_false.
  rewrite ConflictMore.hasConflict_exists. intros (e & He & Hall & Hov).
  rewrite DateFacts.overlapping_wellFormed in Hov;
    [|exact Hle | exact (Hwf e He Hall)].
  simpl in Hov. apply andb_true_iff in Hov. rewrite !Z.ltb_lt in Hov.
  destruct (Hclear e He Hall); lia.
Qed.

Lemma freeSlots_In (events : list CalendarEvent) (rangeStart rangeEnd : Date)
  (startHour startMin endHour endMin minDuration : Z) (s : FreeSlot) :
  In s (freeSlots events rangeStart rangeEnd startHour startMin endHour endMin
                  minDuration) ->
  exists day, In day (days rangeStart rangeEnd) /\
              In s (daySlots events minDuration (at_ day startHour startMin)
                             (at_ day endHour endMin)).
Proof. unfold freeSlots. intros Hs. apply in_flat_map in Hs. exact Hs. Qed.

Lemma sorted_app {A : Type} (R : A -> A -> Prop) (l1 l2 : list A) :
  StronglySorted R l1 -> StronglySorted R l2 ->
  (forall a b, In a l1 -> In b l2 -> R a b) ->
  StronglySorted R (l1 ++ l2).
Proof.
  induction 1 as [|x l1 Hl1 IH Hx]; intros Hl2 Hcross; simpl; [exact Hl2|].
  constructor.
  - apply IH; [exact Hl2|]. intros a b Ha Hb. apply Hcross; [now right | exact Hb].
  - apply Forall_app. split; [exact Hx|].
    apply Forall_forall. intros b Hb. apply Hcross; [now left | exact Hb].
Qed.

Lemma sorted_flat_map {A B : Type} (Q : A -> A -> Prop) (R : B -> B -> Prop)
  (f : A -> list B) (l : list A) :
  StronglySorted Q l ->
  (forall x, In x l -> StronglySorted R (f x)) ->
  (forall x y a b, Q x y -> In a (f x) -> In b (f y) -> R a b) ->
  StronglySorted R (flat_map f l).
Proof.
  induction 1 as [|x l Hl IH Hx]; intros Hf Hcross; simpl; [constructor|].
  rewrite Forall_forall in Hx. apply sorted_app.
  - apply Hf. now left.
  - apply IH; [intros y Hy; apply Hf; now right | exact Hcross].
  - intros a b Ha Hb. apply in_flat_map in Hb. destruct Hb as (y & Hy & Hb).
    eapply Hcross; [apply Hx, Hy | exact Ha | exact Hb].
Qed.

Lemma seq_sorted (n : nat) : forall s, StronglySorted lt (seq s n).
Proof.
  induction n as [|n IH]; intros s; simpl; constructor; [apply IH|].
  apply Forall_forall. intros k Hk. apply in_seq in Hk. lia.
Qed.

(** The days of a range are at least one day apart, in order. *)
Lemma days_sorted (rangeStart rangeEnd : Date) :
  StronglySorted (fun d d' => d + millisecondsInDay <= d') (days rangeStart rangeEnd).
Proof.
  unfold days. eapply HistoryFacts.sorted_map; [|apply seq_sorted].
  intros a b Hab. unfold addDays, millisecondsInDay. lia.
Qed.

Lemma days_first (rangeStart rangeEnd : Date) :
  rangeStart <= rangeEnd ->
  exists rest, days rangeStart rangeEnd = startOfDay rangeStart :: rest.
Proof.
  intros Hle. unfold days.
  assert (Hn : (0 < dayCount (startOfDay rangeStart) (startOfDay rangeEnd))%nat).
  { unfold dayCount, startOfDay, millisecondsInDay.
    assert (H1 := Z.div_mod rangeStart 86400000 ltac:(lia)).
    assert (H2 := Z.div_mod rangeEnd 86400000 ltac:(lia)).
    assert (H3 : rangeStart / 86400000 <= rangeEnd / 86400000)
      by (apply Z.div_le_mono; lia).
    assert (H4 : 0 <= (rangeEnd - rangeEnd mod 86400000
                       - (rangeStart - rangeStart mod 86400000)) / 86400000)
      by (apply Z.div_pos; lia).
    lia. }
  destruct (dayCount _ _) as [|n]; [lia|]. simpl.
  eexists. f_equal. unfold addDays. lia.
Qed.

End FreeSlotClear.

Module FreeSlotUse.
Import Js Suggestions DateFns FreeSlotSpec FreeSlotFacts FreeSlotClear.

Section Hours.
Variable events : list CalendarEvent.
Variables startDate endDate : Date.
Variable workingHours : WorkingHours.t.
Variables startHour startMin endHour endMin minDuration : Z.
Hypothesis start_ok :
  hourAndMinute (WorkingHours.start workingHours) = (Some startHour, Some startMin).
Hypothesis end_ok :
  hourAndMinute (WorkingHours.end_ workingHours) = (Some endHour, Some endMin).
Hypothesis window_ok : at_ 0 startHour startMin <= at_ 0 endHour endMin.
Hypothesis events_ok : forall e, In e events -> Event.isAllDay e = false -> wellFormed e.

(** Every slot lies in the working window of a day of the range and meets
    no event that is not all-day. *)
Lemma findFreeSlots_clear (s : FreeSlot) :
  In s (findFreeSlots events startDate endDate workingHours minDuration) ->
  (exists day, In day (days startDate endDate) /\
               at_ day startHour startMin <= FreeSlot.start s /\
               FreeSlot.end_ s <= at_ day endHour endMin) /\
  FreeSlot.start s < FreeSlot.end_ s /\
  forall x, In x events -> Event.isAllDay x = false ->
            Event.end_ x <= FreeSlot.start s \/ FreeSlot.end_ s <= Event.start x.
Proof.
  rewrite (FreeSlotClaims.findFreeSlots_freeSlots events startDate endDate
             workingHours startHour startMin endHour endMin minDuration
             start_ok end_ok window_ok events_ok).
  intros Hs. apply freeSlots_In in Hs. destruct Hs as (day & Hday & Hs).
  apply daySlots_clear in Hs. destruct Hs as (H1 & H2 & H3 & H4).
  split; [exists day; auto | auto].
Qed.

(** A part of a free slot that starts where the slot starts has no
    conflict. *)
Lemma trimmed_free (s : FreeSlot) (duration : Z) :
  In s (findFreeSlots events startDate endDate workingHours minDuration) ->
  0 <= duration -> duration <= FreeSlot.duration s ->
  Conflicts.hasConflict
    (mkInterval (FreeSlot.start s) (addMinutes (FreeSlot.start s) duration)) events
  = false.
Proof.
  intros Hs H0 Hle.
  assert (Hvalid := FreeSlotMore.findFreeSlots_valid minDuration events startDate
                      endDate workingHours).
  rewrite Forall_forall in Hvalid. destruct (Hvalid s Hs) as (_ & _ & _ & Hlen).
  destruct (findFreeSlots_clear s Hs) as (_ & _ & Hclear).
  unfold addMinutes, millisecondsInMinute in *.
  apply clear_hasConflict; [exact events_ok | lia|].
  intros x Hx Hall. destruct (Hclear x Hx Hall); [left | right]; nia.
Qed.

End Hours.

(** The filter of [findNextAvailableSlot] never skips a slot. *)
Lemma find_first (events : list CalendarEvent) (startDate endDate : Date)
  (workingHours : WorkingHours.t) (duration : Z) :
  find (fun slot => FreeSlot.duration slot >=? duration)
       (findFreeSlots events startDate endDate workingHours duration)
  = hd_error (findFreeSlots events startDate endDate workingHours duration).
Proof.
  assert (Hvalid := FreeSlotMore.findFreeSlots_valid duration events startDate
                      endDate workingHours).
  destruct (findFreeSlots events startDate endDate workingHours duration)
    as [|slot rest]; [reflexivity|].
  apply Forall_inv in Hvalid. destruct Hvalid as (_ & _ & Hle & _).
  simpl. rewrite Z.geb_leb.
  replace (duration <=? FreeSlot.duration slot) with true; [reflexivity|].
  symmetry. now apply Z.leb_le.
Qed.

End FreeSlotUse.

(** X10.  With working hours in HH:mm form whose start is not after their
    end, and events with well-formed intervals, every slot of
    [findFreeSlots] lies inside the working window of one of the days of
    the range, and [hasConflict] finds no conflict between the slot and the
    events. *)
Theorem findFreeSlots_slots_free (events : list CalendarEvent)
  (startDate endDate : DateFns.Date) (workingHours : WorkingHours.t)
  (startHour startMin endHour endMin minDuration : Z) :
  Suggestions.hourAndMinute (WorkingHours.start workingHours)
    = (Some startHour, Some startMin) ->
  Suggestions.hourAndMinute (WorkingHours.end_ workingHours)
    = (Some endHour, Some endMin) ->
  FreeSlotSpec.at_ 0 startHour startMin <= FreeSlotSpec.at_ 0 endHour endMin ->
  (forall e, In e events -> Event.isAllDay e = false -> wellFormed e) ->
  Forall (fun s =>
            Conflicts.hasConflict
              (DateFns.mkInterval (FreeSlot.start s) (FreeSlot.end_ s)) events = false
            /\ exists day, In day (FreeSlotSpec.days startDate endDate) /\
                           FreeSlotSpec.at_ day startHour startMin <= FreeSlot.start s /\
                           FreeSlot.end_ s <= FreeSlotSpec.at_ day endHour endMin)
         (Suggestions.findFreeSlots events startDate endDate workingHours minDuration).
Proof.
  intros Hs He Hw Hev. apply Forall_forall. intros s Hin.
  destruct (FreeSlotUse.findFreeSlots_clear events startDate endDate workingHours
              startHour startMin endHour endMin minDuration Hs He Hw Hev s Hin)
    as (Hday & Hlt & Hclear).
  split; [|exact Hday].
  apply FreeSlotClear.clear_hasConflict; [exact Hev | lia | exact Hclear].
Qed.

Lemma findFreeSlots_slots_free_witness :
  Suggestions.hourAndMinute "09:00" = (Some 9, Some 0)
  /\ Suggestions.hourAndMinute "18:00" = (Some 18, Some 0)
  /\ FreeSlotSpec.at_ 0 9 0 <= FreeSlotSpec.at_ 0 18 0
  /\ (forall e, In e sampleEvents -> Event.isAllDay e = false -> wellFormed e)
  /\ Forall (fun s =>
               Conflicts.hasConflict
                 (DateFns.mkInterval (FreeSlot.start s) (FreeSlot.end_ s)) sampleEvents
               = false
               /\ exists day, In day (FreeSlotSpec.days 0 0) /\
                              FreeSlotSpec.at_ day 9 0 <= FreeSlot.start s /\
                              FreeSlot.end_ s <= FreeSlotSpec.at_ day 18 0)
            (Suggestions.findFreeSlots sampleEvents 0 0
               (WorkingHours.mk "09:00" "18:00") 30).
Proof.
  assert (H1 : Suggestions.hourAndMinute "09:00" = (Some 9, Some 0)) by reflexivity.
  assert (H2 : Suggestions.hourAndMinute "18:00" = (Some 18, Some 0)) by reflexivity.
  assert (H3 : FreeSlotSpec.at_ 0 9 0 <= FreeSlotSpec.at_ 0 18 0)
    by (unfold FreeSlotSpec.at_; simpl; lia).
  assert (H4 : forall e, In e sampleEvents -> Event.isAllDay e = false -> wellFormed e).
  { intros e He _. simpl in He.
    repeat (destruct He as [<- | He]; [unfold wellFormed; simpl; lia|]).
    destruct He. }
  refine (conj H1 (conj H2 (conj H3 (conj H4 _)))).
  exact (findFreeSlots_slots_free sampleEvents 0 0
           (WorkingHours.mk "09:00" "18:00") 9 0 18 0 30 H1 H2 H3 H4).
Defined.

(** X11.  When moreover the working window is not longer than a day, the
    slots of [findFreeSlots] are in chronological order and no two of them
    meet: each ends before or when the next ones start. *)
Theorem findFreeSlots_chronological (events : list CalendarEvent)
  (startDate endDate : DateFns.Date) (workingHours : WorkingHours.t)
  (startHour startMin endHour endMin minDuration : Z) :
  Suggestions.hourAndMinute (WorkingHours.start workingHours)
    = (Some startHour, Some startMin) ->
  Suggestions.hourAndMinute (WorkingHours.end_ workingHours)
    = (Some endHour, Some endMin) ->
  FreeSlotSpec.at_ 0 startHour startMin <= FreeSlotSpec.at_ 0 endHour endMin ->
  FreeSlotSpec.at_ 0 endHour endMin
    <= FreeSlotSpec.at_ 0 startHour startMin + DateFns.millisecondsInDay ->
  (forall e, In e events -> Event.isAllDay e = false -> wellFormed e) ->
  StronglySorted (fun a b => FreeSlot.end_ a <= FreeSlot.start b)
    (Suggestions.findFreeSlots events startDate endDate workingHours minDuration).
Proof.
  intros Hs He Hw Hday Hev.
  rewrite (FreeSlotClaims.findFreeSlots_freeSlots events startDate endDate
             workingHours startHour startMin endHour endMin minDuration Hs He Hw Hev).
  unfold FreeSlotSpec.freeSlots.
  eapply FreeSlotClear.sorted_flat_map.
  - apply FreeSlotClear.days_sorted.
  - intros day _. apply FreeSlotClear.daySlots_sorted. exact Hev.
  - intros x y a b Hxy Ha Hb. simpl in Hxy.
    apply FreeSlotClear.daySlots_clear in Ha, Hb.
    unfold FreeSlotSpec.at_ in *. lia.
Qed.

Lemma findFreeSlots_chronological_witness :
  Suggestions.hourAndMinute "09:00" = (Some 9, Some 0)
  /\ Suggestions.hourAndMinute "18:00" = (Some 18, Some 0)
  /\ FreeSlotSpec.at_ 0 9 0 <= FreeSlotSpec.at_ 0 18 0
  /\ FreeSlotSpec.at_ 0 18 0 <= FreeSlotSpec.at_ 0 9 0 + DateFns.millisecondsInDay
  /\ (forall e, In e sampleEvents -> Event.isAllDay e = false -> wellFormed e)
  /\ StronglySorted (fun a b => FreeSlot.end_ a <= FreeSlot.start b)
       (Suggestions.findFreeSlots sampleEvents 0 86400000
          (WorkingHours.mk "09:00" "18:00") 30).
Proof.
  assert (H1 : Suggestions.hourAndMinute "09:00" = (Some 9, Some 0)) by reflexivity.
  assert (H2 : Suggestions.hourAndMinute "18:00" = (Some 18, Some 0)) by reflexivity.
  assert (H3 : FreeSlotSpec.at_ 0 9 0 <= FreeSlotSpec.at_ 0 18 0)
    by (unfold FreeSlotSpec.at_; simpl; lia).
  assert (H3' : FreeSlotSpec.at_ 0 18 0
                <= FreeSlotSpec.at_ 0 9 0 + DateFns.millisecondsInDay)
    by (unfold FreeSlotSpec.at_; simpl; lia).
  assert (H4 : forall e, In e sampleEvents -> Event.isAllDay e = false -> wellFormed e).
  { intros e He _. simpl in He.
    repeat (destruct He as [<- | He]; [unfold wellFormed; simpl; lia|]).
    destruct He. }
  refine (conj H1 (conj H2 (conj H3 (conj H3' (conj H4 _))))).
  exact (findFreeSlots_chronological sampleEvents 0 86400000
           (WorkingHours.mk "09:00" "18:00") 9 0 18 0 30 H1 H2 H3 H3' H4).
Defined.

(** X12.  [findNextAvailableSlot] answers null exactly when [findFreeSlots]
    finds no slot of the duration in the 14 days from [startFrom];
    otherwise it answers the first of these slots cut to the duration,
    which ends no later than that slot. *)
Theorem findNextAvailableSlot_first (events : list CalendarEvent) (duration : Z)
  (workingHours : WorkingHours.t) (startFrom : DateFns.Date) :
  match Suggestions.findFreeSlots events startFrom (DateFns.addDays startFrom 14)
          workingHours duration with
  | [] => NextSlot.findNextAvailableSlot events duration workingHours startFrom = None
  | slot :: _ =>
      NextSlot.findNextAvailableSlot events duration workingHours startFrom
      = Some (FreeSlot.mk (FreeSlot.start slot)
                          (DateFns.addMinutes (FreeSlot.start slot) duration)
                          duration)
      /\ DateFns.addMinutes (FreeSlot.start slot) duration <= FreeSlot.end_ slot
  end.
Proof.
  unfold NextSlot.findNextAvailableSlot. cbv zeta.
  rewrite FreeSlotUse.find_first.
  assert (Hvalid := FreeSlotMore.findFreeSlots_valid duration events startFrom
                      (DateFns.addDays startFrom 14) workingHours).
  destruct (Suggestions.findFreeSlots events startFrom (DateFns.addDays startFrom 14)
              workingHours duration) as [|slot rest]; [reflexivity|].
  split; [reflexivity|].
  apply Forall_inv in Hvalid. destruct Hvalid as (_ & _ & Hle & Hlen).
  unfold DateFns.addMinutes, DateFns.millisecondsInMinute in *. nia.
Qed.

(** X13.  With working hours in HH:mm form whose start is not after their
    end, events with well-formed intervals and a duration that is not
    negative, the slot that [findNextAvailableSlot] answers has the duration
    asked for and conflicts with no event, by [hasConflict]. *)
Theorem findNextAvailableSlot_free (events : list CalendarEvent) (duration : Z)
  (workingHours : WorkingHours.t) (startFrom : DateFns.Date)
  (startHour startMin endHour endMin : Z) (s : FreeSlot) :
  Suggestions.hourAndMinute (WorkingHours.start workingHours)
    = (Some startHour, Some startMin) ->
  Suggestions.hourAndMinute (WorkingHours.end_ workingHours)
    = (Some endHour, Some endMin) ->
  FreeSlotSpec.at_ 0 startHour startMin <= FreeSlotSpec.at_ 0 endHour endMin ->
  (forall e, In e events -> Event.isAllDay e = false -> wellFormed e) ->
  0 <= duration ->
  NextSlot.findNextAvailableSlot events duration workingHours startFrom = Some s ->
  Conflicts.hasConflict (DateFns.mkInterval (FreeSlot.start s) (FreeSlot.end_ s)) events
  = false
  /\ FreeSlot.duration s = duration
  /\ DateFns.getTime (FreeSlot.end_ s) - DateFns.getTime (FreeSlot.start s)
     = duration * DateFns.millisecondsInMinute.
Proof.
  intros Hs He Hw Hev Hd. unfold NextSlot.findNextAvailableSlot. cbv zeta.
  rewrite FreeSlotUse.find_first.
  assert (Hfree := fun slot =>
            FreeSlotUse.trimmed_free events startFrom (DateFns.addDays startFrom 14)
              workingHours startHour startMin endHour endMin duration
              Hs He Hw Hev slot duration).
  assert (Hvalid := FreeSlotMore.findFreeSlots_valid duration events startFrom
                      (DateFns.addDays startFrom 14) workingHours).
  destruct (Suggestions.findFreeSlots events startFrom (DateFns.addDays startFrom 14)
              workingHours duration) as [|slot rest]; [discriminate|].
  apply Forall_inv in Hvalid. destruct Hvalid as (_ & _ & Hle & _).
  simpl. intros Heq. injection Heq as <-. simpl.
  split; [apply Hfree; [now left | exact Hd | exact Hle]|].
  split; [reflexivity|]. unfold DateFns.addMinutes, DateFns.getTime. lia.
Qed.

Lemma findNextAvailableSlot_free_witness :
  Suggestions.hourAndMinute "09:00" = (Some 9, Some 0)
  /\ Suggestions.hourAndMinute "18:00" = (Some 18, Some 0)
  /\ FreeSlotSpec.at_ 0 9 0 <= FreeSlotSpec.at_ 0 18 0
  /\ (forall e, In e sampleEvents -> Event.isAllDay e = false -> wellFormed e)
  /\ 0 <= 60
  /\ NextSlot.findNextAvailableSlot sampleEvents 60 (WorkingHours.mk "09:00" "18:00") 0
     = Some (FreeSlot.mk 46800000 50400000 60)
  /\ Conflicts.hasConflict (DateFns.mkInterval 46800000 50400000) sampleEvents = false.
Proof.
  assert (H1 : Suggestions.hourAndMinute "09:00" = (Some 9, Some 0)) by reflexivity.
  assert (H2 : Suggestions.hourAndMinute "18:00" = (Some 18, Some 0)) by reflexivity.
  assert (H3 : FreeSlotSpec.at_ 0 9 0 <= FreeSlotSpec.at_ 0 18 0)
    by (unfold FreeSlotSpec.at_; simpl; lia).
  assert (H4 : forall e, In e sampleEvents -> Event.isAllDay e = false -> wellFormed e).
  { intros e He _. simpl in He.
    repeat (destruct He as [<- | He]; [unfold wellFormed; simpl; lia|]).
    destruct He. }
  assert (H5 : 0 <= 60) by lia.
  assert (H6 : NextSlot.findNextAvailableSlot sampleEvents 60
                 (WorkingHours.mk "09:00" "18:00") 0
               = Some (FreeSlot.mk 46800000 50400000 60)) by reflexivity.
  refine (conj H1 (conj H2 (conj H3 (conj H4 (conj H5 (conj H6 _)))))).
  exact (proj1 (findNextAvailableSlot_free sampleEvents 60
                  (WorkingHours.mk "09:00" "18:00") 0 9 0 18 0 _ H1 H2 H3 H4 H5 H6)).
Defined.

(** X14.  [findNextAvailableSlot] looks at the day of [startFrom], not at
    its time: when no event that is not all-day meets the working window of
    that day, and the window is long enough, the answer starts at the start
    of the window of that day, also when [startFrom] is later in the day. *)
Theorem findNextAvailableSlot_start_of_window (events : list CalendarEvent)
  (duration : Z) (workingHours : WorkingHours.t) (startFrom : DateFns.Date)
  (startHour startMin endHour endMin : Z) :
  Suggestions.hourAndMinute (WorkingHours.start workingHours)
    = (Some startHour, Some startMin) ->
  Suggestions.hourAndMinute (WorkingHours.end_ workingHours)
    = (Some endHour, Some endMin) ->
  FreeSlotSpec.at_ 0 startHour startMin < FreeSlotSpec.at_ 0 endHour endMin ->
  duration * DateFns.millisecondsInMinute
    <= FreeSlotSpec.at_ 0 endHour endMin - FreeSlotSpec.at_ 0 startHour startMin ->
  (forall e, In e events ->
     Event.isAllDay e = true \/
     (wellFormed e /\
      (Event.end_ e < FreeSlotSpec.at_ (DateFns.startOfDay startFrom) startHour startMin \/
       FreeSlotSpec.at_ (DateFns.startOfDay startFrom) endHour endMin < Event.start e))) ->
  NextSlot.findNextAvailableSlot events duration workingHours startFrom
  = Some (FreeSlot.mk
            (FreeSlotSpec.at_ (DateFns.startOfDay startFrom) startHour startMin)
            (DateFns.addMinutes
               (FreeSlotSpec.at_ (DateFns.startOfDay startFrom) startHour startMin)
               duration)
            duration)
  /\ (FreeSlotSpec.at_ (DateFns.startOfDay startFrom) startHour startMin < startFrom ->
      exists s,
        NextSlot.findNextAvailableSlot events duration workingHours startFrom = Some s
        /\ FreeSlot.start s < startFrom).
Proof.
  intros Hs He Hw Hlen Hnone.
  assert (Hresult :
    NextSlot.findNextAvailableSlot events duration workingHours startFrom
    = Some (FreeSlot.mk
              (FreeSlotSpec.at_ (DateFns.startOfDay startFrom) startHour startMin)
              (DateFns.addMinutes
                 (FreeSlotSpec.at_ (DateFns.startOfDay startFrom) startHour startMin)
                 duration)
              duration)).
  { unfold NextSlot.findNextAvailableSlot. cbv zeta.
    rewrite FreeSlotUse.find_first.
    rewrite (FreeSlotClaims.findFreeSlots_freeSlots events startFrom
               (DateFns.addDays startFrom 14) workingHours
               startHour startMin endHour endMin duration Hs He).
    - unfold FreeSlotSpec.freeSlots.
      destruct (FreeSlotClear.days_first startFrom (DateFns.addDays startFrom 14))
        as (rest & ->); [unfold DateFns.addDays, DateFns.millisecondsInDay; lia|].
      cbn [flat_map]. rewrite FreeSlotClaims.daySlots_empty.
      + unfold FreeSlotSpec.gap.
        replace (_ && _) with true; [reflexivity|].
        symmetry. apply andb_true_iff. rewrite Z.ltb_lt, Z.leb_le.
        unfold FreeSlotSpec.at_ in *. lia.
      + intros e Hin. destruct (Hnone e Hin) as [H | (_ & H)]; tauto.
    - lia.
    - intros e Hin Hall. destruct (Hnone e Hin) as [H | (H & _)];
        [congruence | exact H]. }
  split; [exact Hresult|].
  intros Hlate. eexists. split; [exact Hresult | exact Hlate].
Qed.

Lemma findNextAvailableSlot_start_of_window_witness :
  Suggestions.hourAndMinute "09:00" = (Some 9, Some 0)
  /\ Suggestions.hourAndMinute "17:00" = (Some 17, Some 0)
  /\ FreeSlotSpec.at_ 0 9 0 < FreeSlotSpec.at_ 0 17 0
  /\ 60 * DateFns.millisecondsInMinute
     <= FreeSlotSpec.at_ 0 17 0 - FreeSlotSpec.at_ 0 9 0
  /\ NextSlot.findNextAvailableSlot [] 60 (WorkingHours.mk "09:00" "17:00")
       (15 * 3600000)
     = Some (FreeSlot.mk (9 * 3600000) (10 * 3600000) 60).
Proof.
  assert (H1 : Suggestions.hourAndMinute "09:00" = (Some 9, Some 0)) by reflexivity.
  assert (H2 : Suggestions.hourAndMinute "17:00" = (Some 17, Some 0)) by reflexivity.
  assert (H3 : FreeSlotSpec.at_ 0 9 0 < FreeSlotSpec.at_ 0 17 0)
    by (unfold FreeSlotSpec.at_; simpl; lia).
  assert (H4 : 60 * DateFns.millisecondsInMinute
               <= FreeSlotSpec.at_ 0 17 0 - FreeSlotSpec.at_ 0 9 0)
    by (unfold FreeSlotSpec.at_; simpl; lia).
  assert (H5 : forall e : CalendarEvent, In e [] ->
            Event.isAllDay e = true \/
            (wellFormed e /\
             (Event.end_ e < FreeSlotSpec.at_ (DateFns.startOfDay (15 * 3600000)) 9 0 \/
              FreeSlotSpec.at_ (DateFns.startOfDay (15 * 3600000)) 17 0 < Event.start e)))
    by (intros e []).
  refine (conj H1 (conj H2 (conj H3 (conj H4 _)))).
  exact (proj1 (findNextAvailableSlot_start_of_window [] 60
                  (WorkingHours.mk "09:00" "17:00") (15 * 3600000) 9 0 17 0
                  H1 H2 H3 H4 H5)).
Defined.

(** X15.  The suggestions that [suggestBestTimes] makes from the slots of
    [findFreeSlots] conflict with no event, by [hasConflict], when the
    desired duration is not negative (working hours and events as in
    X10). *)
Theorem suggestBestTimes_of_free_slots (events : list CalendarEvent)
  (startDate endDate : DateFns.Date) (workingHours : WorkingHours.t)
  (startHour startMin endHour endMin minDuration desiredDuration : Z)
  (habits : list HabitPattern) (category : option EventCategory) :
  Suggestions.hourAndMinute (WorkingHours.start workingHours)
    = (Some startHour, Some startMin) ->
  Suggestions.hourAndMinute (WorkingHours.end_ workingHours)
    = (Some endHour, Some endMin) ->
  FreeSlotSpec.at_ 0 startHour startMin <= FreeSlotSpec.at_ 0 endHour endMin ->
  (forall e, In e events -> Event.isAllDay e = false -> wellFormed e) ->
  0 <= desiredDuration ->
  Forall (fun suggestion =>
            Conflicts.hasConflict
              (DateFns.mkInterval (FreeSlot.start (TimeSuggestion.slot suggestion))
                                  (FreeSlot.end_ (TimeSuggestion.slot suggestion)))
              events = false)
         (Suggestions.suggestBestTimes
            (Suggestions.findFreeSlots events startDate endDate workingHours minDuration)
            desiredDuration habits category).
Proof.
  intros Hs He Hw Hev Hd. apply Forall_forall. intros suggestion Hin.
  unfold Suggestions.suggestBestTimes in Hin. cbv zeta in Hin.
  apply SortFacts.sort_In in Hin.
  rewrite SuggestFacts.suggest_fold in Hin. cbn [app] in Hin.
  apply in_map_iff in Hin. destruct Hin as (slot & <- & Hslot).
  apply filter_In in Hslot. destruct Hslot as (Hslot & Hlong).
  unfold longEnough in Hlong. apply negb_true_iff, Z.ltb_ge in Hlong.
  unfold suggestionFor. simpl.
  eapply FreeSlotUse.trimmed_free; eassumption.
Qed.

Lemma suggestBestTimes_of_free_slots_witness :
  Suggestions.hourAndMinute "09:00" = (Some 9, Some 0)
  /\ Suggestions.hourAndMinute "18:00" = (Some 18, Some 0)
  /\ FreeSlotSpec.at_ 0 9 0 <= FreeSlotSpec.at_ 0 18 0
  /\ (forall e, In e sampleEvents -> Event.isAllDay e = false -> wellFormed e)
  /\ 0 <= 60
  /\ Forall (fun suggestion =>
               Conflicts.hasConflict
                 (DateFns.mkInterval (FreeSlot.start (TimeSuggestion.slot suggestion))
                                     (FreeSlot.end_ (TimeSuggestion.slot suggestion)))
                 sampleEvents = false)
            (Suggestions.suggestBestTimes
               (Suggestions.findFreeSlots sampleEvents 0 0
                  (WorkingHours.mk "09:00" "18:00") 30)
               60 sampleTable (Some work)).
Proof.
  assert (H1 : Suggestions.hourAndMinute "09:00" = (Some 9, Some 0)) by reflexivity.
  assert (H2 : Suggestions.hourAndMinute "18:00" = (Some 18, Some 0)) by reflexivity.
  assert (H3 : FreeSlotSpec.at_ 0 9 0 <= FreeSlotSpec.at_ 0 18 0)
    by (unfold FreeSlotSpec.at_; simpl; lia).
  assert (H4 : forall e, In e sampleEvents -> Event.isAllDay e = false -> wellFormed e).
  { intros e He _. simpl in He.
    repeat (destruct He as [<- | He]; [unfold wellFormed; simpl; lia|]).
    destruct He. }
  assert (H5 : 0 <= 60) by lia.
  refine (conj H1 (conj H2 (conj H3 (conj H4 (conj H5 _))))).
  exact (suggestBestTimes_of_free_slots sampleEvents 0 0
           (WorkingHours.mk "09:00" "18:00") 9 0 18 0 30 60 sampleTable (Some work)
           H1 H2 H3 H4 H5).
Defined.

(* ===================================================================== *)
(** ** More about the suggestions *)

Module SuggestMore.
Import Js Suggestions DateFns.

Section Stable.
Context {A : Type}.
Variable compareFn : A -> A -> Z.
Variable key : A -> Z.
Hypothesis compare_key : forall a b, compareFn a b = key a - key b.
Variable v : Z.



End Stable.




End SuggestMore.



(* ===================================================================== *)
(** ** More about the habits *)

Module HabitMore.
Import Js Habits DateFns HabitFacts HabitRun.

Lemma find_replace {A : Type} (p : A -> bool) (l1 l2 : list A) (x y : A) :
  p x = false -> p y = false -> find p (l1 ++ x :: l2) = find p (l1 ++ y :: l2).
Proof.
  intros Hx Hy. induction l1 as [|a l1 IH]; simpl.
  - now rewrite Hx, Hy.
  - now rewrite IH.
Qed.

Lemma find_snoc {A : Type} (p : A -> bool) (l : list A) (x : A) :
  p x = false -> find p (l ++ [x]) = find p l.
Proof.
  intros Hx. induction l as [|a l IH]; simpl.
  - now rewrite Hx.
  - now rewrite IH.
Qed.

Lemma find_snoc_new {A : Type} (p : A -> bool) (l : list A) (x : A) :
  find p l = None -> p x = true -> find p (l ++ [x]) = Some x.
Proof.
  intros Hl Hx. induction l as [|a l IH]; simpl in *.
  - now rewrite Hx.
  - destruct (p a); [discriminate | now apply IH].
Qed.

(** The two ways in which a call on a table with unique keys ends well. *)
Lemma learn_cases (env : Env) (event : CalendarEvent) (db db' : Table)
  (r : option HabitPattern) :
  tableOk db ->
  learnFromEvent env event db = Ok (r, db') ->
  (exists habit l1 l2,
      getHabitByCategory db (categoryOf event) = Some habit /\
      db = l1 ++ habit :: l2 /\
      r = Some (learned env event habit) /\
      db' = l1 ++ learned env event habit :: l2)
  \/ (getHabitByCategory db (categoryOf event) = None /\
      table_get db (generatedId env) = None /\
      r = Some (created env event) /\
      db' = db ++ [created env event]).
Proof.
  intros Hok Hlearn.
  destruct (getHabitByCategory db (categoryOf event)) as [habit|] eqn:Hget.
  - left. rewrite (learn_update env event db habit Hok Hget) in Hlearn.
    injection Hlearn as <- <-.
    destruct (byCategory_In _ _ _ Hget) as (Hin & _).
    destruct (table_put_replace db habit (learned env event habit) Hok Hin eq_refl)
      as (l1 & l2 & Hdb & Hput).
    exists habit, l1, l2. auto.
  - right. destruct (table_get db (generatedId env)) as [h|] eqn:Hfresh.
    + rewrite (learn_create_clash env event db h Hget Hfresh) in Hlearn.
      discriminate.
    + rewrite (learn_create env event db Hget Hfresh) in Hlearn.
      injection Hlearn as <- <-. auto.
Qed.

(** The pattern of the category of the event, after the call. *)
Lemma learn_stored (env : Env) (event : CalendarEvent) (db db' : Table)
  (r : option HabitPattern) :
  tableOk db ->
  learnFromEvent env event db = Ok (r, db') ->
  exists h, r = Some h /\ getHabitByCategory db' (categoryOf event) = Some h.
Proof.
  intros Hok Hlearn.
  destruct (learn_cases env event db db' r Hok Hlearn)
    as [(habit & l1 & l2 & Hget & Hdb & -> & ->) | (Hget & _ & -> & ->)].
  - eexists. split; [reflexivity|]. subst db.
    apply (byCategory_replace l1 l2 habit); auto.
    simpl. apply (byCategory_In _ _ _ Hget).
  - eexists. split; [reflexivity|].
    apply find_snoc_new; [exact Hget | apply eqb_same].
Qed.

Lemma findIndex_Some {A : Type} (p : A -> bool) (l : list A) (i : nat) :
  findIndex p l = Some i -> exists x, nth_error l i = Some x /\ p x = true.
Proof.
  revert i. induction l as [|a l IH]; intros i; simpl; [discriminate|].
  destruct (p a) eqn:Ha.
  - intros [= <-]. exists a. auto.
  - destruct (findIndex p l) as [j|]; [|discriminate].
    intros [= <-]. simpl. now apply IH.
Qed.

Lemma setAt_In {A : Type} (i : nat) (v x : A) (l : list A) :
  nth_error l i = Some x -> In v (setAt i v l).
Proof.
  revert i. induction l as [|a l IH]; intros [|i]; simpl; try discriminate.
  - intros _. now left.
  - intros H. right. now apply (IH i).
Qed.

Lemma sliceLast_In_last {A : Type} (n : nat) (l : list A) (x : A) :
  (1 <= n)%nat -> In x (sliceLast n (l ++ [x])).
Proof.
  intros Hn. unfold sliceLast. rewrite length_app. simpl.
  rewrite skipn_app. apply in_app_iff. right.
  replace (length l + 1 - n - length l)%nat with O by lia. now left.
Qed.

(** After the update some preferred time is at the weekday of the new slot
    and within one hour of it. *)
Lemma updatePreferredTimes_near (existing : list TimeSlot) (newSlot : TimeSlot) :
  exists t, In t (updatePreferredTimes existing newSlot) /\
            TimeSlot.dayOfWeek t = TimeSlot.dayOfWeek newSlot /\
            Z.abs (TimeSlot.hour t - TimeSlot.hour newSlot) <= 1.
Proof.
  unfold updatePreferredTimes.
  destruct (findIndex (similarTo newSlot) existing) as [i|] eqn:Hfind.
  - apply findIndex_Some in Hfind. destruct Hfind as (similar & Hnth & Hsim).
    rewrite Hnth. cbv zeta. eexists. split; [eapply setAt_In; exact Hnth|].
    unfold similarTo in Hsim. apply andb_true_iff in Hsim.
    destruct Hsim as (Hday & Hhour). apply Z.leb_le in Hhour. simpl. split.
    + destruct (TimeSlot.dayOfWeek similar) as [d|],
               (TimeSlot.dayOfWeek newSlot) as [d'|]; try discriminate;
        [apply Z.eqb_eq in Hday; now subst | reflexivity].
    + assert (H := roundDiv_spec
                     (TimeSlot.hour similar + TimeSlot.hour newSlot) 2 ltac:(lia)).
      lia.
  - exists newSlot. split; [apply sliceLast_In_last; lia|].
    split; [reflexivity|]. rewrite Z.sub_diag. simpl. lia.
Qed.

End HabitMore.

(** X18.  [learnFromEvent] fails, with the error of the table, exactly when
    the event is of a category without a pattern and the generated id is
    the key of a pattern already; when it succeeds it answers a pattern,
    never [undefined]. *)
Theorem learnFromEvent_outcome (env : Habits.Env) (event : CalendarEvent)
  (db : Habits.Table) :
  (Habits.learnFromEvent env event db = Habits.ConstraintError <->
   Habits.getHabitByCategory db (Habits.categoryOf event) = None /\
   Habits.table_get db (Habits.generatedId env) <> None)
  /\ (forall db', Habits.learnFromEvent env event db <> Habits.Ok (None, db')).
Proof.
  unfold Habits.learnFromEvent. cbv zeta.
  destruct (Habits.getHabitByCategory db (Habits.categoryOf event))
    as [habit|] eqn:Hget.
  - split.
    + split; [discriminate | intros (H & _); discriminate].
    + intros db'. unfold Habits.updateHabit.
      destruct (Habits.table_get db (HabitPattern.id habit)) as [row|] eqn:Hrow;
        [discriminate|].
      exfalso. apply HabitFacts.table_get_None in Hrow. apply Hrow.
      apply in_map. apply (HabitFacts.byCategory_In _ _ _ Hget).
  - unfold Habits.createHabit, Habits.table_add. cbn [HabitPattern.id].
    destruct (Habits.table_get db (Habits.generatedId env)) as [row|] eqn:Hrow.
    + split; [|discriminate]. split; [split; [reflexivity | discriminate] | reflexivity].
    + split; [|discriminate]. split; [discriminate | intros (_ & H); congruence].
Qed.

(** X19.  On a table with unique keys, a call of [learnFromEvent] that
    succeeds leaves the keys unique, leaves the patterns of the other
    categories as they are, and adds a row exactly when the category of
    the event had no pattern. *)
Theorem learnFromEvent_other_categories (env : Habits.Env) (event : CalendarEvent)
  (db db' : Habits.Table) (r : option HabitPattern) :
  tableOk db ->
  Habits.learnFromEvent env event db = Habits.Ok (r, db') ->
  tableOk db'
  /\ (forall c, c <> Habits.categoryOf event ->
        Habits.getHabitByCategory db' c = Habits.getHabitByCategory db c)
  /\ (forall h, In h db -> HabitPattern.category h <> Habits.categoryOf event ->
        In h db')
  /\ length db'
     = match Habits.getHabitByCategory db (Habits.categoryOf event) with
       | Some _ => length db
       | None => S (length db)
       end.
Proof.
  intros Hok Hlearn.
  destruct (HabitMore.learn_cases env event db db' r Hok Hlearn)
    as [(habit & l1 & l2 & Hget & Hdb & -> & ->) | (Hget & Hfresh & -> & ->)];
    rewrite Hget.
  - destruct (HabitFacts.byCategory_In _ _ _ Hget) as (_ & Hcat). subst db.
    split; [|split; [|split]].
    + unfold tableOk in *. rewrite map_app in *. exact Hok.
    + intros c Hc. unfold Habits.getHabitByCategory.
      apply HabitMore.find_replace; simpl;
        apply HabitRun.eqb_other; congruence.
    + intros h Hh Hne. apply in_app_iff in Hh. apply in_app_iff.
      destruct Hh as [Hh | [<- | Hh]]; [tauto | congruence | right; now right].
    + rewrite !length_app. reflexivity.
  - split; [|split; [|split]].
    + unfold tableOk in *. rewrite map_app. simpl.
      apply HabitFacts.table_get_None in Hfresh.
      apply NoDup_app; [assumption | repeat constructor; intros [] |].
      intros a Ha [<- | []]. contradiction.
    + intros c Hc. unfold Habits.getHabitByCategory.
      apply HabitMore.find_snoc. simpl. apply HabitRun.eqb_other. congruence.
    + intros h Hh _. apply in_app_iff. now left.
    + rewrite length_app. simpl. lia.
Qed.

Lemma learnFromEvent_other_categories_witness :
  tableOk sampleTable
  /\ Habits.learnFromEvent (Habits.mkEnv 5 "k") (meeting "m" 0 60000) sampleTable
     = Habits.Ok (Some (created (Habits.mkEnv 5 "k") (meeting "m" 0 60000)),
                  sampleTable ++ [created (Habits.mkEnv 5 "k") (meeting "m" 0 60000)])
  /\ tableOk (sampleTable ++ [created (Habits.mkEnv 5 "k") (meeting "m" 0 60000)]).
Proof.
  assert (H1 : tableOk sampleTable).
  { unfold tableOk. simpl. repeat constructor. intros []. }
  assert (H2 : Habits.learnFromEvent (Habits.mkEnv 5 "k") (meeting "m" 0 60000)
                 sampleTable
               = Habits.Ok (Some (created (Habits.mkEnv 5 "k") (meeting "m" 0 60000)),
                            sampleTable
                            ++ [created (Habits.mkEnv 5 "k") (meeting "m" 0 60000)]))
    by reflexivity.
  exact (conj H1 (conj H2
           (proj1 (learnFromEvent_other_categories _ _ _ _ _ H1 H2)))).
Defined.

(** X20.  On a table with unique keys, after [learnFromEvent] has learned
    an event, the pattern of its category has a preferred time at the
    weekday of the event and within one hour of its start, and
    [getSuggestedTimeForCategory] answers, for the start of the event, a
    time slot of that weekday. *)
Theorem learnFromEvent_then_suggested (env : Habits.Env) (event : CalendarEvent)
  (db db' : Habits.Table) (r : option HabitPattern) :
  tableOk db ->
  Habits.learnFromEvent env event db = Habits.Ok (r, db') ->
  exists h,
    r = Some h /\
    Habits.getHabitByCategory db' (Habits.categoryOf event) = Some h /\
    (exists t, In t (HabitPattern.preferredTimes h) /\
               TimeSlot.dayOfWeek t = Some (DateFns.getDay (Event.start event)) /\
               Z.abs (TimeSlot.hour t - DateFns.getHours (Event.start event)) <= 1) /\
    (exists t, Habits.getSuggestedTimeForCategory db' (Habits.categoryOf event)
                 (Event.start event) = Some t /\
               In t (HabitPattern.preferredTimes h) /\
               TimeSlot.dayOfWeek t = Some (DateFns.getDay (Event.start event))).
Proof.
  intros Hok Hlearn.
  destruct (HabitMore.learn_stored env event db db' r Hok Hlearn) as (h & -> & Hget).
  exists h. split; [reflexivity|]. split; [exact Hget|].
  assert (Hnear : exists t, In t (HabitPattern.preferredTimes h) /\
             TimeSlot.dayOfWeek t = Some (DateFns.getDay (Event.start event)) /\
             Z.abs (TimeSlot.hour t - DateFns.getHours (Event.start event)) <= 1).
  { destruct (HabitMore.learn_cases env event db db' _ Hok Hlearn)
      as [(habit & l1 & l2 & _ & _ & Hr & _) | (_ & _ & Hr & _)];
      injection Hr as ->.
    - apply (HabitMore.updatePreferredTimes_near
               (HabitPattern.preferredTimes habit)
               (TimeSlot.mk (Some (DateFns.getDay (Event.start event)))
                            (DateFns.getHours (Event.start event))
                            (DateFns.getMinutes (Event.start event)))).
    - eexists. split; [now left|]. simpl. rewrite Z.sub_diag. simpl.
      split; [reflexivity | lia]. }
  split; [exact Hnear|].
  destruct Hnear as (t & Ht & Hday & _).
  unfold Habits.getSuggestedTimeForCategory. rewrite Hget.
  destruct (HabitPattern.preferredTimes h) as [|first rest] eqn:Htimes;
    [destruct Ht|].
  cbv zeta.
  destruct (find (fun slot => Suggestions.sameDay (TimeSlot.dayOfWeek slot)
                                (DateFns.getDay (Event.start event)))
                 (first :: rest)) as [matchingSlot|] eqn:Hfind.
  - exists matchingSlot. apply find_some in Hfind. destruct Hfind as (Hin & Hsame).
    split; [reflexivity|]. split; [exact Hin|].
    unfold Suggestions.sameDay in Hsame.
    destruct (TimeSlot.dayOfWeek matchingSlot) as [d|]; [|discriminate].
    apply Z.eqb_eq in Hsame. now subst.
  - exfalso. apply (find_none _ _ Hfind) in Ht.
    rewrite Hday in Ht. simpl in Ht. now rewrite Z.eqb_refl in Ht.
Qed.

Lemma learnFromEvent_then_suggested_witness :
  tableOk sampleTable
  /\ Habits.learnFromEvent (Habits.mkEnv 5 "k") (meeting "m" 0 60000) sampleTable
     = Habits.Ok (Some (created (Habits.mkEnv 5 "k") (meeting "m" 0 60000)),
                  sampleTable ++ [created (Habits.mkEnv 5 "k") (meeting "m" 0 60000)])
  /\ exists h,
       Some (created (Habits.mkEnv 5 "k") (meeting "m" 0 60000)) = Some h /\
       Habits.getHabitByCategory
         (sampleTable ++ [created (Habits.mkEnv 5 "k") (meeting "m" 0 60000)])
         (Habits.categoryOf (meeting "m" 0 60000)) = Some h.
Proof.
  assert (H1 : tableOk sampleTable).
  { unfold tableOk. simpl. repeat constructor. intros []. }
  assert (H2 : Habits.learnFromEvent (Habits.mkEnv 5 "k") (meeting "m" 0 60000)
                 sampleTable
               = Habits.Ok (Some (created (Habits.mkEnv 5 "k") (meeting "m" 0 60000)),
                            sampleTable
                            ++ [created (Habits.mkEnv 5 "k") (meeting "m" 0 60000)]))
    by reflexivity.
  refine (conj H1 (conj H2 _)).
  destruct (learnFromEvent_then_suggested _ _ _ _ _ H1 H2) as (h & Hr & Hget & _).
  exists h. exact (conj Hr Hget).
Defined.

Module HabitRows.
Import Js Habits DateFns HabitFacts HabitRun HabitMore.

(** What the creations and the updates keep holds of every pattern after a
    run. *)
Lemma learnAll_rows (P : HabitPattern -> Prop) (Q : CalendarEvent -> Prop) :
  (forall env event, Q event -> P (created env event)) ->
  (forall env event h, Q event -> P h -> P (learned env event h)) ->
  forall rest prefix db db',
    runInv prefix db ->
    (forall h, In h db -> P h) ->
    (forall call, In call rest -> Q (snd call)) ->
    learnAll rest db = Ok db' ->
    forall h, In h db' -> P h.
Proof.
  intros Hcreated Hlearned.
  induction rest as [|[env event] rest IH]; intros prefix db db' Hinv HP HQ Hrun;
    simpl in Hrun.
  - injection Hrun as <-. exact HP.
  - destruct (learnFromEvent env event db) as [[r db1]|] eqn:Hlearn; [|discriminate].
    assert (Hev : Q event) by (apply (HQ (env, event)); now left).
    apply (IH (prefix ++ [(env, event)]) db1 db').
    + eapply learn_step; eassumption.
    + destruct (learn_cases env event db db1 r (proj1 Hinv) Hlearn)
        as [(habit & l1 & l2 & _ & Hdb & _ & ->) | (_ & _ & _ & ->)].
      * subst db. intros h Hh. apply in_app_iff in Hh.
        destruct Hh as [Hh | [<- | Hh]].
        -- apply HP, in_app_iff. now left.
        -- apply Hlearned; [exact Hev|]. apply HP, in_elt.
        -- apply HP, in_app_iff. right. now right.
      * intros h Hh. apply in_app_iff in Hh.
        destruct Hh as [Hh | [<- | []]]; [now apply HP | now apply Hcreated].
    + intros call Hc. apply HQ. now right.
    + exact Hrun.
Qed.

Lemma categories_length (l : list EventCategory) : NoDup l -> (length l <= 6)%nat.
Proof.
  intros Hnd.
  apply (NoDup_incl_length (l' := [work; personal; health; social; learning; other]) Hnd).
  intros c _. destruct c; simpl; tauto.
Qed.

(** The weighted mean of two numbers of a range, rounded, is in the range. *)
Lemma roundDiv_between (avg count duration lo hi : Z) :
  1 <= count -> lo <= avg <= hi -> lo <= duration <= hi ->
  lo <= roundDiv (avg * count + duration) (count + 1) <= hi.
Proof.
  intros Hc Ha Hd.
  assert (H := roundDiv_spec (avg * count + duration) (count + 1) ltac:(lia)).
  split; nia.
Qed.




Lemma find_filter {A : Type} (p q : A -> bool) (l : list A) :
  (forall x, p x = true -> q x = true) -> find p (filter q l) = find p l.
Proof.
  intros Hpq. induction l as [|a l IH]; simpl; [reflexivity|].
  destruct (q a) eqn:Hq; simpl.
  - now rewrite IH.
  - destruct (p a) eqn:Hp; [|exact IH].
    rewrite (Hpq a Hp) in Hq. discriminate.
Qed.

Lemma find_filter_none {A : Type} (p : A -> bool) (l : list A) :
  find p (filter (fun x => negb (p x)) l) = None.
Proof.
  induction l as [|a l IH]; simpl; [reflexivity|].
  destruct (p a) eqn:Hp; simpl; [exact IH | now rewrite Hp].
Qed.

End HabitRows.

(** X21.  After any run of [learnFromEvent] from an empty table there is
    one pattern for each category that has been learned, and none for the
    others, so six patterns at most; each pattern counts the events
    learned of its category, has from one to five preferred times, and
    keeps the frequency weekly, whatever the dates of the events are. *)
Theorem learnAll_patterns (calls : list (Habits.Env * CalendarEvent))
  (db : Habits.Table) :
  Habits.learnAll calls [] = Habits.Ok db ->
  NoDup (map HabitPattern.category db)
  /\ (length db <= 6)%nat
  /\ (forall c, Habits.getHabitByCategory db c = None <-> occurrencesOf c calls = [])
  /\ (forall h, In h db ->
        HabitPattern.eventCount h
          = Z.of_nat (length (occurrencesOf (HabitPattern.category h) calls)) /\
        1 <= HabitPattern.eventCount h /\
        HabitPattern.frequency h = weekly /\
        (1 <= length (HabitPattern.preferredTimes h) <= 5)%nat).
Proof.
  intros Hrun.
  assert (Hinv := HabitRun.learnAll_inv calls [] [] db HabitRun.runInv_empty Hrun).
  simpl in Hinv. destruct Hinv as (_ & Hcats & Hrows & Hcalls & _).
  assert (Hkept : forall h, In h db ->
            1 <= HabitPattern.eventCount h /\ HabitPattern.frequency h = weekly /\
            (1 <= length (HabitPattern.preferredTimes h))%nat).
  { apply (HabitRows.learnAll_rows
             (fun h => 1 <= HabitPattern.eventCount h /\
                       HabitPattern.frequency h = weekly /\
                       (1 <= length (HabitPattern.preferredTimes h))%nat)
             (fun _ => True)) with (rest := calls) (prefix := []) (db := []);
      auto using HabitRun.runInv_empty.
    - intros env event _. simpl. repeat split; lia.
    - intros env event h _ (H1 & H2 & H3). simpl. repeat split; [lia | exact H2|].
      destruct (HabitMore.updatePreferredTimes_near
                  (HabitPattern.preferredTimes h)
                  (TimeSlot.mk (Some (DateFns.getDay (Event.start event)))
                               (DateFns.getHours (Event.start event))
                               (DateFns.getMinutes (Event.start event))))
        as (t & Ht & _).
      destruct (Habits.updatePreferredTimes _ _); [destruct Ht | simpl; lia].
    - intros h []. }
  split; [exact Hcats|]. split; [|split].
  - rewrite <- (length_map HabitPattern.category).
    now apply HabitRows.categories_length.
  - intros c. split.
    + intros Hnone. apply HabitFacts.byCategory_None in Hnone.
      apply HabitRun.occurrencesOf_none. intros call Hc Heq.
      apply Hnone. rewrite <- Heq. now apply Hcalls.
    + intros Hocc.
      destruct (Habits.getHabitByCategory db c) as [h|] eqn:Hget; [exfalso | reflexivity].
      destruct (HabitFacts.byCategory_In _ _ _ Hget) as (Hin & Hcat).
      destruct (Hrows h Hin) as (_ & Hcount & _).
      destruct (Hkept h Hin) as (Hone & _).
      rewrite Hcat, Hocc in Hcount. simpl in Hcount. lia.
  - intros h Hh. destruct (Hrows h Hh) as (_ & Hcount & Hfive).
    destruct (Hkept h Hh) as (Hone & Hfreq & Htimes). repeat split; auto.
Qed.

Lemma learnAll_patterns_witness :
  exists db, Habits.learnAll sampleCalls [] = Habits.Ok db
             /\ NoDup (map HabitPattern.category db).
Proof.
  refine (ex_intro _ _ (conj eq_refl (proj1 (learnAll_patterns sampleCalls _ eq_refl)))).
Defined.

(** X22.  When the durations in whole minutes of the events learned, from
    an empty table, all lie between two bounds, so does the average
    duration of every pattern; events that end after they start give no
    negative average. *)
Theorem learnAll_average_between (calls : list (Habits.Env * CalendarEvent))
  (db : Habits.Table) (lo hi : Z) :
  (forall call, In call calls ->
     lo <= DateFns.differenceInMinutes (Event.end_ (snd call)) (Event.start (snd call))
        <= hi) ->
  Habits.learnAll calls [] = Habits.Ok db ->
  forall h, In h db -> lo <= HabitPattern.avgDuration h <= hi.
Proof.
  intros Hdur Hrun h Hh.
  apply (HabitRows.learnAll_rows
           (fun h => 1 <= HabitPattern.eventCount h /\
                     lo <= HabitPattern.avgDuration h <= hi)
           (fun event =>
              lo <= DateFns.differenceInMinutes (Event.end_ event) (Event.start event)
                 <= hi))
    with (rest := calls) (prefix := []) (db := []) (db' := db);
    auto using HabitRun.runInv_empty.
  - intros env event Hev. simpl. split; [lia | exact Hev].
  - intros env event h0 Hev (Hcount & Havg). simpl. split; [lia|].
    now apply HabitRows.roundDiv_between.
  - intros h0 [].
Qed.

Lemma learnAll_average_between_witness :
  (forall call, In call sampleCalls ->
     30 <= DateFns.differenceInMinutes (Event.end_ (snd call)) (Event.start (snd call))
        <= 60)
  /\ exists db, Habits.learnAll sampleCalls [] = Habits.Ok db
                /\ forall h, In h db -> 30 <= HabitPattern.avgDuration h <= 60.
Proof.
  assert (H1 : forall call, In call sampleCalls ->
            30 <= DateFns.differenceInMinutes (Event.end_ (snd call))
                    (Event.start (snd call)) <= 60).
  { intros call Hc. simpl in Hc.
    repeat (destruct Hc as [<- | Hc]; [vm_compute; split; discriminate|]).
    destruct Hc. }
  refine (conj H1 (ex_intro _ _ (conj eq_refl
            (learnAll_average_between sampleCalls _ 30 60 H1 eq_refl)))).
Defined.



(** X24.  [deleteHabit] answers false and leaves the table as it is when
    no pattern has the key; otherwise it answers true.  After it no pattern
    has the key, and the patterns under the other keys are those of
    before. *)
Theorem deleteHabit_spec (id : string) (db : Habits.Table) :
  (fst (HabitStore.deleteHabit id db) = true <-> Habits.getHabit db id <> None)
  /\ (fst (HabitStore.deleteHabit id db) = false -> snd (HabitStore.deleteHabit id db) = db)
  /\ Habits.getHabit (snd (HabitStore.deleteHabit id db)) id = None
  /\ (forall id', id' <> id ->
        Habits.getHabit (snd (HabitStore.deleteHabit id db)) id' = Habits.getHabit db id')
  /\ (forall h, In h (snd (HabitStore.deleteHabit id db)) <->
                In h db /\ HabitPattern.id h <> id).
Proof.
  unfold HabitStore.deleteHabit, Habits.getHabit.
  destruct (Habits.table_get db id) as [row|] eqn:Hrow; cbn [fst snd].
  - split; [split; [discriminate | reflexivity]|].
    split; [discriminate|]. split; [|split].
    + unfold Habits.table_get, HabitStore.table_delete.
      apply (HabitRows.find_filter_none (fun h => String.eqb (HabitPattern.id h) id)).
    + intros id' Hne. unfold Habits.table_get, HabitStore.table_delete.
      apply HabitRows.find_filter. intros x Hx. apply String.eqb_eq in Hx.
      apply negb_true_iff, String.eqb_neq. congruence.
    + intros h. unfold HabitStore.table_delete.
      rewrite filter_In, negb_true_iff, String.eqb_neq. reflexivity.
  - split; [split; [discriminate | congruence]|].
    split; [reflexivity|]. split; [exact Hrow|]. split; [reflexivity|].
    intros h. split; [|tauto]. intros Hh. split; [exact Hh|].
    intros Heq. apply HabitFacts.table_get_None in Hrow. apply Hrow.
    rewrite <- Heq. now apply in_map.
Qed.

(* ===================================================================== *)
(** ** The insights of the hook *)

Module InsightFacts.
Import Insights.

Section Unique.
Context {A : Type}.
Variable eqb : A -> A -> bool.
Hypothesis eqb_eq : forall x y, eqb x y = true <-> x = y.

Lemma indexOf_first (pre rest : list A) (x : A) :
  ~ In x pre -> indexOf eqb (pre ++ x :: rest) x = Some (length pre).
Proof.
  induction pre as [|a pre IH]; intros Hx; simpl.
  - replace (eqb x x) with true; [reflexivity|]. symmetry. now apply eqb_eq.
  - destruct (eqb a x) eqn:Ha.
    + apply eqb_eq in Ha. subst. exfalso. apply Hx. now left.
    + rewrite IH; [reflexivity|]. intros H. apply Hx. now right.
Qed.

Lemma indexOf_before (pre rest : list A) (x : A) :
  In x pre -> exists j, (j < length pre)%nat /\ indexOf eqb (pre ++ rest) x = Some j.
Proof.
  induction pre as [|a pre IH]; intros Hx; [destruct Hx|]. simpl.
  destruct (eqb a x) eqn:Ha.
  - exists O. split; [lia | reflexivity].
  - destruct Hx as [-> | Hx].
    + assert (H : eqb x x = true) by now apply eqb_eq. congruence.
    + destruct (IH Hx) as (j & Hj & ->). exists (S j). split; [lia | reflexivity].
Qed.

Lemma In_dec_eqb (x : A) (l : list A) : In x l \/ ~ In x l.
Proof.
  induction l as [|a l IH]; [now right|].
  destruct (eqb a x) eqn:Ha.
  - apply eqb_eq in Ha. left. now left.
  - destruct IH as [IH | IH]; [left; now right|].
    right. intros [-> | H]; [|contradiction].
    assert (H : eqb x x = true) by now apply eqb_eq. congruence.
Qed.

(** The elements kept from the position [length pre] on are the first
    occurrences of those that are not before. *)
Lemma unique_from (a : list A) :
  forall l pre,
    a = pre ++ l ->
    NoDup (map snd (filter (fun iv => isIndex (indexOf eqb a (snd iv)) (fst iv))
                           (combine (seq (length pre) (length l)) l)))
    /\ forall x,
         In x (map snd (filter (fun iv => isIndex (indexOf eqb a (snd iv)) (fst iv))
                               (combine (seq (length pre) (length l)) l)))
         <-> In x l /\ ~ In x pre.
Proof.
  induction l as [|y l IH]; intros pre Ha.
  - simpl. split; [constructor | tauto].
  - destruct (IH (pre ++ [y])) as (Hnd & Hin);
      [rewrite <- app_assoc; exact Ha|].
    rewrite length_app, Nat.add_1_r in Hnd, Hin.
    cbn [length seq combine filter fst snd].
    destruct (In_dec_eqb y pre) as [Hy | Hy].
    + destruct (indexOf_before pre (y :: l) y Hy) as (j & Hj & Hidx).
      rewrite <- Ha in Hidx. rewrite Hidx. simpl.
      replace (j =? length pre)%nat with false
        by (symmetry; apply Nat.eqb_neq; lia).
      split; [exact Hnd|]. intros x. rewrite Hin, in_app_iff. simpl.
      split; [tauto|]. intros ([<- | Hx] & Hpre); [contradiction|].
      split; [exact Hx|]. intros [H | [<- | []]]; contradiction.
    + assert (Hidx : indexOf eqb a y = Some (length pre))
        by (rewrite Ha; now apply indexOf_first).
      rewrite Hidx. simpl. rewrite Nat.eqb_refl. simpl. split.
      * constructor; [|exact Hnd]. rewrite Hin, in_app_iff. simpl. tauto.
      * intros x. rewrite Hin, in_app_iff. simpl. split.
        -- intros [<- | (Hx & Hpre)]; tauto.
        -- intros ([<- | Hx] & Hpre); [now left|].
           destruct (eqb y x) eqn:Hyx.
           ++ apply eqb_eq in Hyx. now left.
           ++ right. split; [exact Hx|]. intros [H | [<- | []]]; [contradiction|].
              assert (H : eqb y y = true) by now apply eqb_eq. congruence.
Qed.

(** [unique] keeps every element once. *)
Lemma unique_spec (a : list A) :
  NoDup (unique eqb a) /\ forall x, In x (unique eqb a) <-> In x a.
Proof.
  destruct (unique_from a a [] eq_refl) as (Hnd & Hin). simpl in Hnd, Hin.
  split; [exact Hnd|]. intros x. unfold unique. rewrite Hin. tauto.
Qed.

Lemma unique_length (a : list A) : (length (unique eqb a) <= length a)%nat.
Proof.
  unfold unique. rewrite length_map.
  eapply Nat.le_trans; [apply filter_length_le|].
  rewrite length_combine, length_seq. lia.
Qed.

End Unique.

Lemma optionStringEqb_eq (x y : option string) : optionStringEqb x y = true <-> x = y.
Proof.
  destruct x as [x|], y as [y|]; simpl; try (split; congruence).
  rewrite String.eqb_eq. split; congruence.
Qed.

End InsightFacts.

(** X25.  [getHabitInsights] lists every preferred day and every
    preferred hour of the pattern of the category once, and answers the
    average duration that the pattern stores; so its answer differs from
    that of [getAvgDurationForCategory] exactly for a pattern with the
    average 0, where the one says 0 and the other 60. *)
Theorem getHabitInsights_spec (habits : list HabitPattern) (category : EventCategory) :
  NoDup (Insights.preferredDays (Insights.getHabitInsights habits category))
  /\ NoDup (Insights.preferredHours (Insights.getHabitInsights habits category))
  /\ (forall habit,
        Habits.getHabitByCategory habits category = Some habit ->
        (forall label,
            In label (Insights.preferredHours (Insights.getHabitInsights habits category))
            <-> exists t, In t (HabitPattern.preferredTimes habit) /\
                          label = Insights.hourLabel (TimeSlot.hour t)) /\
        (forall day,
            In day (Insights.preferredDays (Insights.getHabitInsights habits category))
            <-> exists t d, In t (HabitPattern.preferredTimes habit) /\
                            TimeSlot.dayOfWeek t = Some d /\
                            day = Insights.dayName d) /\
        (length (Insights.preferredHours (Insights.getHabitInsights habits category))
         <= length (HabitPattern.preferredTimes habit))%nat /\
        Insights.avgDuration (Insights.getHabitInsights habits category)
        = HabitPattern.avgDuration habit)
  /\ (Habits.getAvgDurationForCategory habits category
      = Insights.avgDuration (Insights.getHabitInsights habits category)
      <-> ~ exists habit, Habits.getHabitByCategory habits category = Some habit /\
                          HabitPattern.avgDuration habit = 0).
Proof.
  unfold Insights.getHabitInsights, Habits.getAvgDurationForCategory,
    Habits.getHabitByCategory.
  destruct (find (fun h => EventCategory_eqb (HabitPattern.category h) category) habits)
    as [habit|]; cbn [Insights.preferredDays Insights.preferredHours Insights.avgDuration].
  - split; [apply (InsightFacts.unique_spec _ InsightFacts.optionStringEqb_eq)|].
    split; [apply (InsightFacts.unique_spec _ String.eqb_eq)|].
    split.
    + intros h [= <-]. split; [|split; [|split; [|reflexivity]]].
      * intros label.
        rewrite (proj2 (InsightFacts.unique_spec _ String.eqb_eq _)), in_map_iff.
        split; intros (t & H1 & H2); exists t; auto.
      * intros day.
        rewrite (proj2 (InsightFacts.unique_spec _ InsightFacts.optionStringEqb_eq _)),
          in_map_iff.
        split.
        -- intros (t & H1 & H2). apply filter_In in H2. destruct H2 as (H2 & H3).
           unfold Insights.definedDay in H3. unfold Insights.dayOf in H1.
           destruct (TimeSlot.dayOfWeek t) as [d|] eqn:Hd; [|discriminate].
           exists t, d. auto.
        -- intros (t & d & H1 & H2 & H3). exists t. split.
           ++ unfold Insights.dayOf. now rewrite H2.
           ++ apply filter_In. split; [exact H1|].
              unfold Insights.definedDay. now rewrite H2.
      * eapply Nat.le_trans; [apply InsightFacts.unique_length|].
        now rewrite length_map.
    + destruct (Z.eqb_spec (HabitPattern.avgDuration habit) 0) as [Hz | Hz].
      * split; [intros H; rewrite Hz in H; discriminate|].
        intros H. exfalso. apply H. exists habit. auto.
      * split; [|reflexivity]. intros _ (h & [= <-] & H). contradiction.
  - split; [constructor|]. split; [constructor|]. split; [discriminate|].
    split; [|reflexivity]. intros _ (h & H & _). discriminate.
Qed.

Module TimeFacts.
Import Js Habits DateFns.

Lemma getDay_range (d : Date) : 0 <= getDay d <= 6.
Proof.
  unfold getDay. assert (H := Z.mod_pos_bound (d / millisecondsInDay + 4) 7). lia.
Qed.

Lemma getHours_range (d : Date) : 0 <= getHours d <= 23.
Proof.
  unfold getHours, millisecondsInDay, millisecondsInHour.
  assert (H := Z.mod_pos_bound d 86400000 eq_refl). split.
  - apply Z.div_pos; lia.
  - assert (H' : d mod 86400000 / 3600000 < 24)
      by (apply Z.div_lt_upper_bound; lia). lia.
Qed.

Lemma getMinutes_range (d : Date) : 0 <= getMinutes d <= 59.
Proof.
  unfold getMinutes, millisecondsInHour, millisecondsInMinute.
  assert (H := Z.mod_pos_bound d 3600000 eq_refl). split.
  - apply Z.div_pos; lia.
  - assert (H' : d mod 3600000 / 60000 < 60)
      by (apply Z.div_lt_upper_bound; lia). lia.
Qed.

Lemma Forall_skipn {A : Type} (P : A -> Prop) (n : nat) (l : list A) :
  Forall P l -> Forall P (skipn n l).
Proof.
  intros H. rewrite <- (firstn_skipn n l) in H. apply Forall_app in H. apply H.
Qed.

Lemma Forall_setAt {A : Type} (P : A -> Prop) (i : nat) (v : A) (l : list A) :
  P v -> Forall P l -> Forall P (setAt i v l).
Proof.
  intros Hv. revert i. induction l as [|a l IH]; intros [|i] Hl; simpl;
    try constructor; inversion Hl; subst; auto.
Qed.

Section Valid.
(** A weekday, an hour of the day and a minute of the hour. *)
Let valid (t : TimeSlot) : Prop :=
  (exists d, TimeSlot.dayOfWeek t = Some d /\ 0 <= d <= 6) /\
  0 <= TimeSlot.hour t <= 23 /\ 0 <= TimeSlot.minute t <= 59.

Lemma updatePreferredTimes_valid (existing : list TimeSlot) (newSlot : TimeSlot) :
  valid newSlot -> Forall valid existing ->
  Forall valid (updatePreferredTimes existing newSlot).
Proof.
  intros Hnew Hall. unfold updatePreferredTimes.
  destruct (findIndex (similarTo newSlot) existing) as [i|] eqn:Hfind.
  - destruct (nth_error existing i) as [similar|] eqn:Hnth; [|exact Hall].
    cbv zeta. apply Forall_setAt; [|exact Hall].
    apply nth_error_In in Hnth. rewrite Forall_forall in Hall.
    destruct (Hall similar Hnth) as (Hd & Hh & Hm).
    destruct Hnew as (_ & Hh' & Hm').
    assert (H1 := HabitRun.roundDiv_spec
                    (TimeSlot.hour similar + TimeSlot.hour newSlot) 2 ltac:(lia)).
    assert (H2 := HabitRun.roundDiv_spec
                    (TimeSlot.minute similar + TimeSlot.minute newSlot) 2 ltac:(lia)).
    unfold valid. simpl. split; [exact Hd | lia].
  - unfold sliceLast. apply Forall_skipn, Forall_app. split; [exact Hall|].
    constructor; [exact Hnew | constructor].
Qed.

Lemma learnAll_valid (calls : list (Env * CalendarEvent)) (db : Table) :
  learnAll calls [] = Ok db ->
  forall h, In h db -> Forall valid (HabitPattern.preferredTimes h).
Proof.
  intros Hrun.
  assert (Hevent : forall event,
            valid (TimeSlot.mk (Some (getDay (Event.start event)))
                               (getHours (Event.start event))
                               (getMinutes (Event.start event)))).
  { intros event. unfold valid. simpl. split; [|split].
    - eexists. split; [reflexivity | apply getDay_range].
    - apply getHours_range.
    - apply getMinutes_range. }
  apply (HabitRows.learnAll_rows
           (fun h => Forall valid (HabitPattern.preferredTimes h)) (fun _ => True))
    with (rest := calls) (prefix := []) (db := []);
    auto using HabitRun.runInv_empty.
  - intros env event _. simpl. constructor; [apply Hevent | constructor].
  - intros env event h _ Hh. simpl. apply updatePreferredTimes_valid; auto.
  - intros h [].
Qed.

End Valid.

Lemma dayName_defined (d : Z) : 0 <= d <= 6 -> Insights.dayName d <> None.
Proof.
  intros Hd. unfold Insights.dayName.
  replace (0 <=? d) with true by (symmetry; apply Z.leb_le; lia).
  assert (H : (Z.to_nat d < 7)%nat) by lia.
  destruct (Z.to_nat d) as [|[|[|[|[|[|[|n]]]]]]]; simpl; try discriminate. lia.
Qed.

End TimeFacts.

(** X26.  After any run of [learnFromEvent] from an empty table, every
    preferred time of every pattern has a weekday from 0 to 6, an hour from
    0 to 23 and a minute from 0 to 59; so the preferred days that
    [getHabitInsights] lists for the table are names of days, none is
    undefined. *)
Theorem learnAll_times_valid (calls : list (Habits.Env * CalendarEvent))
  (db : Habits.Table) :
  Habits.learnAll calls [] = Habits.Ok db ->
  (forall h t, In h db -> In t (HabitPattern.preferredTimes h) ->
     (exists d, TimeSlot.dayOfWeek t = Some d /\ 0 <= d <= 6) /\
     0 <= TimeSlot.hour t <= 23 /\ 0 <= TimeSlot.minute t <= 59)
  /\ (forall category day,
        In day (Insights.preferredDays (Insights.getHabitInsights db category)) ->
        exists name, day = Some name /\ In name Insights.dayNames).
Proof.
  intros Hrun.
  assert (Hvalid := TimeFacts.learnAll_valid calls db Hrun).
  split.
  - intros h t Hh Ht. specialize (Hvalid h Hh). rewrite Forall_forall in Hvalid.
    exact (Hvalid t Ht).
  - intros category day Hday. unfold Insights.getHabitInsights in Hday.
    destruct (find (fun h => EventCategory_eqb (HabitPattern.category h) category) db)
      as [habit|] eqn:Hfind; [|destruct Hday].
    cbn [Insights.preferredDays] in Hday.
    apply (proj1 (proj2 (InsightFacts.unique_spec _ InsightFacts.optionStringEqb_eq _)
                   _)) in Hday.
    apply in_map_iff in Hday. destruct Hday as (t & <- & Ht).
    apply filter_In in Ht. destruct Ht as (Ht & _).
    apply find_some in Hfind. destruct Hfind as (Hin & _).
    specialize (Hvalid habit Hin). rewrite Forall_forall in Hvalid.
    destruct (Hvalid t Ht) as ((d & Hd & Hrange) & _).
    unfold Insights.dayOf. rewrite Hd.
    destruct (Insights.dayName d) as [name|] eqn:Hname.
    + exists name. split; [reflexivity|].
      unfold Insights.dayName in Hname.
      destruct (0 <=? d); [|discriminate].
      eapply nth_error_In. exact Hname.
    + exfalso. now apply (TimeFacts.dayName_defined d).
Qed.

Lemma learnAll_times_valid_witness :
  exists db, Habits.learnAll sampleCalls [] = Habits.Ok db
             /\ forall h t, In h db -> In t (HabitPattern.preferredTimes h) ->
                  (exists d, TimeSlot.dayOfWeek t = Some d /\ 0 <= d <= 6) /\
                  0 <= TimeSlot.hour t <= 23 /\ 0 <= TimeSlot.minute t <= 59.
Proof.
  refine (ex_intro _ _ (conj eq_refl
            (proj1 (learnAll_times_valid sampleCalls _ eq_refl)))).
Defined.

(* ===================================================================== *)
(** ** The conflicts of the calendar store *)

Module StoreFacts.
Import Js Store JsFacts.

Lemma overlapping_iff (a b : CalendarEvent) :
  overlapping a b = true <-> strictOverlap a b.
Proof.
  unfold overlapping, strictOverlap.
  rewrite andb_true_iff, Z.ltb_lt, Z.gtb_ltb, Z.ltb_lt. tauto.
Qed.

Lemma extend_In (a b : string) (c : Conflict) (v : string) :
  In v (Conflict.events (extend a b c)) <-> In v (Conflict.events c) \/ v = a \/ v = b.
Proof. unfold extend. simpl. rewrite !set_add_In. tauto. Qed.

Lemma merge_Some (a b : string) (conflicts conflicts' : list Conflict) :
  merge a b conflicts = Some conflicts' ->
  exists l1 c l2,
    conflicts = l1 ++ c :: l2 /\ conflicts' = l1 ++ extend a b c :: l2 /\
    involves a b c = true.
Proof.
  revert conflicts'. induction conflicts as [|c rest IH]; intros conflicts'; simpl;
    [discriminate|].
  destruct (involves a b c) eqn:Hc.
  - intros [= <-]. exists [], c, rest. auto.
  - destruct (merge a b rest) as [rest'|]; [|discriminate].
    intros [= <-]. destruct (IH rest' eq_refl) as (l1 & c0 & l2 & -> & -> & H).
    exists (c :: l1), c0, l2. auto.
Qed.

(** The three ways in which one round of the inner loop ends. *)
Lemma checkPair_cases (clock : nat -> Z) (i j : nat) (eventA eventB : CalendarEvent)
  (conflicts : list Conflict) :
  (overlapping eventA eventB = false /\
   snd (checkPair clock i eventA (j, conflicts) eventB) = conflicts)
  \/ (overlapping eventA eventB = true /\
      exists l1 c l2,
        conflicts = l1 ++ c :: l2 /\
        involves (Event.id eventA) (Event.id eventB) c = true /\
        snd (checkPair clock i eventA (j, conflicts) eventB)
        = l1 ++ extend (Event.id eventA) (Event.id eventB) c :: l2)
  \/ (overlapping eventA eventB = true /\
      exists id,
        snd (checkPair clock i eventA (j, conflicts) eventB)
        = conflicts ++ [Conflict.mk id [Event.id eventA; Event.id eventB]
                                    overlap medium]).
Proof.
  unfold checkPair. cbn [snd].
  destruct (overlapping eventA eventB); [right | left; auto].
  destruct (merge (Event.id eventA) (Event.id eventB) conflicts) as [conflicts'|] eqn:Hm.
  - left. split; [reflexivity|].
    destruct (merge_Some _ _ _ _ Hm) as (l1 & c & l2 & H1 & H2 & H3).
    exists l1, c, l2. auto.
  - right. split; [reflexivity|]. eexists. reflexivity.
Qed.

Section Loops.
Variable clock : nat -> Z.

Lemma fold_invariant (I : list Conflict -> Prop) (i : nat) (eventA : CalendarEvent)
  (rest : list CalendarEvent) :
  (forall eventB conflicts j,
      In eventB rest -> I conflicts ->
      I (snd (checkPair clock i eventA (j, conflicts) eventB))) ->
  forall st, I (snd st) -> I (snd (fold_left (checkPair clock i eventA) rest st)).
Proof.
  induction rest as [|eventB rest IH]; intros Hstep [j conflicts] Hst; [exact Hst|].
  cbn [fold_left]. apply IH.
  - intros B cs k HB. apply Hstep. now right.
  - assert (H := Hstep eventB conflicts j (or_introl eq_refl) Hst).
    destruct (checkPair clock i eventA (j, conflicts) eventB). exact H.
Qed.

(** What every round keeps holds at the end of the loops. *)
Lemma checkPairs_invariant (I : list Conflict -> Prop) (sorted : list CalendarEvent) :
  (forall eventA eventB conflicts i j,
      In (eventA, eventB) (pairs sorted) -> I conflicts ->
      I (snd (checkPair clock i eventA (j, conflicts) eventB))) ->
  forall i conflicts, I conflicts -> I (checkPairs clock i sorted conflicts).
Proof.
  induction sorted as [|eventA rest IH]; intros Hstep i conflicts Hc; [exact Hc|].
  cbn [checkPairs]. apply IH.
  - intros A B cs k j Hp. apply Hstep. simpl. apply in_app_iff. now right.
  - apply fold_invariant; [|exact Hc].
    intros B cs j HB. apply Hstep. simpl. apply in_app_iff. left.
    now apply in_map.
Qed.

(** What the round of a pair brings about, and every round keeps, holds
    at the end of the loops. *)
Lemma checkPairs_reaches (M : list Conflict -> Prop) (sorted : list CalendarEvent)
  (eventA eventB : CalendarEvent) :
  (forall A B conflicts i j,
      M conflicts -> M (snd (checkPair clock i A (j, conflicts) B))) ->
  (forall conflicts i j, M (snd (checkPair clock i eventA (j, conflicts) eventB))) ->
  In (eventA, eventB) (pairs sorted) ->
  forall i conflicts, M (checkPairs clock i sorted conflicts).
Proof.
  intros Hkeep Hmake.
  induction sorted as [|a rest IH]; intros Hp i conflicts; [destruct Hp|].
  simpl in Hp. apply in_app_iff in Hp. cbn [checkPairs].
  destruct Hp as [Hp | Hp]; [|now apply IH].
  apply checkPairs_invariant; [intros; now apply Hkeep|].
  apply in_map_iff in Hp. destruct Hp as (b & [= <- <-] & Hb).
  destruct (in_split _ _ Hb) as (l1 & l2 & ->).
  rewrite fold_left_app. cbn [fold_left].
  apply fold_invariant; [intros; now apply Hkeep|].
  destruct (fold_left (checkPair clock i a) l1 (S i, conflicts)) as [j cs].
  apply Hmake.
Qed.

End Loops.

End StoreFacts.

(** X27.  Every conflict that the store's [detectConflicts] sets is of type
    overlap and of severity medium, however many events it holds, and holds
    two ids or more; and any two events of the list that strictly overlap,
    all-day or not, have their ids together in one of the conflicts. *)
Theorem store_detectConflicts_pairs (clock : nat -> Z) (events : list CalendarEvent) :
  Forall (fun c => Conflict.type c = overlap /\ Conflict.severity c = medium /\
                   (2 <= length (Conflict.events c))%nat)
         (Store.detectConflicts clock events)
  /\ (forall x y, In x events -> In y events -> x <> y -> strictOverlap x y ->
        exists c, In c (Store.detectConflicts clock events) /\
                  In (Event.id x) (Conflict.events c) /\
                  In (Event.id y) (Conflict.events c)).
Proof.
  unfold Store.detectConflicts. split.
  - apply StoreFacts.checkPairs_invariant; [|constructor].
    intros A B cs i j _ Hcs.
    destruct (StoreFacts.checkPair_cases clock i j A B cs)
      as [(_ & ->) | [(_ & l1 & c & l2 & -> & _ & ->) | (_ & id & ->)]].
    + exact Hcs.
    + apply Forall_app in Hcs. destruct Hcs as (H1 & H2).
      apply Forall_cons_iff in H2. destruct H2 as ((Ht & Hs & Hl) & H2).
      apply Forall_app. split; [exact H1|]. constructor; [|exact H2].
      unfold Store.extend. simpl. split; [exact Ht|]. split; [exact Hs|].
      unfold Js.set_add.
      repeat match goal with
             | |- context [if ?b then _ else _] => destruct b
             end; rewrite ?length_app; simpl; lia.
    + apply Forall_app. split; [exact Hcs|]. repeat constructor.
  - assert (Hpair : forall x y, In (x, y) (pairs (Js.sort Store.byStart events)) ->
              strictOverlap x y ->
              exists c, In c (Store.checkPairs clock 0 (Js.sort Store.byStart events) [])
                        /\ In (Event.id x) (Conflict.events c)
                        /\ In (Event.id y) (Conflict.events c)).
    { intros x y Hp Hov.
      apply (StoreFacts.checkPairs_reaches clock
               (fun cs => exists c, In c cs /\ In (Event.id x) (Conflict.events c)
                                    /\ In (Event.id y) (Conflict.events c))
               _ x y); [| |exact Hp].
      - intros A B cs i j (c & Hc & Hx & Hy).
        destruct (StoreFacts.checkPair_cases clock i j A B cs)
          as [(_ & ->) | [(_ & l1 & c0 & l2 & -> & _ & ->) | (_ & id & ->)]].
        + exists c. auto.
        + apply in_app_iff in Hc. destruct Hc as [Hc | [<- | Hc]].
          * exists c. rewrite in_app_iff. auto.
          * exists (Store.extend (Event.id A) (Event.id B) c0).
            rewrite in_app_iff, !StoreFacts.extend_In. simpl. tauto.
          * exists c. rewrite in_app_iff. simpl. auto.
        + exists c. rewrite in_app_iff. auto.
      - intros cs i j. apply StoreFacts.overlapping_iff in Hov.
        destruct (StoreFacts.checkPair_cases clock i j x y cs)
          as [(Hf & _) | [(_ & l1 & c0 & l2 & -> & _ & ->) | (_ & id & ->)]].
        + congruence.
        + exists (Store.extend (Event.id x) (Event.id y) c0).
          rewrite in_app_iff, !StoreFacts.extend_In. simpl. tauto.
        + eexists. rewrite in_app_iff. simpl. split; [right; left; reflexivity|].
          simpl. tauto. }
    intros x y Hx Hy Hne Hov.
    destruct (MapFacts.pairs_complete (Js.sort Store.byStart events) x y) as [Hp | Hp];
      try (apply SortFacts.sort_In; assumption); try assumption.
    + now apply Hpair.
    + destruct (Hpair y x Hp) as (c & Hc & H1 & H2).
      * unfold strictOverlap in *. tauto.
      * exists c. auto.
Qed.

Module StoreLinks.
Import Js Store JsFacts StoreFacts.

Section Linked.
Variable events : list CalendarEvent.
Hypothesis distinct_ids : NoDup (ids events).

(** Two ids of events of the list that are connected in the overlap
    graph. *)
Let linked (u v : string) : Prop :=
  exists x y, In x events /\ In y events /\ Event.id x = u /\ Event.id y = v /\
              connectedAll events x y.

Lemma connectedAll_sym (x y : CalendarEvent) :
  connectedAll events x y -> connectedAll events y x.
Proof.
  induction 1 as [a b (Ha & Hb & Hov) | a | a b c _ IH1 _ IH2].
  - apply rt_step. unfold overlapEdgeAll, strictOverlap in *. tauto.
  - apply rt_refl.
  - eapply rt_trans; eassumption.
Qed.

Lemma linked_sym (u v : string) : linked u v -> linked v u.
Proof.
  intros (x & y & Hx & Hy & Hu & Hv & Hc). exists y, x.
  repeat split; auto. now apply connectedAll_sym.
Qed.

Lemma linked_trans (u w v : string) : linked u w -> linked w v -> linked u v.
Proof.
  intros (x & y & Hx & Hy & Hu & Hw & Hc) (y' & z & Hy' & Hz & Hw' & Hv & Hc').
  assert (y = y').
  { apply (ListFacts.NoDup_map_injective Event.id events); auto. congruence. }
  subst y'. exists x, z. repeat split; auto. eapply rt_trans; eassumption.
Qed.

Lemma linked_refl (x : CalendarEvent) : In x events -> linked (Event.id x) (Event.id x).
Proof. intros Hx. exists x, x. repeat split; auto. apply rt_refl. Qed.

Lemma linked_edge (x y : CalendarEvent) :
  In x events -> In y events -> strictOverlap x y -> linked (Event.id x) (Event.id y).
Proof.
  intros Hx Hy Hov. exists x, y. repeat split; auto.
  apply rt_step. unfold overlapEdgeAll. auto.
Qed.

(** Every round keeps the ids of each conflict linked to each other. *)
Lemma checkPair_linked (clock : nat -> Z) (i j : nat) (eventA eventB : CalendarEvent)
  (conflicts : list Conflict) :
  In eventA events -> In eventB events ->
  Forall (fun c => forall u v, In u (Conflict.events c) -> In v (Conflict.events c) ->
                               linked u v) conflicts ->
  Forall (fun c => forall u v, In u (Conflict.events c) -> In v (Conflict.events c) ->
                               linked u v)
         (snd (checkPair clock i eventA (j, conflicts) eventB)).
Proof.
  intros HA HB Hcs.
  destruct (checkPair_cases clock i j eventA eventB conflicts)
    as [(_ & ->) | [(Hov & l1 & c & l2 & -> & Hinv & ->) | (Hov & id & ->)]].
  - exact Hcs.
  - apply overlapping_iff in Hov.
    apply Forall_app in Hcs. destruct Hcs as (H1 & H2).
    apply Forall_cons_iff in H2. destruct H2 as (Hc & H2).
    apply Forall_app. split; [exact H1|]. constructor; [|exact H2].
    assert (Hanchor : exists w, In w (Conflict.events c) /\
                                linked (Event.id eventA) w /\
                                linked (Event.id eventB) w).
    { unfold involves in Hinv. apply orb_true_iff in Hinv.
      rewrite !set_has_In in Hinv. destruct Hinv as [Hw | Hw].
      - exists (Event.id eventA). split; [exact Hw|]. split.
        + now apply linked_refl.
        + apply linked_sym. now apply linked_edge.
      - exists (Event.id eventB). split; [exact Hw|]. split.
        + now apply linked_edge.
        + now apply linked_refl. }
    destruct Hanchor as (w & Hw & HAw & HBw).
    assert (Hall : forall u, In u (Conflict.events
                                     (extend (Event.id eventA) (Event.id eventB) c)) ->
                             linked u w).
    { intros u Hu. apply extend_In in Hu.
      destruct Hu as [Hu | [-> | ->]]; [now apply Hc | exact HAw | exact HBw]. }
    intros u v Hu Hv. eapply linked_trans; [apply Hall, Hu|].
    apply linked_sym, Hall, Hv.
  - apply overlapping_iff in Hov.
    apply Forall_app. split; [exact Hcs|]. constructor; [|constructor].
    simpl. intros u v [<- | [<- | []]] [<- | [<- | []]].
    + now apply linked_refl.
    + now apply linked_edge.
    + apply linked_sym. now apply linked_edge.
    + now apply linked_refl.
Qed.

Lemma detectConflicts_linked (clock : nat -> Z) :
  Forall (fun c => forall u v, In u (Conflict.events c) -> In v (Conflict.events c) ->
                               linked u v)
         (detectConflicts clock events).
Proof.
  unfold detectConflicts. apply checkPairs_invariant; [|constructor].
  intros A B cs i j Hp Hcs. apply MapFacts.In_pairs in Hp.
  rewrite !SortFacts.sort_In in Hp. now apply checkPair_linked.
Qed.

End Linked.

End StoreLinks.

(** X28.  When the ids of the events are distinct, the ids that a conflict
    of the store holds are ids of events of the list that are connected to
    each other by chains of strictly overlapping events of the list. *)
Theorem store_detectConflicts_connected (clock : nat -> Z) (events : list CalendarEvent) :
  NoDup (ids events) ->
  Forall (fun c =>
            forall u v, In u (Conflict.events c) -> In v (Conflict.events c) ->
              exists x y, In x events /\ In y events /\
                          Event.id x = u /\ Event.id y = v /\
                          connectedAll events x y)
         (Store.detectConflicts clock events).
Proof. intros Hnd. now apply StoreLinks.detectConflicts_linked. Qed.

Lemma store_detectConflicts_connected_witness :
  NoDup (ids sampleEvents)
  /\ Forall (fun c =>
               forall u v, In u (Conflict.events c) -> In v (Conflict.events c) ->
                 exists x y, In x sampleEvents /\ In y sampleEvents /\
                             Event.id x = u /\ Event.id y = v /\
                             connectedAll sampleEvents x y)
            (Store.detectConflicts sampleClock sampleEvents).
Proof.
  assert (Hnd : NoDup (ids sampleEvents)).
  { unfold ids. simpl. repeat constructor; simpl; intuition discriminate. }
  exact (conj Hnd (store_detectConflicts_connected sampleClock sampleEvents Hnd)).
Defined.

(** X29.  The store does not leave the all-day events out: for two events
    that strictly overlap, the first of which does not start after the
    second, it sets one conflict that holds both, of severity medium, while
    [detectConflicts] of the scheduler reports nothing when one of the two
    is all-day. *)
Theorem store_counts_all_day_events (clock : nat -> Z) (a b : CalendarEvent) :
  strictOverlap a b ->
  Event.start a <= Event.start b ->
  Store.detectConflicts clock [a; b]
  = [Conflict.mk (Store.conflictId (clock 0%nat) 0 1) [Event.id a; Event.id b]
                 overlap medium]
  /\ (Event.isAllDay a = true \/ Event.isAllDay b = true ->
      Conflicts.detectConflicts clock [a; b] = []).
Proof.
  intros Hov Hle. split.
  - unfold Store.detectConflicts. simpl.
    unfold Store.byStart at 1. unfold DateFns.getTime.
    replace (Event.start a - Event.start b <=? 0) with true
      by (symmetry; apply Z.leb_le; lia).
    simpl. apply StoreFacts.overlapping_iff in Hov. now rewrite Hov.
  - intros Hall. apply PairFacts.pair_none. tauto.
Qed.

Lemma store_counts_all_day_events_witness :
  strictOverlap (Event.mk "e" 0 86400000 (Some true) None)
                (meeting "a" (9 * 3600000) (11 * 3600000))
  /\ Event.start (Event.mk "e" 0 86400000 (Some true) None)
     <= Event.start (meeting "a" (9 * 3600000) (11 * 3600000))
  /\ Store.detectConflicts sampleClock
       [Event.mk "e" 0 86400000 (Some true) None;
        meeting "a" (9 * 3600000) (11 * 3600000)]
     = [Conflict.mk "conflict-0-0-1" ["e"; "a"]%string overlap medium].
Proof.
  assert (H1 : strictOverlap (Event.mk "e" 0 86400000 (Some true) None)
                             (meeting "a" (9 * 3600000) (11 * 3600000)))
    by (unfold strictOverlap; simpl; lia).
  assert (H2 : Event.start (Event.mk "e" 0 86400000 (Some true) None)
               <= Event.start (meeting "a" (9 * 3600000) (11 * 3600000)))
    by (simpl; lia).
  exact (conj H1 (conj H2 (proj1 (store_counts_all_day_events sampleClock _ _ H1 H2)))).
Defined.

(* ===================================================================== *)
(** ** No free time is missed *)

Module FreeSlotComplete.
Import Js Suggestions DateFns FreeSlotSpec FreeSlotFacts.

Section Window.
Variable events : list CalendarEvent.
Variables minDuration windowStart windowEnd : Z.

(** Where a gap can start: at the start of the window, at its end, or at
    the end of an event. *)
Let fromBound (x : Z) : Prop :=
  x = windowStart \/ x = windowEnd \/
  exists e, In e events /\ Event.isAllDay e = false /\ Event.end_ e = x.

(** Where a gap can end. *)
Let toBound (x : Z) : Prop :=
  x = windowStart \/ x = windowEnd \/
  exists e, In e events /\ Event.isAllDay e = false /\ Event.start e = x.

Lemma gap_long (from to : Z) :
  from < to -> minDuration * millisecondsInMinute <= to - from ->
  exists s, In s (gap minDuration from to) /\
            FreeSlot.start s = from /\ FreeSlot.end_ s = to.
Proof.
  intros Hlt Hlen. unfold gap.
  replace (from <? to) with true by (symmetry; apply Z.ltb_lt; lia).
  replace (minDuration * millisecondsInMinute <=? to - from) with true
    by (symmetry; apply Z.leb_le; lia).
  simpl. eexists. split; [left; reflexivity | simpl; auto].
Qed.

(** From the cursor to the end of the window every instant is in an event
    of the scan, in a slot, or in a gap that is too short. *)
Lemma cursorScan_complete (l : list CalendarEvent) :
  (forall e, In e l -> In e events /\ Event.isAllDay e = false) ->
  forall cursor t,
    windowStart <= cursor -> fromBound cursor -> cursor <= t < windowEnd ->
    (exists e, In e l /\ Event.start e <= t < Event.end_ e)
    \/ (exists s, In s (cursorScan minDuration windowStart windowEnd cursor l) /\
                  FreeSlot.start s <= t <= FreeSlot.end_ s)
    \/ (exists from to, fromBound from /\ toBound to /\ from <= t < to /\
                        to - from < minDuration * millisecondsInMinute).
Proof.
  induction l as [|e l IH]; intros Hl cursor t Hws Hb Ht; cbn [cursorScan].
  - destruct (Z.le_gt_cases (minDuration * millisecondsInMinute) (windowEnd - cursor))
      as [Hlong | Hshort].
    + right. left. destruct (gap_long cursor windowEnd) as (s & Hs & H1 & H2);
        [lia | exact Hlong|].
      exists s. split; [exact Hs | lia].
    + right. right. exists cursor, windowEnd.
      split; [exact Hb|]. split; [right; now left | lia].
  - destruct (Hl e (or_introl eq_refl)) as (He & Hall).
    destruct (Z.lt_ge_cases t (clamp windowStart windowEnd (Event.start e)))
      as [Hbefore | Hafter].
    + destruct (Z.le_gt_cases (minDuration * millisecondsInMinute)
                  (clamp windowStart windowEnd (Event.start e) - cursor))
        as [Hlong | Hshort].
      * right. left.
        destruct (gap_long cursor (clamp windowStart windowEnd (Event.start e)))
          as (s & Hs & H1 & H2); [lia | exact Hlong|].
        exists s. split; [apply in_app_iff; now left | lia].
      * right. right. exists cursor, (clamp windowStart windowEnd (Event.start e)).
        split; [exact Hb|]. split; [|lia].
        unfold toBound, clamp.
        destruct (Z.max_spec windowStart (Z.min windowEnd (Event.start e)))
          as [(_ & ->) | (_ & ->)]; [|now left].
        destruct (Z.min_spec windowEnd (Event.start e)) as [(_ & ->) | (_ & ->)];
          [right; now left|].
        right. right. exists e. auto.
    + destruct (Z.le_gt_cases
                  (Z.max cursor (clamp windowStart windowEnd (Event.end_ e))) t)
        as [Hnext | Hin].
      * destruct (IH (fun x Hx => Hl x (or_intror Hx))
                    (Z.max cursor (clamp windowStart windowEnd (Event.end_ e))) t)
          as [(x & Hx & Hxt) | [(s & Hs & Hst) | Hgap]].
        -- lia.
        -- unfold fromBound, clamp.
           destruct (Z.max_spec cursor
                       (Z.max windowStart (Z.min windowEnd (Event.end_ e))))
             as [(_ & ->) | (_ & ->)]; [|exact Hb].
           destruct (Z.max_spec windowStart (Z.min windowEnd (Event.end_ e)))
             as [(_ & ->) | (_ & ->)]; [|now left].
           destruct (Z.min_spec windowEnd (Event.end_ e)) as [(_ & ->) | (_ & ->)];
             [right; now left|].
           right. right. exists e. auto.
        -- lia.
        -- left. exists x. split; [now right | exact Hxt].
        -- right. left. exists s. split; [apply in_app_iff; now right | exact Hst].
        -- right. right. exact Hgap.
      * left. exists e. split; [now left|]. unfold clamp in *. lia.
Qed.

Lemma daySlots_complete (t : Z) :
  windowStart <= t < windowEnd ->
  (exists e, In e events /\ Event.isAllDay e = false /\ Event.start e <= t < Event.end_ e)
  \/ (exists s, In s (daySlots events minDuration windowStart windowEnd) /\
                FreeSlot.start s <= t <= FreeSlot.end_ s)
  \/ (exists from to,
        (from = windowStart \/
         exists e, In e events /\ Event.isAllDay e = false /\ Event.end_ e = from) /\
        (to = windowEnd \/
         exists e, In e events /\ Event.isAllDay e = false /\ Event.start e = to) /\
        from <= t < to /\ to - from < minDuration * millisecondsInMinute).
Proof.
  intros Ht. unfold daySlots.
  assert (Hl : forall e,
            In e (sort byStart (filter (relevant windowStart windowEnd) events)) ->
            In e events /\ Event.isAllDay e = false).
  { intros e He. apply SortFacts.sort_In, filter_In in He. destruct He as (He & Hrel).
    split; [exact He|]. unfold relevant in Hrel.
    rewrite !andb_true_iff, negb_true_iff in Hrel. tauto. }
  destruct (cursorScan_complete _ Hl windowStart t)
    as [(e & He & Het) | [Hslot | (from & to & Hf & Hto & Hft & Hshort)]];
    [lia | now left | lia | | |].
  - left. exists e. destruct (Hl e He). auto.
  - right. left. exact Hslot.
  - right. right. exists from, to.
    split; [|split; [|split; assumption]].
    + destruct Hf as [Hf | [Hf | Hf]]; [now left | lia | now right].
    + destruct Hto as [Hto | [Hto | Hto]]; [lia | now left | now right].
Qed.

End Window.

End FreeSlotComplete.

(** X30.  With working hours in HH:mm form whose start is not after their
    end, and events with well-formed intervals, [findFreeSlots] misses no
    free time: every instant of the working window of a day of the range
    is in an event that is not all-day, or in one of the slots returned, or
    in a gap shorter than [minDuration] minutes that runs from the start of
    the window or the end of an event to the start of an event or the end
    of the window. *)
Theorem findFreeSlots_complete (events : list CalendarEvent)
  (startDate endDate : DateFns.Date) (workingHours : WorkingHours.t)
  (startHour startMin endHour endMin minDuration : Z) (day t : DateFns.Date) :
  Suggestions.hourAndMinute (WorkingHours.start workingHours)
    = (Some startHour, Some startMin) ->
  Suggestions.hourAndMinute (WorkingHours.end_ workingHours)
    = (Some endHour, Some endMin) ->
  FreeSlotSpec.at_ 0 startHour startMin <= FreeSlotSpec.at_ 0 endHour endMin ->
  (forall e, In e events -> Event.isAllDay e = false -> wellFormed e) ->
  In day (FreeSlotSpec.days startDate endDate) ->
  FreeSlotSpec.at_ day startHour startMin <= t < FreeSlotSpec.at_ day endHour endMin ->
  (exists e, In e events /\ Event.isAllDay e = false /\ Event.start e <= t < Event.end_ e)
  \/ (exists s,
        In s (Suggestions.findFreeSlots events startDate endDate workingHours minDuration)
        /\ FreeSlot.start s <= t <= FreeSlot.end_ s)
  \/ (exists from to,
        (from = FreeSlotSpec.at_ day startHour startMin \/
         exists e, In e events /\ Event.isAllDay e = false /\ Event.end_ e = from) /\
        (to = FreeSlotSpec.at_ day endHour endMin \/
         exists e, In e events /\ Event.isAllDay e = false /\ Event.start e = to) /\
        from <= t < to /\ to - from < minDuration * DateFns.millisecondsInMinute).
Proof.
  intros Hs He Hw Hev Hday Ht.
  rewrite (FreeSlotClaims.findFreeSlots_freeSlots events startDate endDate
             workingHours startHour startMin endHour endMin minDuration Hs He Hw Hev).
  destruct (FreeSlotComplete.daySlots_complete events minDuration _ _ t Ht)
    as [Hevent | [(s & Hslot & Hst) | Hgap]].
  - now left.
  - right. left. exists s. split; [|exact Hst].
    unfold FreeSlotSpec.freeSlots. apply in_flat_map. exists day. auto.
  - right. right. exact Hgap.
Qed.

Lemma findFreeSlots_complete_witness :
  Suggestions.hourAndMinute "09:00" = (Some 9, Some 0)
  /\ Suggestions.hourAndMinute "18:00" = (Some 18, Some 0)
  /\ FreeSlotSpec.at_ 0 9 0 <= FreeSlotSpec.at_ 0 18 0
  /\ (forall e, In e sampleEvents -> Event.isAllDay e = false -> wellFormed e)
  /\ In 0 (FreeSlotSpec.days 0 0)
  /\ FreeSlotSpec.at_ 0 9 0 <= 14 * 3600000 < FreeSlotSpec.at_ 0 18 0
  /\ ((exists e, In e sampleEvents /\ Event.isAllDay e = false /\
                 Event.start e <= 14 * 3600000 < Event.end_ e)
      \/ (exists s,
            In s (Suggestions.findFreeSlots sampleEvents 0 0
                    (WorkingHours.mk "09:00" "18:00") 30)
            /\ FreeSlot.start s <= 14 * 3600000 <= FreeSlot.end_ s)
      \/ (exists from to,
            (from = FreeSlotSpec.at_ 0 9 0 \/
             exists e, In e sampleEvents /\ Event.isAllDay e = false /\
                       Event.end_ e = from) /\
            (to = FreeSlotSpec.at_ 0 18 0 \/
             exists e, In e sampleEvents /\ Event.isAllDay e = false /\
                       Event.start e = to) /\
            from <= 14 * 3600000 < to /\
            to - from < 30 * DateFns.millisecondsInMinute)).
Proof.
  assert (H1 : Suggestions.hourAndMinute "09:00" = (Some 9, Some 0)) by reflexivity.
  assert (H2 : Suggestions.hourAndMinute "18:00" = (Some 18, Some 0)) by reflexivity.
  assert (H3 : FreeSlotSpec.at_ 0 9 0 <= FreeSlotSpec.at_ 0 18 0)
    by (unfold FreeSlotSpec.at_; simpl; lia).
  assert (H4 : forall e, In e sampleEvents -> Event.isAllDay e = false -> wellFormed e).
  { intros e He _. simpl in He.
    repeat (destruct He as [<- | He]; [unfold wellFormed; simpl; lia|]).
    destruct He. }
  assert (H5 : In 0 (FreeSlotSpec.days 0 0)) by (vm_compute; now left).
  assert (H6 : FreeSlotSpec.at_ 0 9 0 <= 14 * 3600000 < FreeSlotSpec.at_ 0 18 0)
    by (unfold FreeSlotSpec.at_; simpl; lia).
  refine (conj H1 (conj H2 (conj H3 (conj H4 (conj H5 (conj H6 _)))))).
  exact (findFreeSlots_complete sampleEvents 0 0 (WorkingHours.mk "09:00" "18:00")
           9 0 18 0 30 0 (14 * 3600000) H1 H2 H3 H4 H5 H6).
Defined.
